(** * image-socket: session/protocol control plane

  A shallow embedding of the control plane of the image-socket repository:

  - [ClientModel]   : src/network/clientmodel.{h,cpp}
  - [Window]        : ClientModel::recordFrameReceived, over [Double], the
                      binary64 arithmetic of its frame-rate computation
  - [Server]        : the session table of src/network/websocketserver.cpp
  - [Bridge]        : src/network/imageserverbridge.{h,cpp}
  - [Session]       : src/network/clientsession.cpp (wire discriminator)
  - [Client]        : src/network/websocketimageclient.cpp (connection state
                      machine, teardown, reconnect back-off)
  - [Roles]         : ClientModel::data and roleNames
  - [ImageServerBridge] : the bridge with its port, its listening socket and
                      its settings store: start, stop, setConfiguredFps, the
                      slots of WebSocketServer, and the events of a running
                      server
  - [QmlImageProvider]  : src/network/qmlimageprovider.cpp
  - [WebSocketImageClient] : sendFrame, sendControlMessage and the read
                      handler of the client; the pacing of
                      apps/client/example_client.cpp
  - [Diagnostics], [DiagnosticsModel], [DiagnosticsManager] : the event log
                      of the server application (apps/server)

  Qt signals are recorded in chronological order in an append-only log that
  is part of the state, so every slot is a function from state to state. *)

From Stdlib Require Import ZArith List String Ascii Bool Lia.
From Stdlib Require Import Strings.Byte.
From Stdlib Require Import DecimalString.
Import ListNotations.

Local Open Scope string_scope.
Local Open Scope list_scope.
Local Open Scope Z_scope.

(** ** Machine integers *)

(** [int] is a 32-bit two's complement integer.  Signed overflow is undefined
  in C++; the embedding writes out the wrap-around that the compilers in
  use produce, and the theorems say where they need its absence. *)
Module Int.
Definition INT_MAX : Z := 2147483647.
Definition INT_MIN : Z := -2147483648.

Definition wrap (z : Z) : Z := (z + 2147483648) mod 4294967296 - 2147483648.

Definition in_range (z : Z) : Prop := INT_MIN <= z <= INT_MAX.

(** [x++] on an [int]. *)
Definition incr (z : Z) : Z := wrap (z + 1).

End Int.

(** ** QString helpers used by the model *)

Definition isEmpty (s : string) : bool := String.eqb s "".

(** [QString::remove(QChar)]: deletes every occurrence of the character. *)
Fixpoint QString_remove (c : ascii) (s : string) : string :=
match s with
| EmptyString => EmptyString
| String a r => if Ascii.eqb a c then QString_remove c r
                else String a (QString_remove c r)
end.

(** [QString::left(n)]: the first [n] characters (all of them when shorter). *)
Fixpoint QString_left (n : nat) (s : string) : string :=
match n, s with
| S k, String a r => String a (QString_left k r)
| _, _ => EmptyString
end.

(** ** ClientModel (src/network/clientmodel.cpp) *)

Module ClientModel.

Record ClientEntry : Type := mkEntry {
  id : string;
  status : string;
  alias : string;
  configuredFps : Z;     (* int, 0 = unset *)
  measuredFps : Z;       (* int *)
  lastFrameTsMs : Z;     (* qint64 *)
  framesInWindow : Z;    (* int *)
  windowStartMs : Z      (* qint64, 0 = no window opened yet *)
}.

(** [ClientEntry e; e.id = id; e.status = status;] with the defaults of the
    struct declaration. *)
Definition newEntry (i st : string) : ClientEntry :=
  mkEntry i st "" 0 0 0 0 0.

Inductive Role : Type :=
  IdRole | StatusRole | AliasRole | ConfiguredFpsRole | MeasuredFpsRole.

(** Signals of the list model, in the order they are emitted. *)
Inductive Signal : Type :=
| rowsInserted (first last : Z)
| rowsRemoved (first last : Z)
| modelReset
| countChanged (newCount : Z)
| dataChanged (row : Z) (role : Role).

Record t : Type := mkModel {
  m_clients : list ClientEntry;
  emitted : list Signal
}.

Definition empty : t := mkModel [] [].

Definition emit (sg : Signal) (m : t) : t :=
  mkModel (m_clients m) (emitted m ++ [sg]).

Definition size (m : t) : Z := Z.of_nat (List.length (m_clients m)).

Definition rowCount (m : t) : Z := size m.

Definition ids (m : t) : list string := map id (m_clients m).

(** The loop of [indexOfClient], started at row [i]. *)
Fixpoint indexOf_from (i : Z) (x : string) (l : list ClientEntry) : Z :=
  match l with
  | [] => -1
  | e :: r => if String.eqb (id e) x then i else indexOf_from (i + 1) x r
  end.

Definition indexOfClient (x : string) (m : t) : Z :=
  indexOf_from 0 x (m_clients m).

(** [m_clients.at(idx)] for an index known to be in range. *)
Definition at_ (idx : Z) (m : t) : option ClientEntry :=
  if (idx <? 0) || (size m <=? idx) then None
  else nth_error (m_clients m) (Z.to_nat idx).

(** [m_clients[idx] = f(m_clients[idx])]. *)
Fixpoint set_nth (n : nat) (f : ClientEntry -> ClientEntry)
         (l : list ClientEntry) : list ClientEntry :=
  match l, n with
  | [], _ => []
  | e :: r, O => f e :: r
  | e :: r, S k => e :: set_nth k f r
  end.

Definition modify (idx : Z) (f : ClientEntry -> ClientEntry) (m : t) : t :=
  mkModel (set_nth (Z.to_nat idx) f (m_clients m)) (emitted m).

(** [m_clients.removeAt(idx)]. *)
Fixpoint remove_nth (n : nat) (l : list ClientEntry) : list ClientEntry :=
  match l, n with
  | [], _ => []
  | _ :: r, O => r
  | e :: r, S k => e :: remove_nth k r
  end.

Definition addClient (x st : string) (m : t) : t :=
  if negb (indexOfClient x m =? -1) then m
  else
    let m1 := emit (rowsInserted (size m) (size m)) m in
    let m2 := mkModel (m_clients m1 ++ [newEntry x st]) (emitted m1) in
    emit (countChanged (size m2)) m2.

Definition removeClient (x : string) (m : t) : t :=
  let idx := indexOfClient x m in
  if idx =? -1 then m
  else
    let m1 := mkModel (remove_nth (Z.to_nat idx) (m_clients m)) (emitted m) in
    emit (rowsRemoved idx idx) m1.

Definition clear (m : t) : t := emit modelReset (mkModel [] (emitted m)).

Definition clientIdAt (index : Z) (m : t) : string :=
  match at_ index m with
  | None => ""
  | Some e => id e
  end.

Definition aliasAt (index : Z) (m : t) : string :=
  match at_ index m with
  | None => ""
  | Some e =>
      if negb (isEmpty (alias e)) then alias e
      else
        let clean := QString_remove "}" (QString_remove "{" (id e)) in
        ("client_" ++ QString_left 4 clean)%string
  end.

Definition configuredFpsAt (index : Z) (m : t) : Z :=
  match at_ index m with
  | None => 0
  | Some e => configuredFps e
  end.

Definition measuredFpsAt (index : Z) (m : t) : Z :=
  match at_ index m with
  | None => 0
  | Some e => measuredFps e
  end.

Definition with_status (st : string) (e : ClientEntry) : ClientEntry :=
  mkEntry (id e) st (alias e) (configuredFps e) (measuredFps e)
          (lastFrameTsMs e) (framesInWindow e) (windowStartMs e).

Definition with_alias (a : string) (e : ClientEntry) : ClientEntry :=
  mkEntry (id e) (status e) a (configuredFps e) (measuredFps e)
          (lastFrameTsMs e) (framesInWindow e) (windowStartMs e).

Definition with_configuredFps (fps : Z) (e : ClientEntry) : ClientEntry :=
  mkEntry (id e) (status e) (alias e) fps (measuredFps e)
          (lastFrameTsMs e) (framesInWindow e) (windowStartMs e).

Definition with_measuredFps (fps : Z) (e : ClientEntry) : ClientEntry :=
  mkEntry (id e) (status e) (alias e) (configuredFps e) fps
          (lastFrameTsMs e) (framesInWindow e) (windowStartMs e).

Definition setClientStatus (x st : string) (m : t) : t :=
  let idx := indexOfClient x m in
  if idx =? -1 then m
  else match at_ idx m with
       | None => m
       | Some e =>
           if String.eqb (status e) st then m
           else emit (dataChanged idx StatusRole) (modify idx (with_status st) m)
       end.

Definition setClientAlias (x a : string) (m : t) : t :=
  let idx := indexOfClient x m in
  if idx =? -1 then m
  else match at_ idx m with
       | None => m
       | Some e =>
           if String.eqb (alias e) a then m
           else emit (dataChanged idx AliasRole) (modify idx (with_alias a) m)
       end.

Definition setClientConfiguredFps (x : string) (fps : Z) (m : t) : t :=
  let idx := indexOfClient x m in
  if idx =? -1 then m
  else match at_ idx m with
       | None => m
       | Some e =>
           if configuredFps e =? fps then m
           else emit (dataChanged idx ConfiguredFpsRole)
                     (modify idx (with_configuredFps fps) m)
       end.

Definition setClientMeasuredFps (x : string) (fps : Z) (m : t) : t :=
  let idx := indexOfClient x m in
  if idx =? -1 then m
  else match at_ idx m with
       | None => m
       | Some e =>
           if measuredFps e =? fps then m
           else emit (dataChanged idx MeasuredFpsRole)
                     (modify idx (with_measuredFps fps) m)
       end.

End ClientModel.

(** ** 64-bit integers and binary64 numbers *)

Module Int64.
Definition wrap (z : Z) : Z :=
  (z + 9223372036854775808) mod 18446744073709551616 - 9223372036854775808.

(** [a - b] on [qint64]. *)
Definition sub (a b : Z) : Z := wrap (a - b).
End Int64.

(** Finite IEEE-754 binary64 numbers, written [mant * 2 ^ expo].  Every
    operation rounds its exact result to 53 significant bits, to nearest with
    ties to even.  The magnitudes that [recordFrameReceived] produces lie
    between 2^-64 and 2^64, far from the subnormal and overflow ranges, which
    are therefore not represented. *)
Module Double.

Record t : Type := mk { mant : Z; expo : Z }.

(** The rational [n / d] scaled by [2 ^ k], as numerator and denominator. *)
Definition scale_num (n k : Z) : Z := if 0 <=? k then n * 2 ^ k else n.
Definition scale_den (d k : Z) : Z := if 0 <=? k then d else d * 2 ^ (- k).

(** Nearest 53-bit number to [n / d], for [0 < n] and [0 < d]. *)
Definition round_pos (n d : Z) : t :=
  let k0 := 52 - (Z.log2 n - Z.log2 d) in
  let k := if scale_num n k0 / scale_den d k0 <? 2 ^ 52 then k0 + 1 else k0 in
  let N := scale_num n k in
  let D := scale_den d k in
  let q := N / D in
  let r := N mod D in
  let m := if (D <? 2 * r) || ((D =? 2 * r) && Z.odd q) then q + 1 else q in
  mk m (- k).

(** Nearest 53-bit number to [n / d], for [0 < d]. *)
Definition round (n d : Z) : t :=
  if n =? 0 then mk 0 0
  else if n <? 0 then
    let x := round_pos (- n) d in mk (- mant x) (expo x)
  else round_pos n d.

(** [double(z)] for an integer [z]. *)
Definition of_Z (z : Z) : t := round z 1.

Definition mul (x y : t) : t :=
  let m := mant x * mant y in
  let e := expo x + expo y in
  if 0 <=? e then round (m * 2 ^ e) 1 else round m (2 ^ (- e)).

(** [x / y] for [y <> 0]; division by zero is not reached by the program and
    is given the value zero here. *)
Definition div (x y : t) : t :=
  if mant y =? 0 then mk 0 0
  else
    let n := mant x * Z.sgn (mant y) in
    let d := Z.abs (mant y) in
    let e := expo x - expo y in
    if 0 <=? e then round (n * 2 ^ e) d else round n (d * 2 ^ (- e)).

(** [std::round] followed by the conversion to an integer: the nearest
    integer, halfway cases away from zero. *)
Definition std_round (x : t) : Z :=
  if 0 <=? expo x then mant x * 2 ^ expo x
  else
    let p := 2 ^ (- expo x) in
    if 0 <=? mant x then (2 * mant x + p) / (2 * p)
    else - ((2 * (- mant x) + p) / (2 * p)).

End Double.

(** ** The measurement window (ClientModel::recordFrameReceived) *)

Module Window.
Import ClientModel.

(** [int(std::round((double(framesInWindow) * 1000.0) / double(elapsed)))]. *)
Definition measure (frames elapsed : Z) : Z :=
  Int.wrap
    (Double.std_round
       (Double.div (Double.mul (Double.of_Z frames) (Double.of_Z 1000))
                   (Double.of_Z elapsed))).

Definition with_window (start frames : Z) (e : ClientEntry) : ClientEntry :=
  mkEntry (id e) (status e) (alias e) (configuredFps e) (measuredFps e)
          (lastFrameTsMs e) frames start.

Definition with_frame (frames ts : Z) (e : ClientEntry) : ClientEntry :=
  mkEntry (id e) (status e) (alias e) (configuredFps e) (measuredFps e)
          ts frames (windowStartMs e).

(** The timestamp the function works with: a zero argument is replaced by a
    reading [clock] of [QDateTime::currentMSecsSinceEpoch()]. *)
Definition effective_ts (clock timestampMs : Z) : Z :=
  if timestampMs =? 0 then clock else timestampMs.

(** "Initialize window start if needed". *)
Definition init_window (ts : Z) (e : ClientEntry) : ClientEntry :=
  if windowStartMs e =? 0 then with_window ts 0 e else e.

(** "Count this frame in current window". *)
Definition count_frame (ts : Z) (e : ClientEntry) : ClientEntry :=
  with_frame (Int.incr (framesInWindow e)) ts e.

Definition elapsed (ts : Z) (e : ClientEntry) : Z :=
  Int64.sub ts (windowStartMs e).

(** The body of [recordFrameReceived] on the entry [m_clients[idx]]; the
    boolean tells whether a measurement was published. *)
Definition record_entry (ts : Z) (e : ClientEntry) : ClientEntry * bool :=
  let e1 := init_window ts e in
  let e2 := count_frame ts e1 in
  let el := elapsed ts e2 in
  if 1000 <=? el then
    (with_window ts 0 (with_measuredFps (measure (framesInWindow e2) el) e2),
     true)
  else (e2, false).

Definition recordFrameReceived (clock : Z) (x : string) (timestampMs : Z)
           (m : ClientModel.t) : ClientModel.t :=
  let idx := indexOfClient x m in
  if idx =? -1 then m
  else
    let ts := effective_ts clock timestampMs in
    match at_ idx m with
    | None => m
    | Some e =>
        let m1 := modify idx (fun e => fst (record_entry ts e)) m in
        if snd (record_entry ts e)
        then emit (dataChanged idx MeasuredFpsRole) m1
        else m1
    end.

(** Feeding a sequence of arrival timestamps to one entry. *)
Definition feed (tss : list Z) (e : ClientEntry) : ClientEntry :=
  fold_left (fun e ts => fst (record_entry ts e)) tss e.

(** Arrival timestamps are milliseconds since the epoch: positive, and small
    enough to be binary64 numbers. *)
Definition valid_ts (t : Z) : Prop := 0 < t < 2 ^ 53.


(** [n] arrival times starting at [t0], [step] milliseconds apart. *)
Definition evenly (t0 step : Z) (n : nat) : list Z :=
  map (fun j => t0 + step * Z.of_nat j) (seq 0 n).


End Window.

(** ** Control messages and the external codecs *)

(** Modelled from the spec: the generated protobuf header control.pb.h is not
    part of the sources.  The enumerators are those the sources name
    ([imagesocket::control::SET_FPS] and so on); the fields are those of the
    Control Message schema (type, client_id, fps, quality, alias, reason,
    timestamp_ms), unset numbers reading as 0 and unset strings as empty. *)
Module Control.

Inductive CommandType : Type :=
| UNKNOWN | SET_FPS | SET_QUALITY | REQUEST_ALIAS | ALIAS | PAUSE | RESUME
| REQUEST_RESUME | SUBSCRIBE | UNSUBSCRIBE | ID.

Record ControlMessage : Type := mkMessage {
  type : CommandType;
  client_id : Z;
  fps : Z;
  quality : Z;
  alias : string;
  reason : string;
  timestamp_ms : Z
}.

(** A default-constructed message. *)
Definition default : ControlMessage := mkMessage UNKNOWN 0 0 0 "" "" 0.

Definition set_type (ty : CommandType) (m : ControlMessage) : ControlMessage :=
  mkMessage ty (client_id m) (fps m) (quality m) (alias m) (reason m)
            (timestamp_ms m).

Definition set_fps (v : Z) (m : ControlMessage) : ControlMessage :=
  mkMessage (type m) (client_id m) v (quality m) (alias m) (reason m)
            (timestamp_ms m).

Definition set_alias (a : string) (m : ControlMessage) : ControlMessage :=
  mkMessage (type m) (client_id m) (fps m) (quality m) a (reason m)
            (timestamp_ms m).

End Control.

Definition bytes : Type := list byte.

(** A decoded image; the pixel data is opaque to the control plane. *)
Record QImage : Type := mkImage {
  width : Z;
  height : Z;
  bits : bytes
}.

(** The default-constructed (null) image. *)
Definition nullImage : QImage := mkImage 0 0 [].

(** The library routines the control plane calls but does not define: the
    protobuf serializer and parser of [ControlMessage], and Qt's JPEG reader
    [QImage::loadFromData(data, len, "JPEG")], which refuses an empty
    buffer. *)
Class Externals : Type := {
  SerializeToString : Control.ControlMessage -> option bytes;
  ParseFromArray : bytes -> option Control.ControlMessage;
  loadFromData : bytes -> option QImage;
  loadFromData_empty : loadFromData [] = None
}.

(** ** Event codes (src/network/eventcodes.h) *)

Inductive EventCode : Type :=
| ServerStarted | ServerStopped | ServerStartFailed | ServerPortInUse
| ServerError
| ClientConnected | ClientDisconnected | ClientBecameActive
| NoClientsAvailable
| FpsApplied | FpsFailedNoClient | FpsSendError
| FrameReceived | FrameDropped
| UnknownError.

Definition EventCode_value (c : EventCode) : Z :=
  match c with
  | ServerStarted => 1000 | ServerStopped => 1001 | ServerStartFailed => 1002
  | ServerPortInUse => 1003 | ServerError => 1099
  | ClientConnected => 2000 | ClientDisconnected => 2001
  | ClientBecameActive => 2002 | NoClientsAvailable => 2003
  | FpsApplied => 3000 | FpsFailedNoClient => 3001 | FpsSendError => 3002
  | FrameReceived => 4000 | FrameDropped => 4001
  | UnknownError => 9999
  end.

Inductive QVariant : Type :=
| VString (s : string)
| VInt (z : Z).

(** A [QVariantMap], as the list of its bindings in the order they were set;
    every map the bridge builds sets each key once. *)
Definition QVariantMap : Type := list (string * QVariant).

(** ** The session table of WebSocketServer (src/network/websocketserver.cpp) *)

Module Server.

(** Every live session holds its socket: [m_sessions] lists the ids, [sent]
    the binary messages written to the sockets so far. *)
Record t : Type := mk {
  m_sessions : list string;
  sent : list (string * bytes)
}.

Definition empty : t := mk [] [].

Fixpoint mem (x : string) (l : list string) : bool :=
  match l with
  | [] => false
  | y :: r => if String.eqb y x then true else mem x r
  end.

(** [ClientSession::sendControlMessage]: the control prefix, then the
    serialized message. *)
Definition sendControlMessage (x : string) (serialized : bytes) (s : t) : t :=
  mk (m_sessions s) (sent s ++ [(x, x01 :: serialized)]).

Definition sendControlToClient (x : string) (serialized : bytes) (s : t)
  : bool * t :=
  if mem x (m_sessions s) then (true, sendControlMessage x serialized s)
  else (false, s).

End Server.

(** ** ImageServerBridge (src/network/imageserverbridge.cpp) *)

Module Bridge.

Inductive ServerState : Type := Idle | Starting | Running | Stopping | Error.

Inductive ConnectionState : Type :=
  NoClients | ClientsConnected | ReceivingFrames.

Inductive Signal : Type :=
| currentFpsChanged (fps : Z)
| configuredFpsChanged (fps : Z)
| activeClientChanged (clientId : string)
| activeClientAliasChanged (alias : string)
| newFrameReady (frame : QImage)
| frameIdChanged (newId : Z)
| connectionLost
| serverStateChanged
| connectionStateChanged
| statusMessageChanged
| eventOccurred (code : EventCode) (details : QVariantMap)
| clientConnectedWithAlias (clientId alias : string)
| clientDisconnectedWithAlias (clientId alias : string)
| activeClientMeasuredFpsChanged (fps : Z).

Record t : Type := mk {
  m_server : Server.t;
  m_clientModel : ClientModel.t;
  m_activeClientId : string;
  m_lastFrame : QImage;
  m_frameId : Z;
  m_serverState : ServerState;
  m_connectionState : ConnectionState;
  m_statusMessage : string;
  m_currentFps : Z;
  m_configuredFps : Z;
  m_activeClientMeasuredFps : Z;
  signals : list Signal
}.

(** The bridge as its constructor leaves it; [fps] is the rate read from the
    persistent settings. *)
Definition init (fps : Z) : t :=
  mk Server.empty ClientModel.empty "" nullImage 0 Idle NoClients "" 0 fps 0
     [configuredFpsChanged fps].

Definition set_server (v : Server.t) (b : t) : t :=
  mk v (m_clientModel b) (m_activeClientId b) (m_lastFrame b) (m_frameId b)
     (m_serverState b) (m_connectionState b) (m_statusMessage b)
     (m_currentFps b) (m_configuredFps b) (m_activeClientMeasuredFps b)
     (signals b).

Definition set_clientModel (v : ClientModel.t) (b : t) : t :=
  mk (m_server b) v (m_activeClientId b) (m_lastFrame b) (m_frameId b)
     (m_serverState b) (m_connectionState b) (m_statusMessage b)
     (m_currentFps b) (m_configuredFps b) (m_activeClientMeasuredFps b)
     (signals b).

Definition set_activeClientId (v : string) (b : t) : t :=
  mk (m_server b) (m_clientModel b) v (m_lastFrame b) (m_frameId b)
     (m_serverState b) (m_connectionState b) (m_statusMessage b)
     (m_currentFps b) (m_configuredFps b) (m_activeClientMeasuredFps b)
     (signals b).

Definition set_lastFrame (v : QImage) (b : t) : t :=
  mk (m_server b) (m_clientModel b) (m_activeClientId b) v (m_frameId b)
     (m_serverState b) (m_connectionState b) (m_statusMessage b)
     (m_currentFps b) (m_configuredFps b) (m_activeClientMeasuredFps b)
     (signals b).

Definition set_frameId (v : Z) (b : t) : t :=
  mk (m_server b) (m_clientModel b) (m_activeClientId b) (m_lastFrame b) v
     (m_serverState b) (m_connectionState b) (m_statusMessage b)
     (m_currentFps b) (m_configuredFps b) (m_activeClientMeasuredFps b)
     (signals b).

Definition set_currentFps (v : Z) (b : t) : t :=
  mk (m_server b) (m_clientModel b) (m_activeClientId b) (m_lastFrame b)
     (m_frameId b) (m_serverState b) (m_connectionState b) (m_statusMessage b)
     v (m_configuredFps b) (m_activeClientMeasuredFps b) (signals b).

Definition set_activeClientMeasuredFps (v : Z) (b : t) : t :=
  mk (m_server b) (m_clientModel b) (m_activeClientId b) (m_lastFrame b)
     (m_frameId b) (m_serverState b) (m_connectionState b) (m_statusMessage b)
     (m_currentFps b) (m_configuredFps b) v (signals b).

Definition emit (sg : Signal) (b : t) : t :=
  mk (m_server b) (m_clientModel b) (m_activeClientId b) (m_lastFrame b)
     (m_frameId b) (m_serverState b) (m_connectionState b) (m_statusMessage b)
     (m_currentFps b) (m_configuredFps b) (m_activeClientMeasuredFps b)
     (signals b ++ [sg]).

Definition ConnectionState_eqb (x y : ConnectionState) : bool :=
  match x, y with
  | NoClients, NoClients => true
  | ClientsConnected, ClientsConnected => true
  | ReceivingFrames, ReceivingFrames => true
  | _, _ => false
  end.

Definition setConnectionState (state : ConnectionState) (b : t) : t :=
  if ConnectionState_eqb (m_connectionState b) state then b
  else
    emit connectionStateChanged
      (mk (m_server b) (m_clientModel b) (m_activeClientId b) (m_lastFrame b)
          (m_frameId b) (m_serverState b) state (m_statusMessage b)
          (m_currentFps b) (m_configuredFps b) (m_activeClientMeasuredFps b)
          (signals b)).

Definition setStatusMessage (msg : string) (b : t) : t :=
  if String.eqb (m_statusMessage b) msg then b
  else
    emit statusMessageChanged
      (mk (m_server b) (m_clientModel b) (m_activeClientId b) (m_lastFrame b)
          (m_frameId b) (m_serverState b) (m_connectionState b) msg
          (m_currentFps b) (m_configuredFps b) (m_activeClientMeasuredFps b)
          (signals b)).

Section WithExternals.
Context {ext : Externals}.

Definition setFps (fps : Z) (b : t) : t :=
  if isEmpty (m_activeClientId b) then
    emit (eventOccurred FpsFailedNoClient []) b
  else
    let msg := Control.set_fps fps (Control.set_type Control.SET_FPS
                                                     Control.default) in
    match SerializeToString msg with
    | None => emit (eventOccurred FpsSendError [("fps", VInt fps)]) b
    | Some ba =>
        match Server.sendControlToClient (m_activeClientId b) ba (m_server b)
        with
        | (false, _) =>
            emit (eventOccurred FpsSendError
                    [("fps", VInt fps);
                     ("client", VString (m_activeClientId b))]) b
        | (true, srv) =>
            let details := [("fps", VInt fps);
                            ("client", VString (m_activeClientId b))] in
            let b1 := set_server srv b in
            let b2 := emit (currentFpsChanged fps) (set_currentFps fps b1) in
            let b3 := set_clientModel
                        (ClientModel.setClientConfiguredFps
                           (m_activeClientId b2) fps (m_clientModel b2)) b2 in
            emit (eventOccurred FpsApplied details) b3
        end
    end.

Definition setActiveClient (clientId : string) (b : t) : t :=
  if String.eqb (m_activeClientId b) clientId then b
  else
    let b1 :=
      if negb (isEmpty (m_activeClientId b)) then
        set_clientModel
          (ClientModel.setClientStatus (m_activeClientId b) "Connected"
                                       (m_clientModel b)) b
      else b in
    let previousClient := m_activeClientId b1 in
    let b2 := set_activeClientId clientId b1 in
    let b3 := set_clientModel
                (ClientModel.setClientStatus (m_activeClientId b2) "Active"
                                             (m_clientModel b2)) b2 in
    let b4 := setFps (m_configuredFps b3) b3 in
    let alias := ClientModel.aliasAt
                   (ClientModel.indexOfClient clientId (m_clientModel b4))
                   (m_clientModel b4) in
    let details := [("clientId", VString clientId);
                    ("alias", VString (if isEmpty alias then clientId
                                       else alias));
                    ("previousClient", VString previousClient)] in
    let b5 := emit (eventOccurred ClientBecameActive details) b4 in
    emit (activeClientChanged clientId) b5.

Definition onClientConnected (clientId address : string) (b : t) : t :=
  let b1 := set_clientModel
              (ClientModel.addClient clientId "Connected" (m_clientModel b))
              b in
  let b2 :=
    if 0 <? ClientModel.rowCount (m_clientModel b1) then
      setStatusMessage "Clients connected"
        (setConnectionState ClientsConnected b1)
    else b1 in
  let b3 :=
    if isEmpty (m_activeClientId b2) then setActiveClient clientId b2
    else b2 in
  let idx := ClientModel.indexOfClient clientId (m_clientModel b3) in
  if (0 <? m_configuredFps b3) && String.eqb (m_activeClientId b3) clientId
  then setFps (m_configuredFps b3) b3
  else if 0 <=? idx then
    let configured := ClientModel.configuredFpsAt idx (m_clientModel b3) in
    if (0 <? configured) && String.eqb (m_activeClientId b3) clientId
    then setFps configured b3
    else b3
  else b3.

Definition onSessionDisconnected (clientId : string) (b : t) : t :=
  let idx := ClientModel.indexOfClient clientId (m_clientModel b) in
  let alias := if 0 <=? idx then ClientModel.aliasAt idx (m_clientModel b)
               else "" in
  let b1 := set_clientModel
              (ClientModel.removeClient clientId (m_clientModel b)) b in
  let shown := if isEmpty alias then clientId else alias in
  let details := [("clientId", VString clientId); ("alias", VString shown)] in
  let b2 := emit (eventOccurred ClientDisconnected details) b1 in
  let b3 := emit (clientDisconnectedWithAlias clientId shown) b2 in
  if ClientModel.rowCount (m_clientModel b3) =? 0 then
    let b4 := set_activeClientId "" b3 in
    let b5 := setConnectionState NoClients b4 in
    let b6 := setStatusMessage "No clients available" b5 in
    let b7 := emit (eventOccurred NoClientsAvailable []) b6 in
    emit connectionLost b7
  else if String.eqb (m_activeClientId b3) clientId then
    let next := ClientModel.clientIdAt 0 (m_clientModel b3) in
    setActiveClient next b3
  else if isEmpty (m_activeClientId b3)
          && (ClientModel.rowCount (m_clientModel b3) =? 1) then
    let remaining := ClientModel.clientIdAt 0 (m_clientModel b3) in
    setActiveClient remaining b3
  else b3.

(** [now] is the reading of the clock taken by [onFrameReceived]; [later] is
    the reading [recordFrameReceived] takes itself when [now] is zero. *)
Definition onFrameReceived (now later : Z) (clientId : string) (frame : QImage)
           (b : t) : t :=
  let b1 := set_clientModel
              (Window.recordFrameReceived later clientId now (m_clientModel b))
              b in
  if negb (String.eqb clientId (m_activeClientId b1)) then b1
  else
    let b2 := setConnectionState ReceivingFrames b1 in
    let b3 := setStatusMessage "Receiving frames" b2 in
    let b4 := set_lastFrame frame b3 in
    let b5 := set_frameId (Int.incr (m_frameId b4)) b4 in
    let b6 := emit (frameIdChanged (m_frameId b5)) b5 in
    let idx := ClientModel.indexOfClient clientId (m_clientModel b6) in
    let b7 :=
      if 0 <=? idx then
        let measured := ClientModel.measuredFpsAt idx (m_clientModel b6) in
        if negb (measured =? m_activeClientMeasuredFps b6) then
          emit (activeClientMeasuredFpsChanged measured)
               (set_activeClientMeasuredFps measured b6)
        else b6
      else b6 in
    emit (newFrameReady frame) b7.

(** The registry operations of the server: a session is admitted
    ([clientConnected]) or removed ([clientDisconnected]). *)
Inductive Op : Type :=
| OpAdmit (clientId address : string)
| OpRemove (clientId : string).

Definition step (b : t) (op : Op) : t :=
  match op with
  | OpAdmit x a => onClientConnected x a b
  | OpRemove x => onSessionDisconnected x b
  end.

Definition run (ops : list Op) (b : t) : t := fold_left step ops b.

End WithExternals.

(** The identifiers a sequence of operations admits. *)
Fixpoint admitted (ops : list Op) : list string :=
  match ops with
  | [] => []
  | OpAdmit x _ :: r => x :: admitted r
  | OpRemove _ :: r => admitted r
  end.

(** Number of registry rows whose status is "Active". *)
Definition activeCount (b : t) : nat :=
  List.length (filter (fun e => String.eqb (ClientModel.status e) "Active")
                      (ClientModel.m_clients (m_clientModel b))).

End Bridge.

(** ** ClientSession::onBinaryMessageReceived (src/network/clientsession.cpp) *)

Module Session.

(** What the slot does, in order: log lines and emitted signals. *)
Inductive Effect : Type :=
| qWarning (text : string)
| qDebug (text : string)
| controlMessageReceived (clientId : string) (serialized : bytes)
| frameReceived (clientId : string) (image : QImage).

(** [QByteArray::mid(pos)]. *)
Definition mid (pos : nat) (message : bytes) : bytes := skipn pos message.

Definition onBinaryMessageReceived {ext : Externals} (m_id : string)
           (message : bytes) : list Effect :=
  match message with
  | [] => [qWarning "Received empty message from client"]
  | prefix :: _ =>
      if Byte.eqb prefix x01 then
        let payload := mid 1 message in
        match ParseFromArray payload with
        | None => [qWarning "Failed to parse ControlMessage from client"]
        | Some msg =>
            [qDebug "Received ControlMessage from client";
             controlMessageReceived m_id payload]
        end
      else
        let payload := if Byte.eqb prefix x00 then mid 1 message
                       else message in
        match loadFromData payload with
        | None => [qWarning "Failed to decode image from client"]
        | Some img => [frameReceived m_id img]
        end
  end.

Definition is_signal (e : Effect) : bool :=
  match e with
  | controlMessageReceived _ _ | frameReceived _ _ => true
  | _ => false
  end.

(** A frame is discarded when the slot returns without emitting a signal. *)
Definition discarded (effects : list Effect) : bool :=
  negb (existsb is_signal effects).

End Session.

(** ** WebSocketImageClient (src/network/websocketimageclient.cpp) *)

Module Client.

(** [std::min(30, 1 << std::min(attempt, 6))], the wait of both copies of the
    reconnect loop. *)
Definition waitSeconds (attempt : Z) : Z :=
  Z.min 30 (Z.shiftl 1 (Z.min attempt 6)).

(** The delay function as the specification writes it. *)
Definition backoff (attempt : Z) : Z := Z.min 30 (2 ^ Z.min attempt 6).

(** Execution contexts: the application's controlling thread, the I/O thread
    of the [gen]-th connection attempt, the detached helper that thread
    spawns when its run loop exits, and the reconnect loop's thread. *)
Inductive Thread : Type :=
| Controller
| IoThread (gen : nat)
| ExitHelper (gen : nat)
| Reconnector.

Definition Thread_eqb (a b : Thread) : bool :=
  match a, b with
  | Controller, Controller => true
  | IoThread m, IoThread n => Nat.eqb m n
  | ExitHelper m, ExitHelper n => Nat.eqb m n
  | Reconnector, Reconnector => true
  | _, _ => false
  end.


(** The heap objects the instance owns. *)
Inductive Resource : Type :=
| IoContext (n : nat)
| Stream (n : nat).

Inductive Event : Type :=
| Freed (r : Resource)
| Closed (r : Resource)
| Stopped (r : Resource)
| Joined (th : Thread)
| StartedIoThread (th : Thread)
| SpawnedExitHelper (th : Thread)
| SpawnedReconnectLoop
| ReconnectLoopEnded
| Terminated
| QueuedDisconnected
| CalledOnConnected
| ArmedRead
| Slept (seconds : Z).

Record t : Type := mk {
  ioc : option Resource;          (* std::unique_ptr<asio::io_context> *)
  ioThread : option Thread;       (* std::unique_ptr<std::thread> *)
  ioThread_alive : bool;          (* its thread function has not returned *)
  ws : option Resource;           (* std::shared_ptr<websocket::stream> *)
  ws_open : bool;                 (* ws->is_open() *)
  running : bool;
  reconnecting : bool;
  has_onConnected : bool;         (* m_onConnected is set *)
  has_onDisconnected : bool;      (* m_onDisconnected is set *)
  fresh : nat;                    (* next unused object/thread number *)
  trace : list Event
}.

(** A newly constructed client with the given callbacks registered. *)
Definition init (onConnected onDisconnected : bool) : t :=
  mk None None false None false false false onConnected onDisconnected 0 [].

Definition log (e : Event) (c : t) : t :=
  mk (ioc c) (ioThread c) (ioThread_alive c) (ws c) (ws_open c) (running c)
     (reconnecting c) (has_onConnected c) (has_onDisconnected c) (fresh c)
     (trace c ++ [e]).

Definition set_running (v : bool) (c : t) : t :=
  mk (ioc c) (ioThread c) (ioThread_alive c) (ws c) (ws_open c) v
     (reconnecting c) (has_onConnected c) (has_onDisconnected c) (fresh c)
     (trace c).

Definition set_reconnecting (v : bool) (c : t) : t :=
  mk (ioc c) (ioThread c) (ioThread_alive c) (ws c) (ws_open c) (running c)
     v (has_onConnected c) (has_onDisconnected c) (fresh c) (trace c).

Definition set_ioc (v : option Resource) (c : t) : t :=
  mk v (ioThread c) (ioThread_alive c) (ws c) (ws_open c) (running c)
     (reconnecting c) (has_onConnected c) (has_onDisconnected c) (fresh c)
     (trace c).

Definition set_ws (v : option Resource) (o : bool) (c : t) : t :=
  mk (ioc c) (ioThread c) (ioThread_alive c) v o (running c)
     (reconnecting c) (has_onConnected c) (has_onDisconnected c) (fresh c)
     (trace c).

Definition set_ioThread (v : option Thread) (a : bool) (c : t) : t :=
  mk (ioc c) v a (ws c) (ws_open c) (running c)
     (reconnecting c) (has_onConnected c) (has_onDisconnected c) (fresh c)
     (trace c).

Definition bump (c : t) : t :=
  mk (ioc c) (ioThread c) (ioThread_alive c) (ws c) (ws_open c) (running c)
     (reconnecting c) (has_onConnected c) (has_onDisconnected c)
     (S (fresh c)) (trace c).

(** The epilogue of the I/O thread's function: once [ioc->run()] has
    returned the thread spawns the detached helper that will call
    [cleanupConnection] again, and ends. *)
Definition ioThreadExits (c : t) : t :=
  match ioThread c with
  | Some th =>
      if ioThread_alive c
      then log (SpawnedExitHelper th) (set_ioThread (Some th) false c)
      else c
  | None => c
  end.

(** [p.reset()] on a smart pointer: the object, if any, is destroyed. *)
Definition reset_ws (c : t) : t :=
  match ws c with
  | Some r => log (Freed r) (set_ws None false c)
  | None => c
  end.

Definition reset_ioc (c : t) : t :=
  match ioc c with
  | Some r => log (Freed r) (set_ioc None c)
  | None => c
  end.

(** "Notify disconnected": the callback is queued on the object's thread. *)
Definition notifyDisconnected (c : t) : t :=
  if has_onDisconnected c then log QueuedDisconnected c else c.

(** "Start an automatic reconnect loop (single instance)". *)
Definition startReconnectLoop (c : t) : t :=
  if negb (reconnecting c)
  then log SpawnedReconnectLoop (set_reconnecting true c)
  else c.

(** [cleanupConnection], run by thread [self]; the body holds the mutex, so
    invocations do not overlap. *)
Definition cleanupConnection (self : Thread) (c : t) : t :=
  let c1 := set_running false c in
  let c2 :=
    match ws c1 with
    | Some r => if ws_open c1 then log (Closed r) (set_ws (Some r) false c1)
                else c1
    | None => c1
    end in
  let c3 :=
    match ioc c2 with
    | Some r => log (Stopped r) c2
    | None => c2
    end in
  let inIoThread :=
    match ioThread c3 with
    | Some th => Thread_eqb self th
    | None => false
    end in
  let c4 :=
    match ioThread c3 with
    | Some th =>
        if negb inIoThread
        then set_ioThread None false (log (Joined th) (ioThreadExits c3))
        else c3
    | None => c3
    end in
  if negb inIoThread then
    let c5 := reset_ioc (reset_ws c4) in
    startReconnectLoop (notifyDisconnected c5)
  else
    startReconnectLoop (notifyDisconnected c4).

(** [ioThread.reset(new std::thread(...))]: destroying a thread object that
    is still joinable terminates the process.  This arises only when the
    previous teardown ran on the I/O thread itself. *)
Definition replace_ioThread (c : t) : t :=
  match ioThread c with
  | Some _ => log Terminated c
  | None => c
  end.

(** [m_impl->reconnecting.store(false)], the last action of the reconnect
    loop's thread. *)
Definition endReconnectLoop (c : t) : t :=
  log ReconnectLoopEnded (set_reconnecting false c).

(** What a reconnect loop in flight on another thread does while the caller
    of [connectToServer] has [running] set: it stays asleep throughout, or it
    looks at [running] (in its [while] test, or at the first line of its own
    call of [connectToServer] when its sleep is over), finds it set, clears
    the single-flight flag and ends. *)
Inductive Loop : Type :=
| Asleep
| Looks.

(** What the environment does to one connection attempt.  An attempt that
    fails says what the reconnect loop did in the meantime.  After one that
    succeeds [running] stays set and the call does not read the single-flight
    flag again, so the end of the loop is the separate step
    [ReconnectLoopEnds]. *)
Inductive Outcome : Type :=
| ConnectThrows (loop : Loop)      (* resolve or TCP connect raises *)
| HandshakeTimeout (loop : Loop)   (* no completion within five seconds *)
| HandshakeError (loop : Loop)     (* the handshake completes with an error *)
| HandshakeOk.

(** [hsFuture.wait_for(std::chrono::seconds(5))]. *)
Definition handshakeWait : Z := 5.

Definition Loop_looks (l : Loop) : bool :=
  match l with Looks => true | Asleep => false end.

(** Whether the reconnect loop has looked at [running] by the time the
    failure is handled.  The loop that the teardown before the attempt has
    just spawned ([spawned]) tests [running] at once or after its first sleep
    of [waitSeconds 0] seconds, so it has looked within a wait that lasts
    longer; a thread that is due is taken to run before the wait is over. *)
Definition looked (spawned : bool) (o : Outcome) : bool :=
  match o with
  | ConnectThrows l => Loop_looks l
  | HandshakeTimeout l =>
      (spawned && (waitSeconds 0 <? handshakeWait)) || Loop_looks l
  | HandshakeError l => Loop_looks l
  | HandshakeOk => false
  end.

(** The reconnect loop in flight while [self] is inside [connectToServer]
    with [running] set.  When [self] is the reconnect loop's own thread the
    loop is the caller, and no other loop can be in flight. *)
Definition meanwhile (self : Thread) (spawned : bool) (o : Outcome) (c : t)
  : t :=
  if looked spawned o && reconnecting c && negb (Thread_eqb self Reconnector)
  then endReconnectLoop c
  else c.

(** [connectToServer], called by thread [self]. *)
Definition connectToServer (self : Thread) (o : Outcome) (c : t) : bool * t :=
  if running c then (true, c)
  else
    let spawned := negb (reconnecting c) in
    let c1 := cleanupConnection self c in
    let c2 := set_running true c1 in
    let c3 := bump (set_ioc (Some (IoContext (fresh c2))) (reset_ioc c2)) in
    match o with
    | ConnectThrows _ =>
        (false, set_running false (meanwhile self spawned o c3))
    | _ =>
        let c4 := bump (set_ws (Some (Stream (fresh c3))) false
                               (reset_ws c3)) in
        let th := IoThread (fresh c4) in
        let c5 := bump (log (StartedIoThread th)
                            (set_ioThread (Some th) true
                                          (replace_ioThread c4))) in
        match o with
        | HandshakeOk =>
            let c6 := set_ws (ws c5) true c5 in
            let c7 := if has_onConnected c6 then log CalledOnConnected c6
                      else c6 in
            (true, log ArmedRead c7)
        | _ => (false, cleanupConnection self (meanwhile self spawned o c5))
        end
    end.

Definition disconnectFromServer (self : Thread) (c : t) : t :=
  cleanupConnection self c.

(** The reconnect loop, run against the outcomes of its successive attempts;
    when the list is exhausted the loop is still waiting. *)
Fixpoint reconnectLoop (outcomes : list Outcome) (attempt : Z) (c : t) : t :=
  if running c then endReconnectLoop c
  else
    match outcomes with
    | [] => c
    | o :: rest =>
        let c1 := log (Slept (waitSeconds attempt)) c in
        match connectToServer Reconnector o c1 with
        | (true, c2) => endReconnectLoop c2
        | (false, c2) => reconnectLoop rest (Int.incr attempt) c2
        end
    end.

(** Steps of a teardown schedule: a thread invokes teardown, the I/O thread's
    run loop returns, or the reconnect loop in flight (if any) comes to its
    end. *)
Inductive Step : Type :=
| Teardown (self : Thread)
| IoThreadExits
| ReconnectLoopEnds.

Definition step (c : t) (s : Step) : t :=
  match s with
  | Teardown self => cleanupConnection self c
  | IoThreadExits => ioThreadExits c
  | ReconnectLoopEnds => if reconnecting c then endReconnectLoop c else c
  end.

Definition run (sched : list Step) (c : t) : t := fold_left step sched c.

Definition is_teardown (s : Step) : bool :=
  match s with Teardown _ => true | _ => false end.

Definition is_disconnected (e : Event) : bool :=
  match e with QueuedDisconnected => true | _ => false end.

Definition is_reconnect (e : Event) : bool :=
  match e with SpawnedReconnectLoop => true | _ => false end.

Definition is_loop_end (e : Event) : bool :=
  match e with ReconnectLoopEnded => true | _ => false end.

Definition count (p : Event -> bool) (c : t) : nat :=
  List.length (filter p (trace c)).

(** Reconnect loops started and not yet ended. *)
Definition loops_in_flight (c : t) : nat :=
  count is_reconnect c - count is_loop_end c.

(** The single-flight flag tells whether a reconnect loop is in flight. *)
Definition single_flight (c : t) : Prop :=
  count is_reconnect c =
  (count is_loop_end c + if reconnecting c then 1 else 0)%nat.

Definition is_attempt (e : Event) : bool :=
  match e with StartedIoThread _ => true | _ => false end.

(** The objects destroyed so far, in order. *)
Fixpoint freed (tr : list Event) : list Resource :=
  match tr with
  | [] => []
  | Freed r :: rest => r :: freed rest
  | _ :: rest => freed rest
  end.

Definition olist (o : option Resource) : list Resource :=
  match o with Some r => [r] | None => [] end.

(** The objects the instance holds. *)
Definition held (c : t) : list Resource := olist (ws c) ++ olist (ioc c).

(** Ownership is consistent: no object destroyed twice so far, and the
    objects held are distinct and not yet destroyed. *)
Definition owned (c : t) : Prop := NoDup (freed (trace c) ++ held c).

(** Thread [self] is not the I/O thread of [c]. *)
Definition outside_io (self : Thread) (c : t) : bool :=
  match ioThread c with
  | Some th => negb (Thread_eqb self th)
  | None => true
  end.

(** Number of teardown invocations in a schedule. *)
Definition teardowns (sched : list Step) : nat :=
  List.length (filter is_teardown sched).

End Client.

(** ** Structural views of the index-based updates *)

Module View.
Import ClientModel.

(** Apply [f] to the first row whose id is [x]. *)
Fixpoint upd_first (x : string) (f : ClientEntry -> ClientEntry)
         (l : list ClientEntry) : list ClientEntry :=
  match l with
  | [] => []
  | e :: r => if String.eqb (id e) x then f e :: r else e :: upd_first x f r
  end.

(** Delete the first row whose id is [x]. *)
Fixpoint remove_first (x : string) (l : list ClientEntry) : list ClientEntry :=
  match l with
  | [] => []
  | e :: r => if String.eqb (id e) x then r else e :: remove_first x r
  end.

(** The first row whose id is [x]. *)
Fixpoint lookup (x : string) (l : list ClientEntry) : option ClientEntry :=
  match l with
  | [] => None
  | e :: r => if String.eqb (id e) x then Some e else lookup x r
  end.

(** What arbitration looks at in a row. *)
Definition key (e : ClientEntry) : string * string := (id e, status e).

(** Operations of the model on its own. *)
Inductive ModelOp : Type :=
| add (x st : string)
| del (x : string).

Definition model_step (m : ClientModel.t) (op : ModelOp) : ClientModel.t :=
  match op with
  | add x st => addClient x st m
  | del x => removeClient x m
  end.

Definition model_run (ops : list ModelOp) (m : ClientModel.t) : ClientModel.t :=
  fold_left model_step ops m.

End View.

(** ** Arbitration state and its invariant *)

Module Registry.
Import ClientModel.

(** [updk x s ks]: the status of the first row with id [x] becomes [s]. *)
Fixpoint updk (x s : string) (ks : list (string * string))
  : list (string * string) :=
  match ks with
  | [] => []
  | (y, t) :: r => if String.eqb y x then (y, s) :: r else (y, t) :: updk x s r
  end.

(** [delk x ks]: the first row with id [x] is deleted. *)
Fixpoint delk (x : string) (ks : list (string * string))
  : list (string * string) :=
  match ks with
  | [] => []
  | (y, t) :: r => if String.eqb y x then r else (y, t) :: delk x r
  end.

(** Ids and statuses of the rows of the bridge's registry. *)
Definition keys (b : Bridge.t) : list (string * string) :=
  map View.key (m_clients (Bridge.m_clientModel b)).

(** The inductive invariant of arbitration: the rows have distinct, non-empty
    ids; the reference is empty exactly for the empty registry; otherwise it
    names a row, and a row is "Active" exactly when it is the named one. *)
Definition inv (a : string) (ks : list (string * string)) : Prop :=
  NoDup (map fst ks) /\
  ~ In "" (map fst ks) /\
  (a = "" -> ks = []) /\
  (a <> "" -> In a (map fst ks)) /\
  (forall x s, In (x, s) ks -> (s = "Active" <-> x = a)).

(** The invariant as the specification words it. *)
Definition active_reference_ok (b : Bridge.t) : Prop :=
  let a := Bridge.m_activeClientId b in
  let m := Bridge.m_clientModel b in
  (a <> "" <-> rowCount m <> 0) /\
  (a <> "" ->
   exists e, at_ (indexOfClient a m) m = Some e /\
             id e = a /\ status e = "Active") /\
  Bridge.activeCount b = (if isEmpty a then 0 else 1)%nat.

End Registry.

(** ** Forwarding of a frame to the presentation layer *)

Module Forward.

(** The frame reached the presentation layer between [b] and [b']: the
    bridge's signal log grew and its last entry is [newFrameReady frame]. *)
Definition forwarded (frame : QImage) (b b' : Bridge.t) : Prop :=
  exists between,
    Bridge.signals b' =
    Bridge.signals b ++ between ++ [Bridge.newFrameReady frame].

End Forward.

(** ** Concrete inputs *)

Module Sample.

(** A toy codec standing in for protobuf and the JPEG reader: a message is
    two bytes (a tag for SET_FPS or ALIAS, then the low byte of the rate);
    an image is accepted when the buffer starts with the JPEG start-of-image
    marker FF D8. *)
Definition serialize (m : Control.ControlMessage) : option bytes :=
  match Control.type m with
  | Control.SET_FPS =>
      Some [x01; match Byte.of_N (Z.to_N (Control.fps m mod 256)) with
                 | Some v => v
                 | None => x00
                 end]
  | Control.ALIAS => Some [x04; x00]
  | _ => Some [x00; x00]
  end.

Definition parse (bs : bytes) : option Control.ControlMessage :=
  match bs with
  | [tag; v] =>
      if Byte.eqb tag x01 then
        Some (Control.set_fps (Z.of_N (Byte.to_N v))
                (Control.set_type Control.SET_FPS Control.default))
      else if Byte.eqb tag x04 then
        Some (Control.set_type Control.ALIAS Control.default)
      else Some Control.default
  | _ => None
  end.

Definition load (bs : bytes) : option QImage :=
  match bs with
  | xff :: xd8 :: _ => Some (mkImage 1 1 bs)
  | _ => None
  end.

Definition externals : Externals :=
  {| SerializeToString := serialize;
     ParseFromArray := parse;
     loadFromData := load;
     loadFromData_empty := eq_refl |}.

(** A server that has accepted a session, and the bridge after admitting
    it. *)
Definition bridge_with (x : string) : Bridge.t :=
  Bridge.onClientConnected (ext := externals) x "127.0.0.1"
    (Bridge.set_server (Server.mk [x] []) (Bridge.init 30)).

Definition frame : QImage := mkImage 2 2 [xff; xd8; x00; x01].

(** A client whose connection is established. *)
Definition connected : Client.t :=
  Client.reconnectLoop [] 0
    (snd (Client.connectToServer Client.Controller Client.HandshakeOk
            (Client.init true true))).

End Sample.

(** ** The remaining members of ClientModel: roles and [data] *)

(** [QString::number(n)] and [QString::arg(n)] for an integer: its decimal
    numeral. *)
Definition QString_number (z : Z) : string :=
  NilZero.string_of_int (Z.to_int z).

Module Roles.
Import ClientModel.

(** [Qt::UserRole]. *)
Definition UserRole : Z := 256.

(** The enumerators of [ClientModel::Roles], [IdRole = Qt::UserRole + 1]
    onwards. *)
Definition value (r : Role) : Z :=
  match r with
  | IdRole => UserRole + 1
  | StatusRole => UserRole + 2
  | AliasRole => UserRole + 3
  | ConfiguredFpsRole => UserRole + 4
  | MeasuredFpsRole => UserRole + 5
  end.

(** The [switch (role)] of [data]: the enumerator an integer role denotes. *)
Definition of_value (role : Z) : option Role :=
  if role =? value IdRole then Some IdRole
  else if role =? value StatusRole then Some StatusRole
  else if role =? value AliasRole then Some AliasRole
  else if role =? value ConfiguredFpsRole then Some ConfiguredFpsRole
  else if role =? value MeasuredFpsRole then Some MeasuredFpsRole
  else None.

(** [roleNames()], as the lookup in the hash it returns. *)
Definition roleNames (role : Z) : option string :=
  match of_value role with
  | Some IdRole => Some "clientId"
  | Some StatusRole => Some "status"
  | Some AliasRole => Some "alias"
  | Some ConfiguredFpsRole => Some "configuredFps"
  | Some MeasuredFpsRole => Some "measuredFps"
  | None => None
  end.

(** [data(index, role)]; a [QModelIndex] is invalid ([None]) or names a row,
    and the invalid [QVariant] is [None]. *)
Definition data (index : option Z) (role : Z) (m : ClientModel.t)
  : option QVariant :=
  match index with
  | None => None
  | Some row =>
      if (row <? 0) || (size m <=? row) then None
      else
        match nth_error (m_clients m) (Z.to_nat row) with
        | None => None
        | Some e =>
            match of_value role with
            | Some IdRole => Some (VString (id e))
            | Some StatusRole => Some (VString (status e))
            | Some AliasRole =>
                if negb (isEmpty (alias e)) then Some (VString (alias e))
                else
                  let clean := QString_remove "}" (QString_remove "{" (id e)) in
                  let shortId := QString_left 4 clean in
                  Some (VString ("client_" ++ shortId)%string)
            | Some ConfiguredFpsRole => Some (VInt (configuredFps e))
            | Some MeasuredFpsRole => Some (VInt (measuredFps e))
            | None => None
            end
        end
  end.

(** [count()]. *)
Definition count (m : ClientModel.t) : Z := size m.

End Roles.

(** ** The remaining members of ImageServerBridge and of WebSocketServer *)

(** [QImage::isNull()]: an image without pixels. *)
Definition QImage_isNull (img : QImage) : bool :=
  (width img <=? 0) || (height img <=? 0).

Module ImageServerBridge.
Import Bridge.

Definition ServerState_eqb (x y : ServerState) : bool :=
  match x, y with
  | Idle, Idle | Starting, Starting | Running, Running
  | Stopping, Stopping | Error, Error => true
  | _, _ => false
  end.

Definition setServerState (state : ServerState) (b : Bridge.t) : Bridge.t :=
  if ServerState_eqb (m_serverState b) state then b
  else
    emit serverStateChanged
      (mk (m_server b) (m_clientModel b) (m_activeClientId b) (m_lastFrame b)
          (m_frameId b) state (m_connectionState b) (m_statusMessage b)
          (m_currentFps b) (m_configuredFps b) (m_activeClientMeasuredFps b)
          (signals b)).

Definition set_configuredFps (v : Z) (b : Bridge.t) : Bridge.t :=
  mk (m_server b) (m_clientModel b) (m_activeClientId b) (m_lastFrame b)
     (m_frameId b) (m_serverState b) (m_connectionState b) (m_statusMessage b)
     (m_currentFps b) v (m_activeClientMeasuredFps b) (signals b).

Definition emitEvent (code : EventCode) (details : QVariantMap) (b : Bridge.t)
  : Bridge.t :=
  emit (eventOccurred code details) b.

(** The slot connected to [WebSocketServer::serverError]. *)
Definition onServerError (code : EventCode) (details : QVariantMap)
           (b : Bridge.t) : Bridge.t :=
  emit (eventOccurred code details) b.

Definition activeClientAlias (b : Bridge.t) : string :=
  let idx := ClientModel.indexOfClient (m_activeClientId b) (m_clientModel b) in
  if 0 <=? idx then ClientModel.aliasAt idx (m_clientModel b) else "".

(** The invokable [recordFrameReceived(clientId)]; [now] and [later] are the
    clock readings, as in [onFrameReceived]. *)
Definition recordFrameReceived (now later : Z) (clientId : string)
           (b : Bridge.t) : Bridge.t :=
  let b1 := set_clientModel
              (Window.recordFrameReceived later clientId now (m_clientModel b))
              b in
  let idx := ClientModel.indexOfClient clientId (m_clientModel b1) in
  if 0 <=? idx then
    let measured := ClientModel.measuredFpsAt idx (m_clientModel b1) in
    if negb (measured =? m_activeClientMeasuredFps b1)
       && String.eqb clientId (m_activeClientId b1)
    then emit (activeClientMeasuredFpsChanged measured)
              (set_activeClientMeasuredFps measured b1)
    else b1
  else b1.

Section WithExternals.
Context {ext : Externals}.

Definition onControlMessageReceived (clientId : string) (serialized : bytes)
           (b : Bridge.t) : Bridge.t :=
  match ParseFromArray serialized with
  | None => b
  | Some msg =>
      match Control.type msg with
      | Control.ALIAS =>
          let r := Control.alias msg in
          if negb (isEmpty r) then
            let lastAlias :=
              ClientModel.aliasAt
                (ClientModel.indexOfClient clientId (m_clientModel b))
                (m_clientModel b) in
            let alias := r in
            let b1 :=
              if negb (String.eqb alias lastAlias) then
                let b' := set_clientModel
                            (ClientModel.setClientAlias clientId alias
                                                        (m_clientModel b)) b in
                if String.eqb clientId (m_activeClientId b')
                then emit (activeClientAliasChanged alias) b'
                else b'
              else b in
            let details := [("clientId", VString clientId);
                            ("alias", VString alias)] in
            let b2 := emit (eventOccurred ClientConnected details) b1 in
            emit (clientConnectedWithAlias clientId alias) b2
          else b
      | _ => b
      end
  end.

End WithExternals.

(** The bridge together with the state its arbitration slots do not touch:
    the configured port, the [QWebSocketServer] owned by its
    [WebSocketServer] (absent, or listening on a port) and the "fps" key of
    the persistent [QSettings("ImageSocket", "Server")] store. *)
Record t : Type := mkHost {
  bridge : Bridge.t;
  m_port : Z;
  listener : option Z;
  settings : option Z
}.

Definition with_bridge (b : Bridge.t) (h : t) : t :=
  mkHost b (m_port h) (listener h) (settings h).

Definition with_listener (v : option Z) (h : t) : t :=
  mkHost (bridge h) (m_port h) v (settings h).

(** The constructor: the configured rate is read from the store, 0 when the
    key is absent. *)
Definition construct (store : option Z) : t :=
  mkHost (Bridge.init (match store with Some v => v | None => 0 end))
         0 None store.

Definition configuredFps (h : t) : Z := m_configuredFps (bridge h).

(** [quint16] from an [int]. *)
Definition quint16 (z : Z) : Z := z mod 65536.

Definition setPort (port : Z) (h : t) : t :=
  mkHost (bridge h) (quint16 port) (listener h) (settings h).

(** [WebSocketServer::port()], which is also [serverPort()] of the bridge. *)
Definition serverPort (h : t) : Z :=
  match listener h with
  | Some p => p
  | None => 0
  end.

(** What [QWebSocketServer::listen] does: it fails, or binds the requested
    port, the system assigning one when 0 is requested. *)
Inductive Listen : Type :=
| Refused
| Bound (assigned : Z).

(** [WebSocketServer::start(port)].  A [QWebSocketServer] that failed to
    listen reports port 0. *)
Definition WebSocketServer_start (port : Z) (env : Listen) (h : t)
  : bool * t :=
  match listener h with
  | Some _ => (false, h)
  | None =>
      match env with
      | Refused =>
          let actualPort := 0 in
          let err := ("Failed to start WebSocketServer on port "
                        ++ QString_number actualPort)%string in
          let details := [("port", VInt actualPort);
                          ("reason", VString err)] in
          (false,
           with_listener None
             (with_bridge (onServerError ServerStartFailed details (bridge h))
                          h))
      | Bound assigned =>
          (true, with_listener (Some (if port =? 0 then assigned else port)) h)
      end
  end.

(** [WebSocketServer::stop()]. *)
Definition WebSocketServer_stop (h : t) : t :=
  match listener h with
  | None => h
  | Some _ => with_listener None h
  end.

Definition start (env : Listen) (h : t) : bool * t :=
  let h1 := with_bridge (setServerState Starting (bridge h)) h in
  let h2 := with_bridge (setStatusMessage "Starting" (bridge h1)) h1 in
  match WebSocketServer_start (quint16 (m_port h2)) env h2 with
  | (false, h3) =>
      let details := [("port", VInt (m_port h3));
                      ("reason", VString "failed to bind")] in
      let b4 := setServerState Error (bridge h3) in
      let b5 := setStatusMessage "Failed to start" b4 in
      (false, with_bridge (emit (eventOccurred ServerStartFailed details) b5) h3)
  | (true, h3) =>
      let details := [("port", VInt (serverPort h3))] in
      let b4 := setServerState Running (bridge h3) in
      let b5 := setStatusMessage "Running" b4 in
      (true, with_bridge (emit (eventOccurred ServerStarted details) b5) h3)
  end.

Definition stop (h : t) : t :=
  let b1 := setServerState Stopping (bridge h) in
  let b2 := setStatusMessage "Stopping" b1 in
  let h3 := WebSocketServer_stop (with_bridge b2 h) in
  let b4 := emit (eventOccurred ServerStopped []) (bridge h3) in
  let b5 := setServerState Idle b4 in
  with_bridge (setStatusMessage "Stopped" b5) h3.

Section WithExternals.
Context {ext : Externals}.

Definition setConfiguredFps (fps : Z) (h : t) : t :=
  if m_configuredFps (bridge h) =? fps then h
  else
    let b1 := set_configuredFps fps (bridge h) in
    let h2 := mkHost b1 (m_port h) (listener h) (Some (m_configuredFps b1)) in
    let b3 := emit (configuredFpsChanged (m_configuredFps b1)) (bridge h2) in
    let b4 := if negb (isEmpty (m_activeClientId b3))
              then setFps (m_configuredFps b3) b3
              else b3 in
    with_bridge b4 h2.

(** [m_sessions.removeAt(i)] for the first session with the given id. *)
Fixpoint remove_session (x : string) (l : list string) : list string :=
  match l with
  | [] => []
  | y :: r => if String.eqb y x then r else y :: remove_session x r
  end.

(** [WebSocketServer::onNewConnection]; [pending] is the next pending
    connection, with the id its session draws ([QUuid::createUuid]) and the
    peer address. *)
Definition onNewConnection (pending : option (string * string)) (h : t) : t :=
  match listener h with
  | None => h
  | Some _ =>
      match pending with
      | None => h
      | Some (sid, addr) =>
          let b := bridge h in
          let b1 := set_server
                      (Server.mk (Server.m_sessions (m_server b) ++ [sid])
                                 (Server.sent (m_server b))) b in
          let b2 := onClientConnected sid addr b1 in
          let req := Control.set_type Control.REQUEST_ALIAS Control.default in
          match SerializeToString req with
          | Some ba =>
              with_bridge
                (set_server (Server.sendControlMessage sid ba (m_server b2))
                            b2) h
          | None => with_bridge b2 h
          end
      end
  end.

(** [WebSocketServer::onSessionDisconnected], the slot connected to
    [ClientSession::disconnected]. *)
Definition onSessionDisconnected (clientId : string) (h : t) : t :=
  let b := bridge h in
  if Server.mem clientId (Server.m_sessions (m_server b)) then
    let b1 := set_server
                (Server.mk (remove_session clientId
                                           (Server.m_sessions (m_server b)))
                           (Server.sent (m_server b))) b in
    with_bridge (Bridge.onSessionDisconnected clientId b1) h
  else h.

(** A binary message arriving at the session [sid]: the signals of
    [ClientSession::onBinaryMessageReceived] reach the bridge through the
    server. *)
Definition dispatch (now later : Z) (b : Bridge.t) (e : Session.Effect)
  : Bridge.t :=
  match e with
  | Session.controlMessageReceived x payload =>
      onControlMessageReceived x payload b
  | Session.frameReceived x img => onFrameReceived now later x img b
  | _ => b
  end.

Definition onBinaryMessage (now later : Z) (sid : string) (message : bytes)
           (h : t) : t :=
  with_bridge
    (fold_left (dispatch now later)
               (Session.onBinaryMessageReceived sid message) (bridge h)) h.

(** What happens to a running server. *)
Inductive Event : Type :=
| NewConnection (sid addr : string)
| SocketDisconnected (sid : string)
| BinaryMessage (sid : string) (message : bytes) (now later : Z)
| ConfigureFps (fps : Z).

Definition handle (h : t) (ev : Event) : t :=
  match ev with
  | NewConnection sid addr => onNewConnection (Some (sid, addr)) h
  | SocketDisconnected sid => onSessionDisconnected sid h
  | BinaryMessage sid message now later =>
      onBinaryMessage now later sid message h
  | ConfigureFps fps => setConfiguredFps fps h
  end.

Definition serve (evs : list Event) (h : t) : t := fold_left handle evs h.

End WithExternals.

(** The ids of the sessions a sequence of events opens. *)
Fixpoint opened (evs : list Event) : list string :=
  match evs with
  | [] => []
  | NewConnection sid _ :: r => sid :: opened r
  | _ :: r => opened r
  end.

End ImageServerBridge.

(** ** QmlImageProvider (src/network/qmlimageprovider.cpp) *)

Module QmlImageProvider.

(** [requestImage(id, size, requestedSize)]: the image returned and what is
    stored through [size] (given as the value it points to, if not null). *)
Definition requestImage (m_bridge : option Bridge.t) (size : option (Z * Z))
  : QImage * option (Z * Z) :=
  match m_bridge with
  | None => (nullImage, size)
  | Some b =>
      let frame := Bridge.m_lastFrame b in
      (frame,
       match size with
       | Some old => if negb (QImage_isNull frame)
                     then Some (width frame, height frame)
                     else Some old
       | None => None
       end)
  end.

End QmlImageProvider.

(** ** The remaining members of WebSocketImageClient *)

Module WebSocketImageClient.
Import Client.

(** The connection state machine together with the members it does not
    touch: the alias, the rate last commanded by the server, whether
    [m_onFpsChanged] is set, the payloads handed to [async_write] so far and
    the arguments [m_onFpsChanged] was called with. *)
Record t : Type := mkPeer {
  impl : Client.t;
  m_alias : string;
  configuredFps : Z;
  has_onFpsChanged : bool;
  written : list bytes;
  fpsChanged : list Z
}.

Definition create (onConnected onDisconnected onFpsChanged : bool) : t :=
  mkPeer (Client.init onConnected onDisconnected) "" 0 onFpsChanged [] [].

Definition with_impl (c : Client.t) (p : t) : t :=
  mkPeer c (m_alias p) (configuredFps p) (has_onFpsChanged p) (written p)
         (fpsChanged p).

Definition setAlias (a : string) (p : t) : t :=
  mkPeer (impl p) a (configuredFps p) (has_onFpsChanged p) (written p)
         (fpsChanged p).

Definition alias (p : t) : string := m_alias p.

Definition async_write (payload : bytes) (p : t) : t :=
  mkPeer (impl p) (m_alias p) (configuredFps p) (has_onFpsChanged p)
         (written p ++ [payload]) (fpsChanged p).

(** [!running || !ws || !ws->is_open()]. *)
Definition not_connected (c : Client.t) : bool :=
  negb (running c)
  || match ws c with
     | None => true
     | Some _ => negb (ws_open c)
     end.

Definition sendFrame (jpegData : bytes) (p : t) : bool * t :=
  if not_connected (impl p)
  then (false, with_impl (set_running false (impl p)) p)
  else (true, async_write jpegData p).

Definition sendControlMessage (serialized : bytes) (p : t) : bool * t :=
  if not_connected (impl p)
  then (false, with_impl (set_running false (impl p)) p)
  else (true, async_write (x01 :: serialized) p).

(** The completion handler of both writes, run by the I/O thread [self]. *)
Definition onWritten (self : Thread) (failed : bool) (p : t) : t :=
  if failed then with_impl (cleanupConnection self (impl p)) p else p.

Definition doAsyncRead (p : t) : t :=
  if negb (running (impl p))
     || match ws (impl p) with None => true | Some _ => false end
  then p
  else with_impl (log ArmedRead (impl p)) p.

(** What a read completes with. *)
Inductive Read : Type :=
| ReadError
| ReadMessage (s : bytes).

Section WithExternals.
Context {ext : Externals}.

(** The completion handler of [async_read], run by the I/O thread [self]. *)
Definition onRead (self : Thread) (r : Read) (p : t) : t :=
  match r with
  | ReadError => with_impl (cleanupConnection self (impl p)) p
  | ReadMessage s =>
      let p1 :=
        match s with
        | [] => p
        | prefix :: rest =>
            if Byte.eqb prefix x01 then
              match ParseFromArray rest with
              | Some msg =>
                  match Control.type msg with
                  | Control.REQUEST_ALIAS =>
                      let reply :=
                        Control.set_alias (m_alias p)
                          (Control.set_type Control.ALIAS Control.default) in
                      match SerializeToString reply with
                      | Some ba => snd (sendControlMessage ba p)
                      | None => p
                      end
                  | Control.SET_FPS =>
                      let fps := Control.fps msg in
                      let p' := mkPeer (impl p) (m_alias p) fps
                                       (has_onFpsChanged p) (written p)
                                       (fpsChanged p) in
                      if has_onFpsChanged p'
                      then mkPeer (impl p') (m_alias p') (configuredFps p')
                                  (has_onFpsChanged p') (written p')
                                  (fpsChanged p' ++ [fps])
                      else p'
                  | _ => p
                  end
              | None => p
              end
            else p
        end in
      doAsyncRead p1
  end.

End WithExternals.

(** The pacing of the example client's streaming loop
    (apps/client/example_client.cpp): the milliseconds slept after a frame,
    from the rate [configuredFps()] reports. *)
Definition frameDelay (configured : Z) : Z :=
  let fps := if configured <=? 0 then 30 else configured in
  Z.max 1 (Z.quot 1000 fps).

End WebSocketImageClient.

(** ** Diagnostics of the server application (apps/server) *)

Module Diagnostics.

Inductive ErrorSeverity : Type := Info | Warning | Error | Critical.

(** The severity the application's [eventOccurred] handler chooses
    (apps/server/main.cpp): "Choose severity based on event code ranges". *)
Definition eventSeverity (c : Z) : ErrorSeverity :=
  if (1000 <=? c) && (c <? 2000) then Info
  else if (2000 <=? c) && (c <? 3000) then Info
  else if (3000 <=? c) && (c <? 4000) then Warning
  else if 4000 <=? c then Warning
  else Info.

End Diagnostics.

(** ** Observations on the bridge *)

Module Log.

(** The events in a signal log: code and details of each [eventOccurred], in
    order. *)
Fixpoint events (sigs : list Bridge.Signal) : list (EventCode * QVariantMap) :=
  match sigs with
  | [] => []
  | Bridge.eventOccurred c d :: r => (c, d) :: events r
  | _ :: r => events r
  end.

Definition is_fps_failure (ev : EventCode * QVariantMap) : bool :=
  match fst ev with
  | FpsFailedNoClient | FpsSendError => true
  | _ => false
  end.

(** How many times applying a rate has failed so far. *)
Definition fps_failures (b : Bridge.t) : nat :=
  List.length (filter is_fps_failure (events (Bridge.signals b))).

(** The rate in force after a sequence of events: that of the last
    [ConfigureFps]. *)
Fixpoint last_configured (evs : list ImageServerBridge.Event) (fps : Z) : Z :=
  match evs with
  | [] => fps
  | ImageServerBridge.ConfigureFps f :: r => last_configured r f
  | _ :: r => last_configured r fps
  end.

End Log.

(** A stream of decoded frames reaching the bridge. *)
Module Stream.

Record Arrival : Type := mkArrival {
  sender : string;
  image : QImage;
  now : Z;
  later : Z
}.

Definition receive (b : Bridge.t) (a : Arrival) : Bridge.t :=
  Bridge.onFrameReceived (now a) (later a) (sender a) (image a) b.

Definition run (arrivals : list Arrival) (b : Bridge.t) : Bridge.t :=
  fold_left receive arrivals b.

(** The arrivals sent by [x]. *)
Definition from (x : string) (arrivals : list Arrival) : list Arrival :=
  filter (fun a => String.eqb (sender a) x) arrivals.

(** The last image [x] sent, or [before] when it sent none. *)
Definition latest (x : string) (arrivals : list Arrival) (before : QImage)
  : QImage :=
  last (map image (from x arrivals)) before.

End Stream.

(** ** The running server: what its events preserve *)

Module Serving.
Import ClientModel Bridge.

(** The sessions of the server and the rows of the registry are the same
    ids in the same order. *)
Definition mirrored (b : Bridge.t) : Prop :=
  Server.m_sessions (m_server b) = ids (m_clientModel b).

(** The rate commanded last is the configured one: when a client is active,
    the current rate and the configured rate recorded in its row both equal
    the server-wide configured rate. *)
Definition rate_in_force (b : Bridge.t) : Prop :=
  m_activeClientId b <> "" ->
  m_currentFps b = m_configuredFps b /\
  forall e, View.lookup (m_activeClientId b) (m_clients (m_clientModel b))
            = Some e ->
            configuredFps e = m_configuredFps b.

(** The SET_FPS message for a rate, and the alias request. *)
Definition set_fps_message (fps : Z) : Control.ControlMessage :=
  Control.set_fps fps (Control.set_type Control.SET_FPS Control.default).

Definition alias_request : Control.ControlMessage :=
  Control.set_type Control.REQUEST_ALIAS Control.default.

(** The serializer accepts every SET_FPS message. *)
Definition serializes_rates {ext : Externals} : Prop :=
  forall fps, SerializeToString (set_fps_message fps) <> None.

(** A host that has neither sessions nor rows nor an active client. *)
Definition vacant (h : ImageServerBridge.t) : Prop :=
  let b := ImageServerBridge.bridge h in
  m_clients (m_clientModel b) = [] /\
  Server.m_sessions (m_server b) = [] /\
  m_activeClientId b = "".

End Serving.

(** ** The diagnostics list of the server application
       (apps/server/src/diagnosticsmodel.cpp) *)

Module DiagnosticsModel.

Record DiagnosticEntry : Type := mkEntry {
  id : string;
  code : Z;
  message : string;
  severity : Z;
  source : string;
  firstTimestamp : Z;     (* QDateTime, as milliseconds *)
  lastTimestamp : Z;
  count : Z;
  metadata : QVariantMap;
  suppressed : bool
}.

Inductive Signal : Type :=
| rowsInserted (first last : Z)
| rowsRemoved (first last : Z)
| dataChanged (row : Z)
| modelReset.

Record t : Type := mkModel {
  m_entries : list DiagnosticEntry;     (* std::deque, front first *)
  m_maxEntries : Z;
  emitted : list Signal
}.

(** A new model: no entries, [m_maxEntries = 500]. *)
Definition empty : t := mkModel [] 500 [].

Definition size (l : list DiagnosticEntry) : Z := Z.of_nat (List.length l).

Definition rowCount (m : t) : Z := size (m_entries m).

Definition ids (m : t) : list string := map id (m_entries m).

(** "update in place": the fields [upsertEntry] copies from the new entry. *)
Definition update (entry e : DiagnosticEntry) : DiagnosticEntry :=
  mkEntry (id e) (code e) (message entry) (severity e) (source e)
          (firstTimestamp e) (lastTimestamp entry) (count entry)
          (metadata entry) (suppressed entry).

(** The search loop of [upsertEntry] from index [i]: the index of the first
    entry with the id of [entry] and the list with that entry updated. *)
Fixpoint upsert_loop (i : Z) (entry : DiagnosticEntry)
         (l : list DiagnosticEntry) : option (Z * list DiagnosticEntry) :=
  match l with
  | [] => None
  | e :: r =>
      if String.eqb (id e) (id entry) then Some (i, update entry e :: r)
      else match upsert_loop (i + 1) entry r with
           | Some (k, r') => Some (k, e :: r')
           | None => None
           end
  end.

(** [while (size > m_maxEntries) pop_back()], each removal announced.  The
    loop runs at most once per entry; [fuel] counts the entries left, and
    with none left the next [pop_back] would be on an empty deque, which is
    undefined ([None]). *)
Fixpoint trim (fuel : nat) (maxEntries : Z) (l : list DiagnosticEntry)
         (sigs : list Signal) : option (list DiagnosticEntry * list Signal) :=
  if size l <=? maxEntries then Some (l, sigs)
  else
    match fuel with
    | O => None
    | S k =>
        trim k maxEntries (removelast l)
             (sigs ++ [rowsRemoved (size l - 1) (size l - 1)])
    end.

Definition upsertEntry (entry : DiagnosticEntry) (m : t) : option t :=
  match upsert_loop 0 entry (m_entries m) with
  | Some (i, l') =>
      Some (mkModel l' (m_maxEntries m) (emitted m ++ [dataChanged i]))
  | None =>
      let l1 := entry :: m_entries m in
      match trim (List.length l1) (m_maxEntries m) l1
                 (emitted m ++ [rowsInserted 0 0]) with
      | Some (l2, sigs) => Some (mkModel l2 (m_maxEntries m) sigs)
      | None => None
      end
  end.

Definition setMaxEntries (maxEntries : Z) (m : t) : option t :=
  match trim (List.length (m_entries m)) maxEntries (m_entries m) (emitted m)
  with
  | Some (l, sigs) => Some (mkModel l maxEntries sigs)
  | None => None
  end.

Definition maxEntries (m : t) : Z := m_maxEntries m.

Definition clear (m : t) : t :=
  match m_entries m with
  | [] => m
  | _ => mkModel [] (m_maxEntries m) (emitted m ++ [modelReset])
  end.

(** What is done to a model. *)
Inductive Op : Type :=
| Upsert (entry : DiagnosticEntry)
| SetMax (maxEntries : Z)
| Clear.

Definition step (m : option t) (op : Op) : option t :=
  match m with
  | None => None
  | Some m =>
      match op with
      | Upsert entry => upsertEntry entry m
      | SetMax n => setMaxEntries n m
      | Clear => Some (clear m)
      end
  end.

Definition run (ops : list Op) (m : t) : option t :=
  fold_left step ops (Some m).

(** No operation sets a negative limit. *)
Fixpoint limits_ok (ops : list Op) : Prop :=
  match ops with
  | [] => True
  | SetMax n :: r => 0 <= n /\ limits_ok r
  | _ :: r => limits_ok r
  end.

End DiagnosticsModel.

(** ** The aggregation of diagnostics
       (apps/server/src/diagnosticsmanager.cpp) *)

(** [QCryptographicHash::hash(data, Sha1).toHex()], a library routine. *)
Class Sha1 : Type := {
  sha1_hex : string -> string
}.

Module DiagnosticsManager.
Import DiagnosticsModel.

Record AggState : Type := mkAgg {
  first : Z;
  last : Z;
  agg_count : Z;          (* int count *)
  agg_suppressed : bool;
  entry : DiagnosticEntry
}.

Inductive Signal : Type :=
| enabledChanged (v : bool)
| lastErrorChanged
| panelVisibleChanged.

Record t : Type := mk {
  m_model : DiagnosticsModel.t;
  m_aggregation : list (string * AggState);   (* QHash, one binding per key *)
  m_aggregationWindowMs : Z;
  m_rateLimitUniquePerMinute : Z;
  m_enabled : bool;
  m_lastErrorMessage : string;
  m_burstMode : bool;
  burstTimer_active : bool;
  m_panelVisible : bool;
  signals : list Signal
}.

(** A new manager, with the defaults of the class declaration. *)
Definition init : t :=
  mk DiagnosticsModel.empty [] 1000 100 true "" false false false [].

Definition with_model (v : DiagnosticsModel.t) (d : t) : t :=
  mk v (m_aggregation d) (m_aggregationWindowMs d)
     (m_rateLimitUniquePerMinute d) (m_enabled d) (m_lastErrorMessage d)
     (m_burstMode d) (burstTimer_active d) (m_panelVisible d) (signals d).

Definition with_aggregation (v : list (string * AggState)) (d : t) : t :=
  mk (m_model d) v (m_aggregationWindowMs d)
     (m_rateLimitUniquePerMinute d) (m_enabled d) (m_lastErrorMessage d)
     (m_burstMode d) (burstTimer_active d) (m_panelVisible d) (signals d).

(** [QHash::find], [QHash::insert] and assignment through [operator[]]. *)
Fixpoint find (key : string) (h : list (string * AggState)) : option AggState :=
  match h with
  | [] => None
  | (k, v) :: r => if String.eqb k key then Some v else find key r
  end.

Fixpoint insert (key : string) (v : AggState) (h : list (string * AggState))
  : list (string * AggState) :=
  match h with
  | [] => [(key, v)]
  | (k, w) :: r => if String.eqb k key then (k, v) :: r
                   else (k, w) :: insert key v r
  end.

Definition hash_size (h : list (string * AggState)) : Z :=
  Z.of_nat (List.length h).

Section WithSha1.
Context {sha : Sha1}.

(** [makeSignature]: the hash of "code|source|" and the first 256 characters
    of the message. *)
Definition makeSignature (code : Z) (message source : string) : string :=
  sha1_hex (QString_number code ++ "|" ++ source ++ "|"
              ++ QString_left 256 message)%string.

End WithSha1.

Definition with_count_last (c l : Z) (e : DiagnosticEntry) : DiagnosticEntry :=
  mkEntry (id e) (code e) (message e) (severity e) (source e)
          (firstTimestamp e) l c (metadata e) (suppressed e).

Definition with_message (msg : string) (e : DiagnosticEntry) : DiagnosticEntry :=
  mkEntry (id e) (code e) msg (severity e) (source e)
          (firstTimestamp e) (lastTimestamp e) (count e) (metadata e)
          (suppressed e).

(** [postErrorEvent(entry)] on the manager's thread; [now] is its reading of
    the clock.  The result is [None] when the model's trimming is
    undefined. *)
Definition postErrorEvent (now : Z) (e : DiagnosticEntry) (d : t) : option t :=
  if negb (m_enabled d) then Some d
  else
    let sig := id e in
    let fresh := mkAgg (firstTimestamp e) (lastTimestamp e) (count e) false e in
    let agg1 :=
      match find sig (m_aggregation d) with
      | None => insert sig fresh (m_aggregation d)
      | Some s =>
          let ms := Int64.sub now (last s) in
          if ms <=? m_aggregationWindowMs d then
            let c := Int.incr (agg_count s) in
            insert sig
              (mkAgg (first s) now c (agg_suppressed s)
                     (with_message (message e) (with_count_last c now (entry s))))
              (m_aggregation d)
          else insert sig fresh (m_aggregation d)
      end in
    let d1 := with_aggregation agg1 d in
    let d2 :=
      if negb (m_burstMode d1)
         && (m_rateLimitUniquePerMinute d1 <? hash_size (m_aggregation d1))
      then mk (m_model d1) (m_aggregation d1) (m_aggregationWindowMs d1)
              (m_rateLimitUniquePerMinute d1) (m_enabled d1)
              (m_lastErrorMessage d1) true true (m_panelVisible d1)
              (signals d1)
      else d1 in
    match find sig (m_aggregation d2) with
    | None => Some d2            (* not reached: [sig] was just bound *)
    | Some s =>
        if m_burstMode d2 then
          Some (with_aggregation
                  (insert sig (mkAgg (first s) (last s) (agg_count s) true
                                     (entry s))
                          (m_aggregation d2)) d2)
        else
          let s' := mkAgg (first s) (last s) (agg_count s) (agg_suppressed s)
                          (with_count_last (agg_count s) (last s) (entry s)) in
          let d3 := with_aggregation (insert sig s' (m_aggregation d2)) d2 in
          match upsertEntry (entry s') (m_model d3) with
          | None => None
          | Some model =>
              Some (mk model (m_aggregation d3) (m_aggregationWindowMs d3)
                       (m_rateLimitUniquePerMinute d3) (m_enabled d3)
                       (message e) (m_burstMode d3) (burstTimer_active d3)
                       (m_panelVisible d3) (signals d3 ++ [lastErrorChanged]))
          end
    end.

Section WithSha1.
Context {sha : Sha1}.

(** [postError] called on the manager's own thread; [now] is the clock
    reading that stamps the entry, [later] the one [postErrorEvent] takes. *)
Definition postError (now later : Z) (code : Z) (message : string)
           (severity : Z) (source : string) (metadata : QVariantMap) (d : t)
  : option t :=
  if negb (m_enabled d) then Some d
  else
    let e := mkEntry (makeSignature code message source) code message severity
                     source now now 1 metadata false in
    postErrorEvent later e d.

End WithSha1.

Definition setEnabled (v : bool) (d : t) : t :=
  if Bool.eqb (m_enabled d) v then d
  else mk (m_model d) (m_aggregation d) (m_aggregationWindowMs d)
          (m_rateLimitUniquePerMinute d) v (m_lastErrorMessage d)
          (m_burstMode d) (burstTimer_active d) (m_panelVisible d)
          (signals d ++ [enabledChanged v]).

Definition clear (d : t) : t :=
  with_model (DiagnosticsModel.clear (m_model d)) (with_aggregation [] d).

(** The same error posted again and again: [times] are the pairs of clock
    readings of the successive calls. *)
Section WithSha1.
Context {sha : Sha1}.

Definition repost (code : Z) (message : string) (severity : Z)
           (source : string) (metadata : QVariantMap)
           (d : option t) (clock : Z * Z) : option t :=
  match d with
  | None => None
  | Some d => postError (fst clock) (snd clock) code message severity source
                        metadata d
  end.

End WithSha1.

(** The clock readings of successive posts never go back, and each is at
    most [window] after the one before. *)
Fixpoint within (window before : Z) (clocks : list (Z * Z)) : Prop :=
  match clocks with
  | [] => True
  | (_, later) :: r =>
      before <= later /\ later - before <= window /\ within window later r
  end.

(** The reading of the last post, [start] when there was none. *)
Definition last_reading (start : Z) (clocks : list (Z * Z)) : Z :=
  List.last (map snd clocks) start.

(** The signature [sig] has been counted [c] times, first at [t0] and last
    at [t1]: its bucket says so, and so does the first row of the list. *)
Definition counted (sig msg : string) (c t0 t1 : Z) (d : t) : Prop :=
  exists s row rest,
    find sig (m_aggregation d) = Some s /\
    id (entry s) = sig /\
    agg_count s = c /\ first s = t0 /\ last s = t1 /\
    m_entries (m_model d) = row :: rest /\
    id row = sig /\ count row = c /\ message row = msg /\
    firstTimestamp row = t0 /\ lastTimestamp row = t1.

End DiagnosticsManager.
(** ** Sample inputs for the server, the client and the diagnostics *)

Module Wire.

(** A toy codec that carries the alias: SET_FPS is the tag 01 and the low
    byte of the rate, REQUEST_ALIAS the tag 03 alone, ALIAS the tag 04
    followed by the bytes of the alias. *)
Definition serialize (m : Control.ControlMessage) : option bytes :=
  match Control.type m with
  | Control.SET_FPS =>
      Some [x01; match Byte.of_N (Z.to_N (Control.fps m mod 256)) with
                 | Some v => v
                 | None => x00
                 end]
  | Control.REQUEST_ALIAS => Some [x03]
  | Control.ALIAS => Some (x04 :: list_byte_of_string (Control.alias m))
  | _ => Some [x00]
  end.

Definition parse (bs : bytes) : option Control.ControlMessage :=
  match bs with
  | [] => None
  | tag :: r =>
      if Byte.eqb tag x01 then
        match r with
        | [v] => Some (Control.set_fps (Z.of_N (Byte.to_N v))
                         (Control.set_type Control.SET_FPS Control.default))
        | _ => None
        end
      else if Byte.eqb tag x03 then
        Some (Control.set_type Control.REQUEST_ALIAS Control.default)
      else if Byte.eqb tag x04 then
        Some (Control.set_alias (string_of_list_byte r)
                (Control.set_type Control.ALIAS Control.default))
      else Some Control.default
  end.

Definition externals : Externals :=
  {| SerializeToString := serialize;
     ParseFromArray := parse;
     loadFromData := Sample.load;
     loadFromData_empty := eq_refl |}.

(** A stand-in for the digest: the data itself. *)
Definition digest : Sha1 := {| sha1_hex := fun data => data |}.

(** A listening server without sessions, and one that has admitted "A". *)
Definition host : ImageServerBridge.t :=
  ImageServerBridge.mkHost (Bridge.init 30) 8080 (Some 8080) (Some 30).

Definition host_with (x : string) : ImageServerBridge.t :=
  ImageServerBridge.mkHost (Sample.bridge_with x) 8080 (Some 8080) (Some 30).

(** A client with the alias "cam" whose connection is established. *)
Definition peer : WebSocketImageClient.t :=
  WebSocketImageClient.mkPeer Sample.connected "cam" 0 true [] [].

Definition entry (sig : string) : DiagnosticsModel.DiagnosticEntry :=
  DiagnosticsModel.mkEntry sig 1002 "failed to bind" 0 "server" 10 10 1 []
                           false.

End Wire.

(** * Properties *)

(** ** Machine integers *)

Lemma Int_wrap_in_range z : Int.in_range (Int.wrap z).
Proof.
  unfold Int.in_range, Int.wrap, Int.INT_MIN, Int.INT_MAX.
  pose proof (Z.mod_pos_bound (z + 2147483648) 4294967296 ltac:(lia)). lia.
Qed.

Lemma Int_wrap_small z : Int.in_range z -> Int.wrap z = z.
Proof.
  unfold Int.in_range, Int.wrap, Int.INT_MIN, Int.INT_MAX. intros H.
  rewrite Z.mod_small by lia. lia.
Qed.

Lemma Int_incr_no_overflow z :
  Int.INT_MIN <= z < Int.INT_MAX -> Int.incr z = z + 1.
Proof.
  intros H. unfold Int.incr. apply Int_wrap_small.
  unfold Int.in_range, Int.INT_MIN, Int.INT_MAX in *. lia.
Qed.

Lemma Int64_sub_small a b :
  - 9223372036854775808 <= a - b <= 9223372036854775807 -> Int64.sub a b = a - b.
Proof.
  intros H. unfold Int64.sub, Int64.wrap. rewrite Z.mod_small by lia. lia.
Qed.

Lemma isEmpty_true s : isEmpty s = true <-> s = "".
Proof. unfold isEmpty. apply String.eqb_eq. Qed.

Lemma isEmpty_false s : isEmpty s = false <-> s <> "".
Proof. unfold isEmpty. apply String.eqb_neq. Qed.

(** ** ClientModel: index-based code against its structural view *)

Section ClientModelFacts.
Import ClientModel View.

Lemma indexOf_from_range i x l :
  indexOf_from i x l = -1 \/
  i <= indexOf_from i x l < i + Z.of_nat (List.length l).
Proof.
  revert i. induction l as [|e r IH]; intros i; simpl.
  - now left.
  - destruct (String.eqb (id e) x).
    + right. lia.
    + destruct (IH (i + 1)) as [H|H]; [now left | right; lia].
Qed.

Lemma indexOf_from_absent i x l :
  0 <= i -> (indexOf_from i x l = -1 <-> ~ In x (map id l)).
Proof.
  revert i. induction l as [|e r IH]; intros i Hi; simpl.
  - tauto.
  - destruct (String.eqb (id e) x) eqn:E.
    + apply String.eqb_eq in E. split; [lia | intros H; exfalso; auto].
    + apply String.eqb_neq in E. rewrite IH by lia. tauto.
Qed.

Lemma indexOf_from_shift i x l :
  indexOf_from i x l <> -1 -> 0 <= i ->
  indexOf_from i x l = i + indexOf_from 0 x l.
Proof.
  revert i. induction l as [|e r IH]; intros i Hne Hi; simpl in *.
  - congruence.
  - destruct (String.eqb (id e) x); [lia|].
    assert (H1 : indexOf_from 1 x r <> -1).
    { intros H. apply (indexOf_from_absent 1) in H; [|lia].
      apply Hne. apply indexOf_from_absent; [lia | exact H]. }
    rewrite (IH (i + 1)) by (auto; lia). rewrite (IH 1) by (auto; lia). lia.
Qed.

Lemma indexOfClient_absent x m :
  indexOfClient x m = -1 <-> ~ In x (ids m).
Proof. unfold indexOfClient, ids. apply indexOf_from_absent. lia. Qed.

Lemma indexOfClient_range x m :
  indexOfClient x m = -1 \/ 0 <= indexOfClient x m < size m.
Proof.
  unfold indexOfClient, size.
  destruct (indexOf_from_range 0 x (m_clients m)); [now left | right; lia].
Qed.

Lemma lookup_absent x l : lookup x l = None <-> ~ In x (map id l).
Proof.
  induction l as [|e r IH]; simpl; [tauto|].
  destruct (String.eqb (id e) x) eqn:E.
  - apply String.eqb_eq in E. split; [discriminate | intros H; exfalso; auto].
  - apply String.eqb_neq in E. rewrite IH. tauto.
Qed.

Lemma lookup_some x l e : lookup x l = Some e -> In e l /\ id e = x.
Proof.
  induction l as [|a r IH]; simpl; [discriminate|].
  destruct (String.eqb (id a) x) eqn:E.
  - intros [= <-]. apply String.eqb_eq in E. auto.
  - intros H. destruct (IH H). auto.
Qed.

(** The row found by [indexOfClient] is the first one with that id. *)
Lemma nth_indexOf x l :
  indexOf_from 0 x l <> -1 ->
  nth_error l (Z.to_nat (indexOf_from 0 x l)) = lookup x l.
Proof.
  induction l as [|e r IH]; simpl; intros Hne; [congruence|].
  destruct (String.eqb (id e) x); [reflexivity|].
  assert (H1 : indexOf_from 0 x r <> -1).
  { intros H. apply (indexOf_from_absent 0) in H; [|lia].
    apply Hne. apply indexOf_from_absent; [lia | exact H]. }
  rewrite indexOf_from_shift by (auto; lia).
  destruct (indexOf_from_range 0 x r) as [?|?]; [congruence|].
  replace (Z.to_nat (1 + indexOf_from 0 x r))
    with (S (Z.to_nat (indexOf_from 0 x r))) by lia.
  simpl. auto.
Qed.

Lemma at_indexOfClient x m :
  indexOfClient x m <> -1 ->
  at_ (indexOfClient x m) m = lookup x (m_clients m).
Proof.
  intros Hne. unfold at_.
  destruct (indexOfClient_range x m) as [?|Hr]; [congruence|].
  replace (indexOfClient x m <? 0) with false by (symmetry; apply Z.ltb_ge; lia).
  replace (size m <=? indexOfClient x m) with false
    by (symmetry; apply Z.leb_gt; lia).
  simpl. apply nth_indexOf. exact Hne.
Qed.

Lemma set_nth_indexOf x f l :
  indexOf_from 0 x l <> -1 ->
  set_nth (Z.to_nat (indexOf_from 0 x l)) f l = upd_first x f l.
Proof.
  induction l as [|e r IH]; simpl; intros Hne; [congruence|].
  destruct (String.eqb (id e) x); [reflexivity|].
  assert (H1 : indexOf_from 0 x r <> -1).
  { intros H. apply (indexOf_from_absent 0) in H; [|lia].
    apply Hne. apply indexOf_from_absent; [lia | exact H]. }
  rewrite indexOf_from_shift by (auto; lia).
  destruct (indexOf_from_range 0 x r) as [?|?]; [congruence|].
  replace (Z.to_nat (1 + indexOf_from 0 x r))
    with (S (Z.to_nat (indexOf_from 0 x r))) by lia.
  simpl. f_equal. auto.
Qed.

Lemma remove_nth_indexOf x l :
  indexOf_from 0 x l <> -1 ->
  remove_nth (Z.to_nat (indexOf_from 0 x l)) l = remove_first x l.
Proof.
  induction l as [|e r IH]; simpl; intros Hne; [congruence|].
  destruct (String.eqb (id e) x); [reflexivity|].
  assert (H1 : indexOf_from 0 x r <> -1).
  { intros H. apply (indexOf_from_absent 0) in H; [|lia].
    apply Hne. apply indexOf_from_absent; [lia | exact H]. }
  rewrite indexOf_from_shift by (auto; lia).
  destruct (indexOf_from_range 0 x r) as [?|?]; [congruence|].
  replace (Z.to_nat (1 + indexOf_from 0 x r))
    with (S (Z.to_nat (indexOf_from 0 x r))) by lia.
  simpl. f_equal. auto.
Qed.

Lemma upd_first_absent x f l : ~ In x (map id l) -> upd_first x f l = l.
Proof.
  induction l as [|e r IH]; simpl; intros H; [reflexivity|].
  destruct (String.eqb (id e) x) eqn:E.
  - apply String.eqb_eq in E. exfalso; auto.
  - f_equal. apply IH. tauto.
Qed.

Lemma remove_first_absent x l : ~ In x (map id l) -> remove_first x l = l.
Proof.
  induction l as [|e r IH]; simpl; intros H; [reflexivity|].
  destruct (String.eqb (id e) x) eqn:E.
  - apply String.eqb_eq in E. exfalso; auto.
  - f_equal. apply IH. tauto.
Qed.

(** The rows of the model after each mutator. *)

Lemma addClient_clients x st m :
  m_clients (addClient x st m) =
  if indexOfClient x m =? -1 then m_clients m ++ [newEntry x st]
  else m_clients m.
Proof.
  unfold addClient. destruct (indexOfClient x m =? -1); reflexivity.
Qed.

Lemma removeClient_clients x m :
  m_clients (removeClient x m) = remove_first x (m_clients m).
Proof.
  unfold removeClient. destruct (indexOfClient x m =? -1) eqn:E; simpl.
  - apply Z.eqb_eq in E. apply indexOfClient_absent in E.
    symmetry. apply remove_first_absent. exact E.
  - apply Z.eqb_neq in E. apply remove_nth_indexOf. exact E.
Qed.

Lemma setClientStatus_clients x st m :
  m_clients (setClientStatus x st m) =
  upd_first x (with_status st) (m_clients m).
Proof.
  unfold setClientStatus. destruct (indexOfClient x m =? -1) eqn:E.
  - apply Z.eqb_eq in E. apply indexOfClient_absent in E.
    symmetry. apply upd_first_absent. exact E.
  - apply Z.eqb_neq in E. rewrite at_indexOfClient by exact E.
    destruct (lookup x (m_clients m)) as [e|] eqn:L.
    + destruct (String.eqb (status e) st) eqn:S; simpl.
      * apply String.eqb_eq in S. clear E. revert L.
        induction (m_clients m) as [|a r IH]; simpl; [discriminate|].
        destruct (String.eqb (id a) x).
        -- intros [= ->]. f_equal. destruct e; unfold with_status; simpl in *.
           now subst.
        -- intros L. f_equal. auto.
      * apply set_nth_indexOf. exact E.
    + apply lookup_absent in L. symmetry. apply upd_first_absent. exact L.
Qed.

Lemma setClientConfiguredFps_clients x fps m :
  m_clients (setClientConfiguredFps x fps m) =
  upd_first x (with_configuredFps fps) (m_clients m).
Proof.
  unfold setClientConfiguredFps. destruct (indexOfClient x m =? -1) eqn:E.
  - apply Z.eqb_eq in E. apply indexOfClient_absent in E.
    symmetry. apply upd_first_absent. exact E.
  - apply Z.eqb_neq in E. rewrite at_indexOfClient by exact E.
    destruct (lookup x (m_clients m)) as [e|] eqn:L.
    + destruct (configuredFps e =? fps) eqn:S; simpl.
      * apply Z.eqb_eq in S. clear E. revert L.
        induction (m_clients m) as [|a r IH]; simpl; [discriminate|].
        destruct (String.eqb (id a) x).
        -- intros [= ->]. f_equal.
           destruct e; unfold with_configuredFps; simpl in *. now subst.
        -- intros L. f_equal. auto.
      * apply set_nth_indexOf. exact E.
    + apply lookup_absent in L. symmetry. apply upd_first_absent. exact L.
Qed.

Lemma map_id_upd_first x f l :
  (forall e, id (f e) = id e) -> map id (upd_first x f l) = map id l.
Proof.
  intros Hf. induction l as [|e r IH]; simpl; [reflexivity|].
  destruct (String.eqb (id e) x); simpl; [now rewrite Hf | now rewrite IH].
Qed.

Lemma In_remove_first x y l :
  In y (map id (remove_first x l)) -> In y (map id l).
Proof.
  induction l as [|e r IH]; simpl; [tauto|].
  destruct (String.eqb (id e) x); simpl; tauto.
Qed.

Lemma NoDup_remove_first x l :
  NoDup (map id l) -> NoDup (map id (remove_first x l)).
Proof.
  induction l as [|e r IH]; simpl; intros H; [constructor|].
  inversion H as [|? ? Hn Hr]; subst.
  destruct (String.eqb (id e) x); simpl; [exact Hr|].
  constructor; [|auto]. intros Hi. apply Hn. eapply In_remove_first; eauto.
Qed.

End ClientModelFacts.

(** ** C10: admitting a known id changes nothing; ids stay distinct *)

Lemma model_run_NoDup ops m :
  NoDup (ClientModel.ids m) -> NoDup (ClientModel.ids (View.model_run ops m)).
Proof.
  revert m. induction ops as [|op r IH]; intros m H; simpl; [exact H|].
  apply IH. destruct op as [x st|x]; simpl; unfold ClientModel.ids.
  - rewrite addClient_clients. destruct (ClientModel.indexOfClient x m =? -1) eqn:E.
    + apply Z.eqb_eq in E. apply indexOfClient_absent in E.
      rewrite map_app. simpl.
      apply NoDup_app; [exact H | repeat constructor; simpl; tauto |].
      intros y Hy [<-|[]]. exact (E Hy).
    + exact H.
  - rewrite removeClient_clients. apply NoDup_remove_first. exact H.
Qed.

(** C10.  For every model [m] and every id already present, [addClient]
    returns [m] itself: no row is added, no status is overwritten and no
    signal (in particular no [countChanged]) is emitted.  Consequently the ids
    of the rows are pairwise distinct after any sequence of [addClient] and
    [removeClient] calls on the empty model. *)
Theorem addClient_existing_noop :
  (forall (m : ClientModel.t) (x st : string),
      In x (ClientModel.ids m) -> ClientModel.addClient x st m = m) /\
  (forall ops : list View.ModelOp,
      NoDup (ClientModel.ids (View.model_run ops ClientModel.empty))).
Proof.
  split.
  - intros m x st Hin. unfold ClientModel.addClient.
    destruct (ClientModel.indexOfClient x m =? -1) eqn:E; [|reflexivity].
    apply Z.eqb_eq in E. apply indexOfClient_absent in E. contradiction.
  - intros ops. apply model_run_NoDup. constructor.
Qed.

(** ** C1: the active-client reference under admit/remove *)

Section RegistryFacts.
Import ClientModel View Registry.

Lemma key_upd_first_status x s l :
  map key (upd_first x (with_status s) l) = updk x s (map key l).
Proof.
  induction l as [|e r IH]; simpl; [reflexivity|].
  destruct (String.eqb (id e) x); simpl; [reflexivity | now rewrite IH].
Qed.

Lemma key_upd_first_same x f l :
  (forall e, key (f e) = key e) -> map key (upd_first x f l) = map key l.
Proof.
  intros Hf. induction l as [|e r IH]; simpl; [reflexivity|].
  destruct (String.eqb (id e) x); simpl; [now rewrite Hf | now rewrite IH].
Qed.

Lemma key_remove_first x l :
  map key (remove_first x l) = delk x (map key l).
Proof.
  induction l as [|e r IH]; simpl; [reflexivity|].
  destruct (String.eqb (id e) x); simpl; [reflexivity | now rewrite IH].
Qed.

Lemma map_fst_key l : map fst (map key l) = map id l.
Proof. rewrite map_map. reflexivity. Qed.

Lemma updk_absent x s ks : ~ In x (map fst ks) -> updk x s ks = ks.
Proof.
  induction ks as [|[y t] r IH]; simpl; intros H; [reflexivity|].
  destruct (String.eqb y x) eqn:E.
  - apply String.eqb_eq in E. exfalso; auto.
  - f_equal. apply IH. tauto.
Qed.

Lemma delk_absent x ks : ~ In x (map fst ks) -> delk x ks = ks.
Proof.
  induction ks as [|[y t] r IH]; simpl; intros H; [reflexivity|].
  destruct (String.eqb y x) eqn:E.
  - apply String.eqb_eq in E. exfalso; auto.
  - f_equal. apply IH. tauto.
Qed.

Lemma fst_updk x s ks : map fst (updk x s ks) = map fst ks.
Proof.
  induction ks as [|[y t] r IH]; simpl; [reflexivity|].
  destruct (String.eqb y x); simpl; [reflexivity | now rewrite IH].
Qed.

Lemma In_updk x s ks y t :
  NoDup (map fst ks) ->
  In (y, t) (updk x s ks) ->
  (y = x /\ t = s /\ In x (map fst ks)) \/ (y <> x /\ In (y, t) ks).
Proof.
  induction ks as [|[z u] r IH]; simpl; intros Hnd H; [tauto|].
  inversion Hnd as [|? ? Hn Hr]; subst.
  destruct (String.eqb z x) eqn:E.
  - apply String.eqb_eq in E. subst z. destruct H as [H|H].
    + injection H as <- <-. left. auto.
    + right. split; [|auto]. intros Heq. subst y. apply Hn.
      change x with (fst (x, t)). now apply in_map.
  - apply String.eqb_neq in E. destruct H as [H|H].
    + injection H as <- <-. right. auto.
    + destruct (IH Hr H) as [(?&?&?)|(?&?)]; [left | right]; auto.
Qed.

Lemma In_updk_hit x s ks :
  In x (map fst ks) -> In (x, s) (updk x s ks).
Proof.
  induction ks as [|[z u] r IH]; simpl; intros H; [tauto|].
  destruct (String.eqb z x) eqn:E.
  - apply String.eqb_eq in E. subst. now left.
  - apply String.eqb_neq in E. destruct H as [H|H]; [contradiction|].
    right. auto.
Qed.

Lemma In_delk x ks y t : In (y, t) (delk x ks) -> In (y, t) ks.
Proof.
  induction ks as [|[z u] r IH]; simpl; [tauto|].
  destruct (String.eqb z x); simpl; tauto.
Qed.

Lemma In_fst_delk x ks y : In y (map fst (delk x ks)) -> In y (map fst ks).
Proof.
  induction ks as [|[z u] r IH]; simpl; [tauto|].
  destruct (String.eqb z x); simpl; tauto.
Qed.

Lemma In_fst_delk_other x ks y :
  y <> x -> In y (map fst ks) -> In y (map fst (delk x ks)).
Proof.
  induction ks as [|[z u] r IH]; simpl; intros Hne H; [tauto|].
  destruct (String.eqb z x) eqn:E; simpl.
  - apply String.eqb_eq in E. subst. destruct H; [congruence | auto].
  - destruct H; auto.
Qed.

Lemma NoDup_delk x ks : NoDup (map fst ks) -> NoDup (map fst (delk x ks)).
Proof.
  induction ks as [|[z u] r IH]; simpl; intros H; [constructor|].
  inversion H as [|? ? Hn Hr]; subst.
  destruct (String.eqb z x); simpl; [exact Hr|].
  constructor; [|auto]. intros Hi. apply Hn. eapply In_fst_delk; eauto.
Qed.

Lemma delk_removes x ks :
  NoDup (map fst ks) -> ~ In x (map fst (delk x ks)).
Proof.
  induction ks as [|[z u] r IH]; simpl; intros H; [tauto|].
  inversion H as [|? ? Hn Hr]; subst.
  destruct (String.eqb z x) eqn:E; simpl.
  - apply String.eqb_eq in E. now subst.
  - apply String.eqb_neq in E. intros [?|?]; [contradiction|]. now apply IH.
Qed.

(** Transitions of the invariant, on ids and statuses alone. *)

Lemma inv_first_admit x :
  x <> "" -> inv x (updk x "Active" [(x, "Connected")]).
Proof.
  intros Hx. simpl. rewrite String.eqb_refl. unfold inv. simpl.
  split; [|split; [|split; [|split]]].
  - repeat constructor. simpl. tauto.
  - intros [H|[]]. now apply Hx.
  - intros ->. now contradiction Hx.
  - auto.
  - intros y s [H|[]]. injection H as <- <-. tauto.
Qed.

Lemma inv_admit_other a ks x :
  inv a ks -> a <> "" -> x <> "" -> ~ In x (map fst ks) ->
  inv a (ks ++ [(x, "Connected")]).
Proof.
  intros (Hnd & He & Hz & Hin & Hact) Ha Hx Hfresh. unfold inv.
  rewrite map_app. simpl. split; [|split; [|split; [|split]]].
  - apply NoDup_app; [exact Hnd | repeat constructor; simpl; tauto |].
    intros y Hy [<-|[]]. exact (Hfresh Hy).
  - rewrite in_app_iff. simpl. intros [H|[H|[]]]; [auto | now apply Hx].
  - intros ->. now contradiction Ha.
  - intros _. apply in_or_app. left. auto.
  - intros y s H. apply in_app_or in H. destruct H as [H|[H|[]]].
    + exact (Hact _ _ H).
    + injection H as <- <-. split; [discriminate|].
      intros ->. exfalso. apply Hfresh. auto.
Qed.

Lemma inv_remove_other a ks x :
  inv a ks -> x <> a -> inv a (delk x ks).
Proof.
  intros (Hnd & He & Hz & Hin & Hact) Hne. unfold inv.
  split; [|split; [|split; [|split]]].
  - now apply NoDup_delk.
  - intros H. apply He. eapply In_fst_delk; eauto.
  - intros Ha. rewrite (Hz Ha). reflexivity.
  - intros Ha. apply In_fst_delk_other; auto.
  - intros y s H. apply In_delk in H. exact (Hact _ _ H).
Qed.

Lemma inv_remove_active a ks y t r :
  inv a ks -> delk a ks = (y, t) :: r ->
  inv y (updk y "Active" (updk a "Connected" (delk a ks))).
Proof.
  intros (Hnd & He & Hz & Hin & Hact) Hd.
  assert (Hnd' : NoDup (map fst (delk a ks))) by now apply NoDup_delk.
  assert (Hgone : ~ In a (map fst (delk a ks))) by now apply delk_removes.
  rewrite (updk_absent a) by exact Hgone.
  assert (Hy : In y (map fst (delk a ks))) by (rewrite Hd; simpl; auto).
  unfold inv. rewrite fst_updk. split; [|split; [|split; [|split]]].
  - exact Hnd'.
  - intros H. apply He. eapply In_fst_delk; eauto.
  - intros ->. exfalso. apply He. eapply In_fst_delk; eauto.
  - auto.
  - intros x s H. apply In_updk in H; [|exact Hnd'].
    destruct H as [(?&?&?)|(Hne&H)]; [subst; tauto|].
    split; [|congruence]. intros ->. exfalso. apply Hgone.
    assert (Hx : x = a) by (apply In_delk in H; now apply (Hact _ _ H)).
    subst x. change a with (fst (a, "Active")). now apply in_map.
Qed.

End RegistryFacts.

Section BridgeFacts.
Context {ext : Externals}.
Import ClientModel View Registry Bridge.

Lemma setConnectionState_fields s b :
  m_clientModel (setConnectionState s b) = m_clientModel b /\
  m_activeClientId (setConnectionState s b) = m_activeClientId b /\
  m_configuredFps (setConnectionState s b) = m_configuredFps b /\
  m_currentFps (setConnectionState s b) = m_currentFps b /\
  m_frameId (setConnectionState s b) = m_frameId b /\
  m_server (setConnectionState s b) = m_server b.
Proof.
  unfold setConnectionState.
  destruct (ConnectionState_eqb (m_connectionState b) s); simpl; auto 10.
Qed.

Lemma setStatusMessage_fields s b :
  m_clientModel (setStatusMessage s b) = m_clientModel b /\
  m_activeClientId (setStatusMessage s b) = m_activeClientId b /\
  m_configuredFps (setStatusMessage s b) = m_configuredFps b /\
  m_currentFps (setStatusMessage s b) = m_currentFps b /\
  m_frameId (setStatusMessage s b) = m_frameId b /\
  m_server (setStatusMessage s b) = m_server b.
Proof.
  unfold setStatusMessage.
  destruct (String.eqb (m_statusMessage b) s); simpl; auto 10.
Qed.

Lemma setFps_active fps b :
  m_activeClientId (setFps fps b) = m_activeClientId b.
Proof.
  unfold setFps. destruct (isEmpty (m_activeClientId b)); [reflexivity|].
  destruct (SerializeToString _); [|reflexivity].
  destruct (Server.sendControlToClient _ _ _) as [[|] srv]; reflexivity.
Qed.

Lemma setFps_configured fps b :
  m_configuredFps (setFps fps b) = m_configuredFps b.
Proof.
  unfold setFps. destruct (isEmpty (m_activeClientId b)); [reflexivity|].
  destruct (SerializeToString _); [|reflexivity].
  destruct (Server.sendControlToClient _ _ _) as [[|] srv]; reflexivity.
Qed.

Lemma setFps_frameId fps b : m_frameId (setFps fps b) = m_frameId b.
Proof.
  unfold setFps. destruct (isEmpty (m_activeClientId b)); [reflexivity|].
  destruct (SerializeToString _); [|reflexivity].
  destruct (Server.sendControlToClient _ _ _) as [[|] srv]; reflexivity.
Qed.

(** [setFps] touches at most the configured rate of the active row. *)
Lemma setFps_clients fps b :
  m_clients (m_clientModel (setFps fps b)) = m_clients (m_clientModel b) \/
  m_clients (m_clientModel (setFps fps b)) =
  upd_first (m_activeClientId b) (with_configuredFps fps)
            (m_clients (m_clientModel b)).
Proof.
  unfold setFps. destruct (isEmpty (m_activeClientId b)); [now left|].
  destruct (SerializeToString _); [|now left].
  destruct (Server.sendControlToClient _ _ _) as [[|] srv]; [|now left].
  right. simpl. apply setClientConfiguredFps_clients.
Qed.

Lemma setFps_keys fps b : keys (setFps fps b) = keys b.
Proof.
  unfold keys. destruct (setFps_clients fps b) as [-> | ->]; [reflexivity|].
  apply key_upd_first_same. reflexivity.
Qed.

(** Without a live session of that id the send fails and the current rate is
    left alone. *)
Lemma setFps_unknown_session fps b :
  Server.mem (m_activeClientId b) (Server.m_sessions (m_server b)) = false ->
  m_currentFps (setFps fps b) = m_currentFps b /\
  m_clientModel (setFps fps b) = m_clientModel b /\
  m_server (setFps fps b) = m_server b.
Proof.
  intros Hm. unfold setFps. destruct (isEmpty (m_activeClientId b)); [auto|].
  destruct (SerializeToString _); [|auto].
  unfold Server.sendControlToClient. rewrite Hm. auto.
Qed.

Lemma setActiveClient_active x b :
  m_activeClientId (setActiveClient x b) = x.
Proof.
  unfold setActiveClient.
  destruct (String.eqb (m_activeClientId b) x) eqn:E.
  - now apply String.eqb_eq in E.
  - simpl. rewrite setFps_active. reflexivity.
Qed.

Lemma setActiveClient_same x b :
  m_activeClientId b = x -> setActiveClient x b = b.
Proof.
  intros <-. unfold setActiveClient. now rewrite String.eqb_refl.
Qed.

Lemma setActiveClient_keys x b :
  m_activeClientId b <> x ->
  keys (setActiveClient x b) =
  updk x "Active"
       (if isEmpty (m_activeClientId b) then keys b
        else updk (m_activeClientId b) "Connected" (keys b)).
Proof.
  intros Hne. unfold setActiveClient.
  apply String.eqb_neq in Hne. rewrite Hne.
  cbv zeta.
  match goal with
  | |- context [setFps ?f ?b3] =>
      transitivity (keys (setFps f b3)); [reflexivity|]
  end.
  rewrite setFps_keys. unfold keys. simpl.
  rewrite setClientStatus_clients, key_upd_first_status. f_equal.
  destruct (isEmpty (m_activeClientId b)); simpl; [reflexivity|].
  rewrite setClientStatus_clients, key_upd_first_status. reflexivity.
Qed.

End BridgeFacts.

Section RegistryInvariant.
Context {ext : Externals}.
Import ClientModel View Registry Bridge.

Lemma inv_setFps fps b :
  inv (m_activeClientId b) (keys b) ->
  inv (m_activeClientId (setFps fps b)) (keys (setFps fps b)).
Proof. now rewrite setFps_active, setFps_keys. Qed.

Lemma keys_nil b : keys b = [] <-> rowCount (m_clientModel b) = 0.
Proof.
  unfold keys, rowCount, size.
  destruct (m_clients (m_clientModel b)); simpl; split; intros; try lia;
    auto; discriminate.
Qed.

Lemma clientIdAt_0 m :
  clientIdAt 0 m = match m_clients m with [] => "" | e :: _ => id e end.
Proof.
  unfold clientIdAt, at_, size. destruct (m_clients m); simpl; [reflexivity|].
  replace (Z.pos (Pos.of_succ_nat (Datatypes.length l)) <=? 0) with false
    by (symmetry; apply Z.leb_gt; lia).
  reflexivity.
Qed.

Lemma onClientConnected_inv x addr b :
  x <> "" ->
  inv (m_activeClientId b) (keys b) ->
  inv (m_activeClientId (onClientConnected x addr b))
      (keys (onClientConnected x addr b)).
Proof.
  intros Hx Hinv. unfold onClientConnected. cbv zeta.
  set (b1 := set_clientModel (addClient x "Connected" (m_clientModel b)) b).
  set (b2 := if 0 <? rowCount (m_clientModel b1)
             then setStatusMessage "Clients connected"
                    (setConnectionState ClientsConnected b1)
             else b1).
  set (b3 := if isEmpty (m_activeClientId b2) then setActiveClient x b2
             else b2).
  assert (H2 : keys b2 = keys b1 /\ m_activeClientId b2 = m_activeClientId b).
  { unfold b2. destruct (0 <? rowCount (m_clientModel b1)); [|auto].
    destruct (setStatusMessage_fields "Clients connected"
                (setConnectionState ClientsConnected b1)) as (E1 & E2 & _).
    destruct (setConnectionState_fields ClientsConnected b1) as (E3 & E4 & _).
    unfold keys. rewrite E1, E2, E3, E4. auto. }
  destruct H2 as [K2 A2].
  assert (K1 : keys b1 = if indexOfClient x (m_clientModel b) =? -1
                         then keys b ++ [(x, "Connected")] else keys b).
  { unfold keys, b1. simpl. rewrite addClient_clients.
    destruct (indexOfClient x (m_clientModel b) =? -1); [|reflexivity].
    rewrite map_app. reflexivity. }
  assert (H3 : inv (m_activeClientId b3) (keys b3)).
  { unfold b3. rewrite A2.
    destruct (isEmpty (m_activeClientId b)) eqn:Ea.
    - apply isEmpty_true in Ea.
      destruct Hinv as (_ & _ & Hz & _). specialize (Hz Ea).
      rewrite setActiveClient_active, setActiveClient_keys
        by (rewrite A2, Ea; congruence).
      rewrite A2, Ea. simpl. rewrite K2, K1.
      assert (E : indexOfClient x (m_clientModel b) = -1).
      { apply indexOfClient_absent. unfold ids. rewrite <- map_fst_key.
        fold (keys b). rewrite Hz. simpl. tauto. }
      rewrite E, Hz. simpl. apply inv_first_admit. exact Hx.
    - apply isEmpty_false in Ea. rewrite A2, K2, K1.
      destruct (indexOfClient x (m_clientModel b) =? -1) eqn:E; [|exact Hinv].
      apply Z.eqb_eq in E. apply indexOfClient_absent in E.
      apply inv_admit_other; auto.
      unfold keys. rewrite map_fst_key. exact E. }
  destruct ((0 <? m_configuredFps b3)
            && String.eqb (m_activeClientId b3) x); [now apply inv_setFps|].
  destruct (0 <=? indexOfClient x (m_clientModel b3)); [|exact H3].
  destruct ((0 <? configuredFpsAt _ _) && String.eqb (m_activeClientId b3) x);
    [now apply inv_setFps | exact H3].
Qed.

Lemma onSessionDisconnected_inv x b :
  inv (m_activeClientId b) (keys b) ->
  inv (m_activeClientId (onSessionDisconnected x b))
      (keys (onSessionDisconnected x b)).
Proof.
  intros Hinv. unfold onSessionDisconnected. cbv zeta.
  match goal with
  | |- context [if ?c =? 0 then _ else _] =>
      match c with
      | rowCount (m_clientModel ?b3) =>
          set (B3 := b3);
          assert (K3 : keys B3 = delk x (keys b))
            by (unfold keys, B3; simpl;
                rewrite removeClient_clients; apply key_remove_first);
          assert (A3 : m_activeClientId B3 = m_activeClientId b)
            by reflexivity
      end
  end.
  destruct (rowCount (m_clientModel B3) =? 0) eqn:E0.
  - match goal with
    | |- inv (m_activeClientId ?bf) (keys ?bf) =>
        assert (Ka : keys bf = keys B3 /\ m_activeClientId bf = "")
    end.
    { match goal with
      | |- keys (emit _ (emit _ (setStatusMessage ?s (setConnectionState ?c ?b4))))
           = _ /\ _ =>
          destruct (setStatusMessage_fields s (setConnectionState c b4))
            as (E1 & E2 & _);
          destruct (setConnectionState_fields c b4) as (E3 & E4 & _)
      end.
      unfold keys in *. simpl. rewrite E1, E2, E3, E4. auto. }
    destruct Ka as [-> ->]. apply Z.eqb_eq in E0. apply keys_nil in E0.
    rewrite E0. unfold inv. simpl. repeat split; auto; try constructor;
      try tauto; try congruence.
  - apply Z.eqb_neq in E0. rewrite <- keys_nil in E0.
    assert (Hhd : clientIdAt 0 (m_clientModel B3) =
                  match keys B3 with [] => "" | k :: _ => fst k end).
    { rewrite clientIdAt_0. unfold keys.
      destruct (m_clients (m_clientModel B3)); reflexivity. }
    rewrite A3.
    destruct (String.eqb (m_activeClientId b) x) eqn:Ea.
    + apply String.eqb_eq in Ea. subst x. rewrite Hhd.
      destruct (keys B3) as [|[y t] r] eqn:K; [congruence|]. simpl.
      assert (Hne : m_activeClientId B3 <> y).
      { rewrite A3. intros Heq.
        destruct Hinv as (Hnd & _).
        apply (delk_removes (m_activeClientId b) (keys b) Hnd).
        rewrite <- K3, Heq. simpl. auto. }
      rewrite setActiveClient_active, setActiveClient_keys by exact Hne.
      rewrite A3.
      destruct (isEmpty (m_activeClientId b)) eqn:Em.
      * apply isEmpty_true in Em. destruct Hinv as (_ & _ & Hz & _).
        rewrite (Hz Em) in K3. simpl in K3. congruence.
      * rewrite K, K3. eapply inv_remove_active; eauto.
    + apply String.eqb_neq in Ea.
      destruct (isEmpty (m_activeClientId b)) eqn:Em; simpl.
      * apply isEmpty_true in Em. destruct Hinv as (_ & _ & Hz & _).
        rewrite (Hz Em) in K3. simpl in K3. congruence.
      * rewrite K3. apply inv_remove_other; auto.
Qed.

Lemma run_inv ops b :
  ~ In "" (admitted ops) ->
  inv (m_activeClientId b) (keys b) ->
  inv (m_activeClientId (run ops b)) (keys (run ops b)).
Proof.
  revert b. induction ops as [|op r IH]; intros b Hadm Hinv; simpl;
    [exact Hinv|].
  apply IH.
  - destruct op; simpl in Hadm; tauto.
  - destruct op as [x a|x]; simpl.
    + apply onClientConnected_inv; [|exact Hinv].
      intros ->. apply Hadm. simpl. auto.
    + apply onSessionDisconnected_inv. exact Hinv.
Qed.

Lemma count_active_keys a ks :
  NoDup (map fst ks) ->
  (forall x s, In (x, s) ks -> (s = "Active" <-> x = a)) ->
  List.length (filter (fun k => String.eqb (snd k) "Active") ks) =
  if in_dec string_dec a (map fst ks) then 1%nat else 0%nat.
Proof.
  induction ks as [|[y t] r IH]; intros Hnd Hact; simpl; [reflexivity|].
  inversion Hnd as [|? ? Hn Hr]; subst.
  assert (IH' := IH Hr (fun x s H => Hact x s (or_intror H))).
  destruct (Hact y t (or_introl eq_refl)) as [H1 H2].
  destruct (String.eqb t "Active") eqn:Et.
  - apply String.eqb_eq in Et. specialize (H1 Et). subst y. simpl.
    rewrite IH'. destruct (string_dec a a) as [_|]; [|congruence].
    destruct (in_dec string_dec a (map fst r)); [contradiction|reflexivity].
  - apply String.eqb_neq in Et. rewrite IH'.
    destruct (string_dec y a) as [->|Hne]; [now specialize (H2 eq_refl)|].
    destruct (in_dec string_dec a (map fst r)); reflexivity.
Qed.

Lemma activeCount_keys b :
  activeCount b =
  List.length (filter (fun k => String.eqb (snd k) "Active") (keys b)).
Proof.
  unfold activeCount, keys.
  induction (m_clients (m_clientModel b)) as [|e r IH]; simpl; [reflexivity|].
  destruct (String.eqb (status e) "Active"); simpl; now rewrite IH.
Qed.

Lemma inv_active_reference_ok b :
  inv (m_activeClientId b) (keys b) -> active_reference_ok b.
Proof.
  intros (Hnd & He & Hz & Hin & Hact). unfold active_reference_ok. cbv zeta.
  split; [|split].
  - rewrite <- keys_nil. split.
    + intros Ha Hk. specialize (Hin Ha). rewrite Hk in Hin. destruct Hin.
    + intros Hk Ha. auto.
  - intros Ha. specialize (Hin Ha). unfold keys in Hin.
    rewrite map_fst_key in Hin.
    assert (Hidx : indexOfClient (m_activeClientId b) (m_clientModel b) <> -1).
    { intros H. apply indexOfClient_absent in H. contradiction. }
    rewrite at_indexOfClient by exact Hidx.
    destruct (lookup (m_activeClientId b) (m_clients (m_clientModel b)))
      as [e|] eqn:L.
    + apply lookup_some in L. destruct L as [Hi Hid].
      exists e. repeat split; auto.
      apply (Hact (id e) (status e)); [|exact Hid].
      unfold keys. change (id e, status e) with (key e). now apply in_map.
    + apply lookup_absent in L. contradiction.
  - rewrite activeCount_keys, (count_active_keys (m_activeClientId b))
      by assumption.
    destruct (isEmpty (m_activeClientId b)) eqn:Em.
    + apply isEmpty_true in Em. rewrite (Hz Em). reflexivity.
    + apply isEmpty_false in Em.
      destruct (in_dec string_dec _ _) as [|n]; [reflexivity|].
      now specialize (Hin Em).
Qed.

End RegistryInvariant.

(** C1.  Start from a bridge whose registry and Active-Client Reference are
    empty and apply any sequence of admissions ([onClientConnected]) and
    removals ([onSessionDisconnected]) whose admitted ids are non-empty, as
    the identifiers the server generates are.  Then the reference is
    non-empty exactly when the registry is; when non-empty it names a row of
    the registry whose status is "Active"; and the number of rows with status
    "Active" is one when the reference is non-empty and zero otherwise. *)
Theorem registry_active_reference_invariant
        (ext : Externals) (b0 : Bridge.t) (ops : list Bridge.Op) :
  ClientModel.m_clients (Bridge.m_clientModel b0) = [] ->
  Bridge.m_activeClientId b0 = "" ->
  ~ In "" (Bridge.admitted ops) ->
  Registry.active_reference_ok (Bridge.run ops b0).
Proof.
  intros Hempty Hact Hadm. apply inv_active_reference_ok.
  apply run_inv; [exact Hadm|].
  unfold Registry.keys. rewrite Hempty, Hact. unfold Registry.inv. simpl.
  repeat split; auto; try constructor; try tauto; congruence.
Qed.

(** ** Arbitration on removal of the active session *)

Section Promotion.
Context {ext : Externals}.
Import ClientModel View Registry Bridge.

Lemma onSessionDisconnected_promotes x b e rest :
  inv (m_activeClientId b) (keys b) ->
  m_activeClientId b = x ->
  remove_first x (m_clients (m_clientModel b)) = e :: rest ->
  m_activeClientId (onSessionDisconnected x b) = id e /\ id e <> x.
Proof.
  intros Hinv Ha Hrem.
  assert (Hk : delk x (keys b) = key e :: map key rest)
    by (unfold keys; rewrite <- key_remove_first, Hrem; reflexivity).
  assert (Hne : id e <> x).
  { intros Heq. destruct Hinv as (Hnd & _).
    apply (delk_removes x (keys b) Hnd). rewrite Hk. simpl. auto. }
  split; [|exact Hne].
  unfold onSessionDisconnected. cbv zeta.
  match goal with
  | |- context [if ?c =? 0 then _ else _] =>
      match c with
      | rowCount (m_clientModel ?b3) =>
          set (B3 := b3);
          assert (R3 : m_clients (m_clientModel B3) = e :: rest)
            by (unfold B3; simpl; rewrite removeClient_clients; exact Hrem);
          assert (A3 : m_activeClientId B3 = x) by exact Ha
      end
  end.
  replace (rowCount (m_clientModel B3) =? 0) with false
    by (symmetry; apply Z.eqb_neq; unfold rowCount, size; rewrite R3;
        simpl List.length; lia).
  rewrite A3, String.eqb_refl, clientIdAt_0, R3. cbv beta iota.
  apply setActiveClient_active.
Qed.

End Promotion.

(** Removing the active session while other sessions remain promotes the
    first remaining row of the registry, a session different from the removed
    one; the promoted row then carries the status "Active" and is the only
    one to do so. *)
Theorem removing_active_promotes_first
        (ext : Externals) (b0 : Bridge.t) (ops : list Bridge.Op)
        (x : string) (e : ClientModel.ClientEntry)
        (rest : list ClientModel.ClientEntry) :
  ClientModel.m_clients (Bridge.m_clientModel b0) = [] ->
  Bridge.m_activeClientId b0 = "" ->
  ~ In "" (Bridge.admitted ops) ->
  let b := Bridge.run ops b0 in
  Bridge.m_activeClientId b = x ->
  View.remove_first x (ClientModel.m_clients (Bridge.m_clientModel b))
  = e :: rest ->
  let b' := Bridge.onSessionDisconnected x b in
  Bridge.m_activeClientId b' = ClientModel.id e /\
  ClientModel.id e <> x /\
  Registry.active_reference_ok b'.
Proof.
  intros Hempty Hact Hadm b Ha Hrem b'. subst b'.
  assert (Hinv : Registry.inv (Bridge.m_activeClientId b) (Registry.keys b)).
  { subst b. apply run_inv; [exact Hadm|].
    unfold Registry.keys. rewrite Hempty, Hact. unfold Registry.inv. simpl.
    repeat split; auto; try constructor; try tauto; congruence. }
  destruct (onSessionDisconnected_promotes x b e rest Hinv Ha Hrem)
    as [H1 H2].
  split; [exact H1|]. split; [exact H2|].
  apply inv_active_reference_ok. apply onSessionDisconnected_inv. exact Hinv.
Qed.

(** ** C2: measuring every frame, forwarding the active session's *)

Section FrameFacts.
Context {ext : Externals}.
Import ClientModel View Bridge.

Lemma lookup_upd_first x f l :
  (forall e, id (f e) = id e) ->
  lookup x (upd_first x f l) = option_map f (lookup x l).
Proof.
  intros Hf. induction l as [|e r IH]; simpl; [reflexivity|].
  destruct (String.eqb (id e) x) eqn:E; simpl.
  - now rewrite Hf, E.
  - now rewrite E, IH.
Qed.

Lemma record_entry_id ts e : id (fst (Window.record_entry ts e)) = id e.
Proof.
  unfold Window.record_entry, Window.init_window. cbv zeta.
  destruct (windowStartMs e =? 0);
    match goal with |- context [if ?c then _ else _] => destruct c end;
    reflexivity.
Qed.

Lemma recordFrameReceived_clients clock x ts m :
  m_clients (Window.recordFrameReceived clock x ts m) =
  upd_first x (fun e => fst (Window.record_entry
                               (Window.effective_ts clock ts) e))
            (m_clients m).
Proof.
  unfold Window.recordFrameReceived.
  destruct (indexOfClient x m =? -1) eqn:E.
  - apply Z.eqb_eq in E. apply indexOfClient_absent in E.
    symmetry. apply upd_first_absent. exact E.
  - apply Z.eqb_neq in E. cbv zeta. rewrite at_indexOfClient by exact E.
    destruct (lookup x (m_clients m)) as [e|] eqn:L.
    + destruct (snd (Window.record_entry _ e)); simpl;
        apply set_nth_indexOf; exact E.
    + apply lookup_absent in L. symmetry. apply upd_first_absent. exact L.
Qed.

Lemma setConnectionState_signals s b :
  exists added, signals (setConnectionState s b) = signals b ++ added.
Proof.
  unfold setConnectionState.
  destruct (ConnectionState_eqb (m_connectionState b) s); simpl.
  - exists []. now rewrite app_nil_r.
  - eexists. reflexivity.
Qed.

Lemma setStatusMessage_signals s b :
  exists added, signals (setStatusMessage s b) = signals b ++ added.
Proof.
  unfold setStatusMessage.
  destruct (String.eqb (m_statusMessage b) s); simpl.
  - exists []. now rewrite app_nil_r.
  - eexists. reflexivity.
Qed.

End FrameFacts.

(** The empty string is the reference's "no client" value: were it admitted
    as a session id, the registry would hold a row while the reference stays
    empty.  Session ids are [QUuid::createUuid().toString()], never empty. *)
Remark empty_id_is_no_reference :
  let b := Bridge.onClientConnected (ext := Sample.externals) "" "10.0.0.1"
             (Bridge.init 0) in
  ClientModel.rowCount (Bridge.m_clientModel b) = 1 /\
  Bridge.m_activeClientId b = "".
Proof. split; reflexivity. Qed.

(** C2.  Let a data frame arrive from a session that has a row [e] in the
    registry, the frame counter being below [INT_MAX].  Whether or not the
    session is the active one, its row becomes the result of the measurement
    step on [e], so the frame is counted and its time recorded.  The frame is
    forwarded to the presentation layer exactly when the session's id equals
    the Active-Client Reference; in that case the frame counter grows by
    exactly one and the frame becomes the cached one; otherwise counter,
    cached frame and the bridge's signals are unchanged. *)
Theorem onFrameReceived_measures_and_forwards
        (b : Bridge.t) (now later : Z) (clientId : string)
        (frame : QImage) (e : ClientModel.ClientEntry) :
  View.lookup clientId (ClientModel.m_clients (Bridge.m_clientModel b))
  = Some e ->
  Int.INT_MIN <= Bridge.m_frameId b < Int.INT_MAX ->
  let ts := Window.effective_ts later now in
  let e' := fst (Window.record_entry ts e) in
  let b' := Bridge.onFrameReceived now later clientId frame b in
  View.lookup clientId (ClientModel.m_clients (Bridge.m_clientModel b'))
  = Some e' /\
  ClientModel.lastFrameTsMs e' = ts /\
  (Forward.forwarded frame b b' <-> clientId = Bridge.m_activeClientId b) /\
  (clientId = Bridge.m_activeClientId b ->
   Bridge.m_frameId b' = Bridge.m_frameId b + 1 /\
   Bridge.m_lastFrame b' = frame /\
   In (Bridge.frameIdChanged (Bridge.m_frameId b + 1)) (Bridge.signals b')) /\
  (clientId <> Bridge.m_activeClientId b ->
   Bridge.m_frameId b' = Bridge.m_frameId b /\
   Bridge.m_lastFrame b' = Bridge.m_lastFrame b /\
   Bridge.signals b' = Bridge.signals b).
Proof.
  intros Hrow Hid ts e' b'.
  set (b1 := Bridge.set_clientModel
               (Window.recordFrameReceived later clientId now
                                           (Bridge.m_clientModel b)) b).
  assert (Hmodel : Bridge.m_clientModel b' = Bridge.m_clientModel b1).
  { unfold b', Bridge.onFrameReceived. cbv zeta. fold b1.
    destruct (negb (String.eqb clientId (Bridge.m_activeClientId b1)));
      [reflexivity|].
    destruct (setStatusMessage_fields "Receiving frames"
                (Bridge.setConnectionState Bridge.ReceivingFrames b1))
      as (E1 & _).
    destruct (setConnectionState_fields Bridge.ReceivingFrames b1)
      as (E3 & _).
    match goal with
    | |- context [if ?c then _ else _] => destruct c
    end; [|rewrite <- E3, <- E1; reflexivity].
    match goal with
    | |- context [if ?c then _ else _] => destruct c
    end; rewrite <- E3, <- E1; reflexivity. }
  assert (Hlast : ClientModel.lastFrameTsMs e' = ts).
  { unfold e', Window.record_entry. cbv zeta.
    match goal with |- context [if ?c then _ else _] => destruct c end;
      reflexivity. }
  split; [|split; [exact Hlast|]].
  { rewrite Hmodel. unfold b1. cbn [Bridge.m_clientModel Bridge.set_clientModel].
    rewrite recordFrameReceived_clients, lookup_upd_first, Hrow
      by (intros; apply record_entry_id).
    reflexivity. }
  destruct (String.eqb clientId (Bridge.m_activeClientId b)) eqn:Ea.
  - apply String.eqb_eq in Ea.
    assert (Hfwd : Forward.forwarded frame b b' /\
                   Bridge.m_frameId b' = Bridge.m_frameId b + 1 /\
                   Bridge.m_lastFrame b' = frame /\
                   In (Bridge.frameIdChanged (Bridge.m_frameId b + 1))
                      (Bridge.signals b')).
    { unfold b', Bridge.onFrameReceived, Forward.forwarded. cbv zeta. fold b1.
      replace (String.eqb clientId (Bridge.m_activeClientId b1)) with true
        by (symmetry; apply String.eqb_eq; exact Ea).
      simpl negb. cbv iota.
      destruct (setConnectionState_signals Bridge.ReceivingFrames b1)
        as [a1 S1].
      destruct (setStatusMessage_signals "Receiving frames"
                  (Bridge.setConnectionState Bridge.ReceivingFrames b1))
        as [a2 S2].
      destruct (setStatusMessage_fields "Receiving frames"
                  (Bridge.setConnectionState Bridge.ReceivingFrames b1))
        as (_ & _ & _ & _ & F1 & _).
      destruct (setConnectionState_fields Bridge.ReceivingFrames b1)
        as (_ & _ & _ & _ & F2 & _).
      assert (Hincr : Int.incr (Bridge.m_frameId b) = Bridge.m_frameId b + 1)
        by (apply Int_incr_no_overflow; exact Hid).
      change (Bridge.signals b1) with (Bridge.signals b) in S1.
      change (Bridge.m_frameId b1) with (Bridge.m_frameId b) in F2.
      match goal with
      | |- context [if ?c then _ else _] => destruct c
      end;
      [match goal with
       | |- context [if ?c then _ else _] => destruct c
       end|];
      cbn [Bridge.signals Bridge.emit Bridge.set_frameId Bridge.set_lastFrame
           Bridge.set_activeClientMeasuredFps Bridge.m_frameId
           Bridge.m_lastFrame];
      rewrite S2, S1, F1, F2, Hincr, <- !app_assoc;
      (split; [first [eexists (a1 ++ a2 ++ [_] ++ [_]);
                      rewrite <- !app_assoc; reflexivity
                    | eexists (a1 ++ a2 ++ [_]);
                      rewrite <- !app_assoc; reflexivity]|]);
      (split; [reflexivity|]); (split; [reflexivity|]);
      rewrite !in_app_iff; cbn [In]; auto 10. }
    destruct Hfwd as (H1 & H2 & H3 & H4).
    split; [tauto|]. split; [auto|]. intros Hne. contradiction.
  - apply String.eqb_neq in Ea.
    assert (Hsame : b' = b1).
    { unfold b', Bridge.onFrameReceived. cbv zeta. fold b1.
      replace (String.eqb clientId (Bridge.m_activeClientId b1)) with false
        by (symmetry; apply String.eqb_neq; exact Ea).
      reflexivity. }
    split; [|split; [intros; contradiction|]].
    + split; [|intros; contradiction].
      intros [between Hb]. rewrite Hsame in Hb.
      change (Bridge.signals b1) with (Bridge.signals b) in Hb.
      rewrite <- (app_nil_r (Bridge.signals b)) in Hb at 1.
      apply app_inv_head in Hb. destruct between; discriminate.
    + intros _. rewrite Hsame. auto.
Qed.

(** ** Binary64 arithmetic of the measurement *)

Section DoubleFacts.
Import Double.
















End DoubleFacts.



(** ** C4: the tumbling one-second window *)

Section WindowFacts.
Import ClientModel Window.




End WindowFacts.


(** ** A stream at thirty frames per second *)

Section SteadyStream.
Import ClientModel Window.

Lemma feed_snoc tss t e :
  feed (tss ++ [t]) e = fst (record_entry t (feed tss e)).
Proof. unfold feed. now rewrite fold_left_app. Qed.

Lemma evenly_S t0 step n :
  evenly t0 step (S n) = evenly t0 step n ++ [t0 + step * Z.of_nat n].
Proof. unfold evenly. rewrite seq_S, map_app. reflexivity. Qed.

(** The three cases of the measurement step. *)
Lemma record_entry_first t e :
  windowStartMs e = 0 ->
  fst (record_entry t e) = with_frame 1 t (with_window t 0 e).
Proof.
  intros Hw. unfold record_entry, init_window, count_frame, elapsed.
  cbv zeta. rewrite Hw. change (0 =? 0) with true. cbv iota.
  cbn [windowStartMs framesInWindow with_window with_frame].
  unfold Int64.sub. rewrite Z.sub_diag. change (Int64.wrap 0) with 0.
  change (1000 <=? 0) with false. reflexivity.
Qed.

Lemma record_entry_counting t e :
  windowStartMs e <> 0 ->
  - 9223372036854775808 <= t - windowStartMs e < 1000 ->
  Int.INT_MIN <= framesInWindow e < Int.INT_MAX ->
  fst (record_entry t e) = with_frame (framesInWindow e + 1) t e.
Proof.
  intros Hw Hel Hf. unfold record_entry, init_window, count_frame, elapsed.
  cbv zeta.
  replace (windowStartMs e =? 0) with false
    by (symmetry; apply Z.eqb_neq; exact Hw).
  cbn [windowStartMs framesInWindow with_frame].
  rewrite Int64_sub_small by lia.
  replace (1000 <=? t - windowStartMs e) with false
    by (symmetry; apply Z.leb_gt; lia).
  rewrite Int_incr_no_overflow by exact Hf. reflexivity.
Qed.

Lemma record_entry_publishing t e :
  windowStartMs e <> 0 ->
  1000 <= t - windowStartMs e <= 9223372036854775807 ->
  Int.INT_MIN <= framesInWindow e < Int.INT_MAX ->
  fst (record_entry t e) =
  with_window t 0
    (with_measuredFps (measure (framesInWindow e + 1) (t - windowStartMs e))
                      (with_frame (framesInWindow e + 1) t e)).
Proof.
  intros Hw Hel Hf. unfold record_entry, init_window, count_frame, elapsed.
  cbv zeta.
  replace (windowStartMs e =? 0) with false
    by (symmetry; apply Z.eqb_neq; exact Hw).
  cbn [windowStartMs framesInWindow with_frame].
  rewrite Int64_sub_small by lia.
  replace (1000 <=? t - windowStartMs e) with true
    by (symmetry; apply Z.leb_le; lia).
  rewrite Int_incr_no_overflow by exact Hf. reflexivity.
Qed.

(** Within the first second every frame is only counted. *)
Lemma feed_evenly_counting i st t0 k :
  valid_ts t0 -> (1 <= k <= 31)%nat ->
  feed (evenly t0 33 k) (newEntry i st) =
  mkEntry i st "" 0 0 (t0 + 33 * Z.of_nat (k - 1)) (Z.of_nat k) t0.
Proof.
  intros Ht0. unfold valid_ts in Ht0.
  induction k as [|k IH]; intros Hk; [lia|].
  rewrite evenly_S, feed_snoc.
  destruct k as [|k].
  - change (feed (evenly t0 33 0) (newEntry i st)) with (newEntry i st).
    rewrite record_entry_first by reflexivity.
    unfold with_frame, with_window, newEntry.
    cbn [id status alias configuredFps measuredFps lastFrameTsMs
         framesInWindow windowStartMs].
    f_equal; change (Z.of_nat (1 - 1)) with 0; change (Z.of_nat 0) with 0; lia.
  - rewrite IH by lia. clear IH.
    rewrite record_entry_counting;
      cbn [id status alias configuredFps measuredFps lastFrameTsMs
           framesInWindow windowStartMs];
      [|lia|lia|unfold Int.INT_MIN, Int.INT_MAX; lia].
    unfold with_frame.
    cbn [id status alias configuredFps measuredFps lastFrameTsMs
         framesInWindow windowStartMs].
    f_equal; lia.
Qed.

End SteadyStream.

(** Frames arriving 33 ms apart: the first 31 frames publish nothing, and the
    32nd, 1023 ms after the first, publishes 31 frames per second and restarts
    the window. *)
Theorem steady_stream_measured (i st : string) (t0 : Z) :
  Window.valid_ts t0 ->
  (forall k, (k <= 31)%nat ->
     ClientModel.measuredFps
       (Window.feed (Window.evenly t0 33 k) (ClientModel.newEntry i st)) = 0) /\
  Window.feed (Window.evenly t0 33 32) (ClientModel.newEntry i st) =
  ClientModel.mkEntry i st "" 0 31 (t0 + 1023) 0 (t0 + 1023).
Proof.
  intros Ht0. split.
  - intros k Hk. destruct k as [|k]; [reflexivity|].
    rewrite feed_evenly_counting by (auto; lia). reflexivity.
  - rewrite evenly_S, feed_snoc, feed_evenly_counting by (auto; lia).
    unfold Window.valid_ts in Ht0.
    rewrite record_entry_publishing;
      cbn [ClientModel.windowStartMs ClientModel.framesInWindow];
      [|lia|lia|unfold Int.INT_MIN, Int.INT_MAX; lia].
    replace (t0 + 33 * Z.of_nat 31 - t0) with 1023 by lia.
    change (Z.of_nat 31 + 1) with 32.
    replace (Window.measure 32 1023) with 31 by (vm_compute; reflexivity).
    unfold Window.with_window, ClientModel.with_measuredFps, Window.with_frame.
    cbn [ClientModel.id ClientModel.status ClientModel.alias
         ClientModel.configuredFps ClientModel.measuredFps
         ClientModel.lastFrameTsMs ClientModel.framesInWindow
         ClientModel.windowStartMs].
    f_equal; lia.
Qed.

(** ** C3: [setActiveClient] with an id the registry does not know *)

(** C3, as stated, fails: with one client "A" admitted and active, calling
    [setActiveClient "ghost"] for an id absent from the registry replaces the
    Active-Client Reference by "ghost" and turns the status of "A" from
    "Active" into "Connected". *)
Lemma setActiveClient_unknown_changes_state :
  let b := Sample.bridge_with "A" in
  let b' := Bridge.setActiveClient (ext := Sample.externals) "ghost" b in
  ~ In "ghost" (ClientModel.ids (Bridge.m_clientModel b)) /\
  Bridge.m_activeClientId b = "A" /\
  Bridge.m_activeClientId b' = "ghost" /\
  Bridge.m_activeClientId b' <> Bridge.m_activeClientId b /\
  map ClientModel.status (ClientModel.m_clients (Bridge.m_clientModel b))
  = ["Active"] /\
  map ClientModel.status (ClientModel.m_clients (Bridge.m_clientModel b'))
  = ["Connected"].
Proof.
  cbv zeta. repeat split; try reflexivity.
  - intros [H|[]]. discriminate.
  - discriminate.
Qed.

(** C3, amended.  For an id [x] absent from the registry, [setActiveClient x]
    is a no-op exactly when [x] already is the Active-Client Reference.
    Otherwise the reference becomes [x]; the previously active row, if there
    was one, is demoted to "Connected" and no row is promoted; the ids of the
    registry and the configured frame rate are unchanged; the current frame
    rate is unchanged when [x] is not a live session of the server either;
    and the change is announced by [ClientBecameActive] and
    [activeClientChanged]. *)
Theorem setActiveClient_unknown
        (ext : Externals) (b : Bridge.t) (x : string) :
  ~ In x (ClientModel.ids (Bridge.m_clientModel b)) ->
  let a := Bridge.m_activeClientId b in
  let rows := ClientModel.m_clients (Bridge.m_clientModel b) in
  let b' := Bridge.setActiveClient x b in
  (x = a -> b' = b) /\
  (x <> a ->
   Bridge.m_activeClientId b' = x /\
   ClientModel.m_clients (Bridge.m_clientModel b') =
   (if isEmpty a then rows
    else View.upd_first a (ClientModel.with_status "Connected") rows) /\
   ClientModel.ids (Bridge.m_clientModel b') =
   ClientModel.ids (Bridge.m_clientModel b) /\
   Bridge.m_configuredFps b' = Bridge.m_configuredFps b /\
   (Server.mem x (Server.m_sessions (Bridge.m_server b)) = false ->
    Bridge.m_currentFps b' = Bridge.m_currentFps b) /\
   In (Bridge.activeClientChanged x) (Bridge.signals b') /\
   exists details,
     In (Bridge.eventOccurred ClientBecameActive details)
        (Bridge.signals b')).
Proof.
  intros Habs a rows b'. split.
  - intros ->. apply setActiveClient_same. reflexivity.
  - intros Hne.
    assert (Hneq : String.eqb a x = false)
      by (apply String.eqb_neq; congruence).
    set (b1 := if negb (isEmpty a)
               then Bridge.set_clientModel
                      (ClientModel.setClientStatus a "Connected"
                         (Bridge.m_clientModel b)) b
               else b).
    set (b3 := Bridge.set_clientModel
                 (ClientModel.setClientStatus x "Active"
                    (Bridge.m_clientModel b1))
                 (Bridge.set_activeClientId x b1)).
    set (b4 := Bridge.setFps (Bridge.m_configuredFps b3) b3).
    assert (Hrows1 : ClientModel.m_clients (Bridge.m_clientModel b1) =
                     if isEmpty a then rows
                     else View.upd_first a (ClientModel.with_status "Connected")
                                         rows).
    { unfold b1. destruct (isEmpty a); simpl; [reflexivity|].
      apply setClientStatus_clients. }
    assert (Hids1 : ClientModel.ids (Bridge.m_clientModel b1) =
                    ClientModel.ids (Bridge.m_clientModel b)).
    { unfold ClientModel.ids. rewrite Hrows1.
      destruct (isEmpty a); [reflexivity|].
      apply map_id_upd_first. reflexivity. }
    assert (Habs1 : ~ In x (map ClientModel.id
                               (ClientModel.m_clients
                                  (Bridge.m_clientModel b1))))
      by (fold (ClientModel.ids (Bridge.m_clientModel b1));
          rewrite Hids1; exact Habs).
    assert (Hrows3 : ClientModel.m_clients (Bridge.m_clientModel b3) =
                     ClientModel.m_clients (Bridge.m_clientModel b1)).
    { unfold b3. cbn [Bridge.m_clientModel Bridge.set_clientModel].
      rewrite setClientStatus_clients. apply upd_first_absent. exact Habs1. }
    assert (Hrows4 : ClientModel.m_clients (Bridge.m_clientModel b4) =
                     ClientModel.m_clients (Bridge.m_clientModel b1)).
    { unfold b4. destruct (setFps_clients (Bridge.m_configuredFps b3) b3)
        as [-> | ->]; [exact Hrows3|].
      rewrite Hrows3. apply upd_first_absent. exact Habs1. }
    assert (Hshape : b' = Bridge.emit (Bridge.activeClientChanged x)
                           (Bridge.emit
                              (Bridge.eventOccurred ClientBecameActive
                                 [("clientId", VString x);
                                  ("alias",
                                   VString
                                     (if isEmpty
                                           (ClientModel.aliasAt
                                              (ClientModel.indexOfClient x
                                                 (Bridge.m_clientModel b4))
                                              (Bridge.m_clientModel b4))
                                      then x
                                      else ClientModel.aliasAt
                                             (ClientModel.indexOfClient x
                                                (Bridge.m_clientModel b4))
                                             (Bridge.m_clientModel b4)));
                                  ("previousClient",
                                   VString (Bridge.m_activeClientId b1))])
                              b4)).
    { unfold b', Bridge.setActiveClient. fold a. rewrite Hneq. reflexivity. }
    rewrite Hshape.
    cbn [Bridge.m_activeClientId Bridge.m_clientModel Bridge.m_configuredFps
         Bridge.m_currentFps Bridge.signals Bridge.emit].
    split; [unfold b4; rewrite setFps_active; reflexivity|].
    split; [rewrite Hrows4; exact Hrows1|].
    split; [unfold ClientModel.ids; rewrite Hrows4; exact Hids1|].
    split.
    { unfold b4. rewrite setFps_configured. unfold b3, b1.
      destruct (negb (isEmpty a)); reflexivity. }
    split.
    { intros Hmem. unfold b4.
      destruct (setFps_unknown_session (Bridge.m_configuredFps b3) b3)
        as (-> & _).
      - unfold b3, b1. destruct (negb (isEmpty a)); exact Hmem.
      - unfold b3, b1. destruct (negb (isEmpty a)); reflexivity. }
    split.
    { apply in_or_app. right. simpl. auto. }
    eexists. apply in_or_app. left. apply in_or_app. right. simpl. eauto.
Qed.

(** ** C5: the reconnect back-off *)

Lemma shiftl_1_pow k : Z.shiftl 1 k = 2 ^ k.
Proof.
  destruct (Z_lt_le_dec k 0) as [Hneg|Hpos].
  - rewrite Z.pow_neg_r by exact Hneg.
    rewrite <- (Z.opp_involutive k), Z.shiftl_opp_r, Z.shiftr_div_pow2 by lia.
    apply Z.div_small. split; [lia|].
    apply Z.pow_gt_1; lia.
  - rewrite Z.shiftl_mul_pow2 by exact Hpos. lia.
Qed.

(** C5.  The wait computed by both copies of the reconnect loop,
    [std::min(30, 1 << std::min(attempt, 6))], is the function
    [backoff(attempt) = min(30, 2^min(attempt, 6))]; it gives equal outputs
    for equal inputs; and for attempts 0 to 8 it yields 1, 2, 4, 8, 16, 30,
    30, 30, 30 seconds. *)
Theorem backoff_schedule :
  (forall attempt, Client.waitSeconds attempt = Client.backoff attempt) /\
  (forall a b, a = b -> Client.waitSeconds a = Client.waitSeconds b) /\
  map Client.waitSeconds [0; 1; 2; 3; 4; 5; 6; 7; 8]
  = [1; 2; 4; 8; 16; 30; 30; 30; 30].
Proof.
  split; [|split].
  - intros attempt. unfold Client.waitSeconds, Client.backoff.
    now rewrite shiftl_1_pow.
  - intros a b ->. reflexivity.
  - reflexivity.
Qed.

(** ** C6 and C7: the wire discriminator *)

Lemma byte_eqb_neq (x y : byte) : x <> y -> Byte.eqb x y = false.
Proof.
  intros H. destruct (Byte.eqb x y) eqn:E; [|reflexivity].
  apply Byte.byte_dec_bl in E. contradiction.
Qed.

Lemma byte_eqb_eq (x y : byte) : Byte.eqb x y = true -> x = y.
Proof. apply Byte.byte_dec_bl. Qed.

(** C6.  For a non-empty frame with first byte [p]: if [p] is 0x01 the
    remaining bytes are handed to the control-message parser and, when they
    parse, forwarded as the serialized control message; if [p] is 0x00 the
    remaining bytes are the data payload; for any other [p] the whole frame,
    first byte included, is the data payload.  A frame whose first byte is not
    0x01 is handled without consulting the control-message parser: the
    outcome is the same whatever that parser would answer. *)
Theorem wire_discriminator
        (ext : Externals) (m_id : string) (p : byte) (rest : bytes) :
  let message := p :: rest in
  let handled := Session.onBinaryMessageReceived m_id message in
  let as_data payload :=
    match loadFromData payload with
    | Some img => [Session.frameReceived m_id img]
    | None => [Session.qWarning "Failed to decode image from client"]
    end in
  (p = x01 ->
   handled =
   match ParseFromArray rest with
   | Some _ => [Session.qDebug "Received ControlMessage from client";
                Session.controlMessageReceived m_id rest]
   | None => [Session.qWarning "Failed to parse ControlMessage from client"]
   end) /\
  (p = x00 -> handled = as_data rest) /\
  (p <> x01 -> p <> x00 -> handled = as_data message) /\
  (p <> x01 ->
   forall ext' : Externals,
     (forall bs, @loadFromData ext' bs = @loadFromData ext bs) ->
     @Session.onBinaryMessageReceived ext' m_id message = handled).
Proof.
  cbv zeta. unfold Session.onBinaryMessageReceived, Session.mid.
  split; [|split; [|split]].
  - intros ->. simpl. destruct (ParseFromArray rest); reflexivity.
  - intros ->. simpl. destruct (loadFromData rest); reflexivity.
  - intros H1 H0.
    replace (Byte.eqb p x01) with false
      by (symmetry; apply byte_eqb_neq; exact H1).
    replace (Byte.eqb p x00) with false
      by (symmetry; apply byte_eqb_neq; exact H0).
    reflexivity.
  - intros H1 ext' Hload.
    replace (Byte.eqb p x01) with false
      by (symmetry; apply byte_eqb_neq; exact H1).
    rewrite Hload. reflexivity.
Qed.

(** C7, as stated, fails: a frame made of the data prefix 0x00 alone is not a
    control frame, yet the receiver drops it, whatever the codecs are, because
    the JPEG reader refuses its empty payload; so does it drop the data frame
    "00 41" under the sample codec. *)
Lemma data_frame_dropped :
  (forall (ext : Externals) (m_id : string),
      Session.discarded (Session.onBinaryMessageReceived m_id [x00]) = true) /\
  Session.onBinaryMessageReceived (ext := Sample.externals) "s" [x00; x41]
  = [Session.qWarning "Failed to decode image from client"] /\
  ~ (forall (ext : Externals) (m_id : string) (message : bytes),
        Session.discarded (Session.onBinaryMessageReceived m_id message) = true ->
        exists rest, message = x01 :: rest /\ ParseFromArray rest = None).
Proof.
  assert (H0 : forall (ext : Externals) (m_id : string),
             Session.discarded (Session.onBinaryMessageReceived m_id [x00])
             = true).
  { intros ext m_id. unfold Session.onBinaryMessageReceived. simpl.
    rewrite loadFromData_empty. reflexivity. }
  split; [exact H0|]. split; [reflexivity|].
  intros H. destruct (H Sample.externals "s" [x00] (H0 _ _)) as (rest & E & _).
  discriminate.
Qed.

(** C7, amended.  The receiver discards a frame in exactly three cases: the
    frame is empty; it is a control frame (first byte 0x01) whose remaining
    bytes do not parse as a control message; or it is a data frame whose
    payload (the bytes after a 0x00 prefix, or the whole frame for any other
    first byte) is not a decodable JPEG image.  Every other frame is
    forwarded, as a control message or as a decoded frame. *)
Theorem frame_discarded_iff
        (ext : Externals) (m_id : string) (message : bytes) :
  Session.discarded (Session.onBinaryMessageReceived m_id message) = true <->
  (message = [] \/
   (exists rest, message = x01 :: rest /\ ParseFromArray rest = None) \/
   (exists rest, message = x00 :: rest /\ loadFromData rest = None) \/
   (exists p rest, message = p :: rest /\ p <> x01 /\ p <> x00 /\
                   loadFromData message = None)).
Proof.
  unfold Session.onBinaryMessageReceived, Session.mid.
  destruct message as [|p rest].
  - simpl. split; auto.
  - destruct (Byte.eqb p x01) eqn:E1.
    + apply byte_eqb_eq in E1. subst p. simpl.
      destruct (ParseFromArray rest) eqn:P; simpl; split.
      * discriminate.
      * intros [H|[(r1 & H & Hp)|[(r1 & H & Hl)|(p1 & r1 & H & N1 & N0 & Hl)]]];
          try discriminate; inversion H; subst; congruence.
      * intros _. right. left. eauto.
      * reflexivity.
    + apply Byte.eqb_false in E1.
      destruct (Byte.eqb p x00) eqn:E0.
      * apply byte_eqb_eq in E0. subst p. simpl.
        destruct (loadFromData rest) eqn:L; simpl; split.
        -- discriminate.
        -- intros [H|[(r1 & H & Hp)|[(r1 & H & Hl)|(p1 & r1 & H & N1 & N0 & Hl)]]];
             try discriminate; inversion H; subst; congruence.
        -- intros _. right. right. left. eauto.
        -- reflexivity.
      * apply Byte.eqb_false in E0.
        destruct (loadFromData (p :: rest)) eqn:L; simpl; split.
        -- discriminate.
        -- intros [H|[(r1 & H & Hp)|[(r1 & H & Hl)|(p1 & r1 & H & N1 & N0 & Hl)]]];
             try discriminate; inversion H; subst; congruence.
        -- intros _. right. right. right. exists p, rest. auto.
        -- reflexivity.
Qed.

(** ** C8 and C9: connecting and tearing down *)

Section ClientFacts.
Import Client.

Lemma freed_app a b : freed (a ++ b) = freed a ++ freed b.
Proof.
  induction a as [|e r IH]; simpl; [reflexivity|].
  destruct e; simpl; now rewrite ?IH.
Qed.


Ltac crunch :=
  unfold count; cbn;
  rewrite ?filter_app, ?length_app, ?freed_app; cbn;
  rewrite ?app_nil_r, <- ?app_assoc; cbn.

(** What one invocation of [cleanupConnection] does. *)
Lemma cleanupConnection_spec self c :
  let c' := cleanupConnection self c in
  running c' = false /\
  reconnecting c' = true /\
  has_onDisconnected c' = has_onDisconnected c /\
  has_onConnected c' = has_onConnected c /\
  fresh c' = fresh c /\
  count is_reconnect c' =
  (count is_reconnect c + if reconnecting c then 0 else 1)%nat /\
  count is_disconnected c' =
  (count is_disconnected c + if has_onDisconnected c then 1 else 0)%nat /\
  count is_loop_end c' = count is_loop_end c /\
  (outside_io self c = true ->
   ioc c' = None /\ ws c' = None /\ ioThread c' = None /\
   freed (trace c') = freed (trace c) ++ held c) /\
  (outside_io self c = false ->
   ioc c' = ioc c /\ ws c' = ws c /\ ioThread c' = ioThread c /\
   freed (trace c') = freed (trace c)).
Proof.
  destruct c as [i th al w wo ru re hc hd fr tr].
  unfold cleanupConnection, outside_io, held.
  destruct th as [th|], i, w, wo, al, re, hd; cbn;
    try match goal with
        | |- context [Thread_eqb ?a ?b] => destruct (Thread_eqb a b)
        end;
    crunch; repeat split; try reflexivity; try lia; try discriminate.
Qed.

Lemma ioThreadExits_spec c :
  let c' := ioThreadExits c in
  reconnecting c' = reconnecting c /\
  has_onDisconnected c' = has_onDisconnected c /\
  count is_reconnect c' = count is_reconnect c /\
  count is_loop_end c' = count is_loop_end c /\
  count is_disconnected c' = count is_disconnected c /\
  ioc c' = ioc c /\ ws c' = ws c /\
  freed (trace c') = freed (trace c).
Proof.
  destruct c as [i th al w wo ru re hc hd fr tr].
  unfold ioThreadExits. cbn.
  destruct th, al; crunch; repeat split; try reflexivity; try lia.
Qed.

Lemma endReconnectLoop_spec c :
  let c' := endReconnectLoop c in
  reconnecting c' = false /\
  has_onDisconnected c' = has_onDisconnected c /\
  count is_reconnect c' = count is_reconnect c /\
  count is_loop_end c' = (count is_loop_end c + 1)%nat /\
  count is_disconnected c' = count is_disconnected c /\
  ioc c' = ioc c /\ ws c' = ws c /\
  freed (trace c') = freed (trace c).
Proof.
  destruct c as [i th al w wo ru re hc hd fr tr].
  unfold endReconnectLoop. crunch. repeat split; try reflexivity; try lia.
Qed.

Lemma step_owned c s : owned c -> owned (step c s).
Proof.
  unfold owned. intros H. destruct s as [self| |]; simpl.
  - destruct (cleanupConnection_spec self c)
      as (_ & _ & _ & _ & _ & _ & _ & _ & Hout & Hin).
    destruct (outside_io self c).
    + destruct (Hout eq_refl) as (E1 & E2 & _ & E4).
      unfold held. rewrite E1, E2, E4. simpl. now rewrite app_nil_r.
    + destruct (Hin eq_refl) as (E1 & E2 & _ & E4).
      unfold held in *. now rewrite E1, E2, E4.
  - destruct (ioThreadExits_spec c) as (_ & _ & _ & _ & _ & E1 & E2 & E4).
    unfold held in *. now rewrite E1, E2, E4.
  - destruct (reconnecting c); [|exact H].
    destruct (endReconnectLoop_spec c) as (_ & _ & _ & _ & _ & E1 & E2 & E4).
    unfold held in *. now rewrite E1, E2, E4.
Qed.

Lemma step_single_flight c s : single_flight c -> single_flight (step c s).
Proof.
  unfold single_flight. intros H. destruct s as [self| |]; simpl.
  - destruct (cleanupConnection_spec self c)
      as (_ & E2 & _ & _ & _ & E6 & _ & E8 & _).
    rewrite E2, E6, E8, H. destruct (reconnecting c); lia.
  - destruct (ioThreadExits_spec c) as (E1 & _ & E3 & E4 & _).
    now rewrite E1, E3, E4.
  - destruct (reconnecting c) eqn:R; [|now rewrite R].
    destruct (endReconnectLoop_spec c) as (E1 & _ & E3 & E4 & _).
    rewrite E1, E3, E4, H. lia.
Qed.

Lemma step_counts c s :
  has_onDisconnected (step c s) = has_onDisconnected c /\
  count is_disconnected (step c s) =
  (count is_disconnected c +
   if is_teardown s && has_onDisconnected c then 1 else 0)%nat /\
  incl (freed (trace c) ++ held c) (freed (trace (step c s)) ++ held (step c s)).
Proof.
  destruct s as [self| |]; simpl.
  - destruct (cleanupConnection_spec self c)
      as (_ & _ & E3 & _ & _ & _ & E7 & _ & Hout & Hin).
    rewrite E3, E7. repeat split; auto.
    destruct (outside_io self c).
    + destruct (Hout eq_refl) as (E1 & E2' & _ & E4).
      unfold held at 2. rewrite E1, E2', E4. simpl.
      rewrite app_nil_r. apply incl_refl.
    + destruct (Hin eq_refl) as (E1 & E2' & _ & E4).
      unfold held. rewrite E1, E2', E4. apply incl_refl.
  - destruct (ioThreadExits_spec c) as (_ & E2 & _ & _ & E5 & E6 & E7 & E9).
    rewrite E2, E5. unfold held. rewrite E6, E7, E9.
    repeat split; auto using incl_refl; try lia.
  - destruct (reconnecting c).
    + destruct (endReconnectLoop_spec c)
        as (_ & E2 & _ & _ & E5 & E6 & E7 & E9).
      rewrite E2, E5. unfold held. rewrite E6, E7, E9.
      repeat split; auto using incl_refl; try lia.
    + repeat split; auto using incl_refl; try lia.
Qed.

Lemma run_spec sched c :
  owned c -> single_flight c ->
  let c' := run sched c in
  owned c' /\
  single_flight c' /\
  has_onDisconnected c' = has_onDisconnected c /\
  count is_disconnected c' =
  (count is_disconnected c +
   if has_onDisconnected c then teardowns sched else 0)%nat /\
  incl (freed (trace c) ++ held c) (freed (trace c') ++ held c').
Proof.
  revert c. induction sched as [|s r IH]; intros c Hown Hsf; cbv zeta.
  - simpl. unfold teardowns. simpl.
    repeat split; auto using incl_refl; try lia.
    destruct (has_onDisconnected c); lia.
  - simpl.
    specialize (IH (step c s) (step_owned c s Hown)
                   (step_single_flight c s Hsf)).
    cbv zeta in IH. destruct IH as (I1 & I2 & I3 & I5 & I6).
    destruct (step_counts c s) as (S1 & S5 & S6).
    split; [exact I1|]. split; [exact I2|]. split; [congruence|].
    unfold teardowns in *. simpl. rewrite I5, S5, S1. split.
    + destruct (is_teardown s), (has_onDisconnected c); simpl; lia.
    + eapply incl_tran; eauto.
Qed.

End ClientFacts.





(** C9, as stated, fails: one teardown of an established connection queues
    the "disconnected" notification twice.  Started on the I/O thread (a read
    error), the deferred path notifies and the exit helper's second call
    notifies again; started on the controlling thread (an explicit
    disconnect), the call notifies and so does the exit helper that the joined
    I/O thread left behind. *)
Lemma teardown_notifies_twice :
  let c := Sample.connected in
  let io := Client.IoThread 2 in
  let on_io := Client.run [Client.Teardown io; Client.IoThreadExits;
                           Client.Teardown (Client.ExitHelper 2)] c in
  let on_controller := Client.run [Client.Teardown Client.Controller;
                                   Client.Teardown (Client.ExitHelper 2)] c in
  Client.running c = true /\
  Client.ioThread c = Some io /\
  Client.has_onDisconnected c = true /\
  In (Client.SpawnedExitHelper io) (Client.trace on_io) /\
  In (Client.SpawnedExitHelper io) (Client.trace on_controller) /\
  Client.count Client.is_disconnected on_io =
  (Client.count Client.is_disconnected c + 2)%nat /\
  Client.count Client.is_disconnected on_controller =
  (Client.count Client.is_disconnected c + 2)%nat /\
  Client.count Client.is_disconnected on_io <>
  (Client.count Client.is_disconnected c + 1)%nat.
Proof.
  vm_compute. repeat split; auto 20. discriminate.
Qed.

(** C9, amended.  Take a client whose ownership and single-flight flag are
    consistent, and any schedule in which threads invoke teardown (one at a
    time, as the mutex makes them), the I/O thread's loop exits and reconnect
    loops end.  No transport handle or I/O loop object is destroyed twice, and
    a further teardown from outside the I/O thread leaves nothing held, every
    object held at the start having been destroyed exactly once.  At most one
    reconnect loop is in flight, and one is exactly when the flag is set.  The
    "disconnected" notification, however, is queued once per teardown
    invocation when a callback is registered, not once per connection. *)
Theorem teardown_discipline (c : Client.t) (sched : list Client.Step) :
  Client.owned c ->
  Client.single_flight c ->
  let c' := Client.run sched c in
  NoDup (Client.freed (Client.trace c')) /\
  (forall self,
      Client.outside_io self c' = true ->
      let c'' := Client.cleanupConnection self c' in
      Client.held c'' = [] /\
      NoDup (Client.freed (Client.trace c'')) /\
      incl (Client.held c) (Client.freed (Client.trace c''))) /\
  Client.loops_in_flight c' = (if Client.reconnecting c' then 1 else 0)%nat /\
  Client.count Client.is_disconnected c' =
  (Client.count Client.is_disconnected c +
   if Client.has_onDisconnected c then Client.teardowns sched else 0)%nat.
Proof.
  intros Hown Hsf. cbv zeta.
  destruct (run_spec sched c Hown Hsf) as (R1 & R2 & R3 & R5 & R6).
  split; [|split; [|split; [|exact R5]]].
  - unfold Client.owned in R1. now apply NoDup_app_remove_r in R1.
  - intros self Hout.
    destruct (cleanupConnection_spec self (Client.run sched c))
      as (_ & _ & _ & _ & _ & _ & _ & _ & Hspec & _).
    destruct (Hspec Hout) as (E1 & E2 & _ & E4).
    assert (Hheld : Client.held
                      (Client.cleanupConnection self (Client.run sched c)) = [])
      by (unfold Client.held; now rewrite E1, E2).
    split; [exact Hheld|]. split.
    + rewrite E4. exact R1.
    + rewrite E4. eapply incl_tran; [|exact R6]. apply incl_appr, incl_refl.
  - unfold Client.loops_in_flight. unfold Client.single_flight in R2.
    rewrite R2. destruct (Client.reconnecting (Client.run sched c)); lia.
Qed.

(** * The rest of the code *)

(** ** ClientModel: accessors, roles and mutators *)

Section ModelAccessors.
Import ClientModel View.

Lemma at_in_range i m :
  0 <= i < size m -> exists e, at_ i m = Some e /\ In e (m_clients m).
Proof.
  intros Hr. unfold at_, size in *.
  replace (i <? 0) with false by (symmetry; apply Z.ltb_ge; lia).
  replace (Z.of_nat (List.length (m_clients m)) <=? i) with false
    by (symmetry; apply Z.leb_gt; lia).
  simpl. destruct (nth_error (m_clients m) (Z.to_nat i)) as [e|] eqn:E.
  - exists e. split; [reflexivity|]. eapply nth_error_In. exact E.
  - apply nth_error_None in E. lia.
Qed.

Lemma at_out_of_range i m : i < 0 \/ size m <= i -> at_ i m = None.
Proof.
  intros Hr. unfold at_.
  destruct (i <? 0) eqn:A; [reflexivity|].
  destruct (size m <=? i) eqn:B; [reflexivity|].
  apply Z.ltb_ge in A. apply Z.leb_gt in B. lia.
Qed.

Lemma at_data_row i m :
  0 <= i < size m -> at_ i m = nth_error (m_clients m) (Z.to_nat i).
Proof.
  intros Hr. unfold at_.
  replace (i <? 0) with false by (symmetry; apply Z.ltb_ge; lia).
  replace (size m <=? i) with false by (symmetry; apply Z.leb_gt; lia).
  reflexivity.
Qed.

Lemma shown_alias_nonempty e :
  (if negb (isEmpty (alias e)) then alias e
   else ("client_" ++
         QString_left 4 (QString_remove "}" (QString_remove "{" (id e))))%string)
  <> "".
Proof.
  destruct (isEmpty (alias e)) eqn:E; simpl.
  - discriminate.
  - now apply isEmpty_false.
Qed.

End ModelAccessors.

(** X3.  [aliasAt] answers the empty string exactly for an index outside the
    rows; for a row its answer is never empty, since a row without an alias
    is shown under a generated name that starts with "client_". *)
Theorem aliasAt_empty_iff_out_of_range (i : Z) (m : ClientModel.t) :
  ClientModel.aliasAt i m = "" <-> (i < 0 \/ ClientModel.rowCount m <= i).
Proof.
  unfold ClientModel.rowCount. split.
  - intros H.
    destruct (Z_lt_dec i 0) as [?|Hi]; [now left|].
    destruct (Z_le_dec (ClientModel.size m) i) as [?|Hs]; [now right|].
    exfalso. destruct (at_in_range i m) as [e [He _]]; [lia|].
    unfold ClientModel.aliasAt in H. rewrite He in H.
    exact (shown_alias_nonempty e H).
  - intros Hr. unfold ClientModel.aliasAt. now rewrite at_out_of_range.
Qed.

(** X4.  For a row of the model, [data] under the id, alias, configured-rate
    and measured-rate roles returns what [clientIdAt], [aliasAt],
    [configuredFpsAt] and [measuredFpsAt] return, and [data] is valid for
    exactly the roles that [roleNames] names. *)
Theorem data_agrees_with_accessors (row role : Z) (m : ClientModel.t)
  (Hrow : 0 <= row < ClientModel.rowCount m) :
  Roles.data (Some row) (Roles.value ClientModel.IdRole) m
    = Some (VString (ClientModel.clientIdAt row m)) /\
  Roles.data (Some row) (Roles.value ClientModel.AliasRole) m
    = Some (VString (ClientModel.aliasAt row m)) /\
  Roles.data (Some row) (Roles.value ClientModel.ConfiguredFpsRole) m
    = Some (VInt (ClientModel.configuredFpsAt row m)) /\
  Roles.data (Some row) (Roles.value ClientModel.MeasuredFpsRole) m
    = Some (VInt (ClientModel.measuredFpsAt row m)) /\
  (Roles.data (Some row) role m <> None <-> Roles.roleNames role <> None).
Proof.
  unfold ClientModel.rowCount in Hrow.
  destruct (at_in_range row m Hrow) as [e [He _]].
  pose proof (at_data_row row m Hrow) as Hn. rewrite He in Hn.
  unfold ClientModel.clientIdAt, ClientModel.aliasAt,
    ClientModel.configuredFpsAt, ClientModel.measuredFpsAt.
  rewrite He. unfold Roles.data.
  replace (row <? 0) with false by (symmetry; apply Z.ltb_ge; lia).
  replace (ClientModel.size m <=? row) with false
    by (symmetry; apply Z.leb_gt; lia).
  cbn [orb]. rewrite <- Hn.
  split; [reflexivity|]. split.
  { cbn. destruct (isEmpty (ClientModel.alias e)); reflexivity. }
  split; [reflexivity|]. split; [reflexivity|].
  unfold Roles.roleNames.
  destruct (Roles.of_value role) as [[| | | |]|];
    try (split; intros _; discriminate); [|tauto].
  destruct (negb (isEmpty (ClientModel.alias e))); split; intros _; discriminate.
Qed.

Section IndexRoundTrip.
Import ClientModel View.

Lemma indexOf_from_nth i0 l n e :
  NoDup (map id l) -> nth_error l n = Some e ->
  indexOf_from i0 (id e) l = i0 + Z.of_nat n.
Proof.
  revert i0 n. induction l as [|a r IH]; intros i0 n Hnd Hn.
  - destruct n; discriminate.
  - simpl in Hnd. inversion Hnd as [|? ? Hnotin Hnd']; subst.
    destruct n as [|n]; simpl in *.
    + injection Hn as ->. rewrite String.eqb_refl. lia.
    + destruct (String.eqb (id a) (id e)) eqn:E.
      * apply String.eqb_eq in E. exfalso. apply Hnotin. rewrite E.
        apply in_map. eapply nth_error_In. exact Hn.
      * rewrite (IH (i0 + 1) n Hnd' Hn). lia.
Qed.

End IndexRoundTrip.

(** X5.  In a model whose ids are distinct, [indexOfClient] and [clientIdAt]
    are inverse to each other: row [i] holds the id [x] exactly when
    [indexOfClient x] answers [i] (and not the "absent" value -1). *)
Theorem index_and_id_are_inverse (m : ClientModel.t) (i : Z) (x : string)
  (Hdistinct : NoDup (ClientModel.ids m)) :
  (0 <= i < ClientModel.rowCount m /\ ClientModel.clientIdAt i m = x) <->
  (ClientModel.indexOfClient x m = i /\ i <> -1).
Proof.
  unfold ClientModel.rowCount. split.
  - intros [Hr Hx].
    destruct (at_in_range i m Hr) as [e [He _]].
    unfold ClientModel.clientIdAt in Hx. rewrite He in Hx. subst x.
    rewrite (at_data_row i m Hr) in He.
    split; [|lia]. unfold ClientModel.indexOfClient.
    rewrite (indexOf_from_nth 0 _ _ e Hdistinct He). lia.
  - intros [Hi Hne]. subst i.
    destruct (indexOfClient_range x m) as [?|Hr]; [congruence|].
    split; [exact Hr|].
    unfold ClientModel.clientIdAt. rewrite (at_indexOfClient x m Hne).
    destruct (View.lookup x (ClientModel.m_clients m)) as [e|] eqn:L.
    + now destruct (lookup_some _ _ _ L).
    + apply lookup_absent in L. apply indexOfClient_absent in L. congruence.
Qed.

Section ModelMutators.
Import ClientModel View.

Lemma indexOf_from_app_fresh i0 x l e :
  ~ In x (map id l) -> id e = x ->
  indexOf_from i0 x (l ++ [e]) = i0 + Z.of_nat (List.length l).
Proof.
  revert i0. induction l as [|a r IH]; intros i0 Hn He; simpl.
  - rewrite He, String.eqb_refl. lia.
  - simpl in Hn. destruct (String.eqb (id a) x) eqn:E.
    + apply String.eqb_eq in E. exfalso. auto.
    + rewrite IH by tauto. lia.
Qed.

Lemma lookup_app x l r :
  lookup x (l ++ r) =
  match lookup x l with Some e => Some e | None => lookup x r end.
Proof.
  induction l as [|a l IH]; simpl; [reflexivity|].
  destruct (String.eqb (id a) x); [reflexivity | exact IH].
Qed.

Lemma remove_first_app_fresh x l e :
  ~ In x (map id l) -> id e = x -> remove_first x (l ++ [e]) = l.
Proof.
  induction l as [|a r IH]; intros Hn He; simpl.
  - now rewrite He, String.eqb_refl.
  - simpl in Hn. destruct (String.eqb (id a) x) eqn:E.
    + apply String.eqb_eq in E. exfalso. auto.
    + f_equal. apply IH; tauto.
Qed.

Lemma lookup_remove_first_other x y l :
  y <> x -> lookup y (remove_first x l) = lookup y l.
Proof.
  intros Hne. induction l as [|a r IH]; simpl; [reflexivity|].
  destruct (String.eqb (id a) x) eqn:E; simpl.
  - apply String.eqb_eq in E.
    destruct (String.eqb (id a) y) eqn:F; [|reflexivity].
    apply String.eqb_eq in F. congruence.
  - destruct (String.eqb (id a) y); [reflexivity | exact IH].
Qed.

Lemma lookup_upd_first_other x y f l :
  (forall e, id (f e) = id e) -> y <> x ->
  lookup y (upd_first x f l) = lookup y l.
Proof.
  intros Hf Hne. induction l as [|a r IH]; simpl; [reflexivity|].
  destruct (String.eqb (id a) x) eqn:E; simpl.
  - rewrite Hf. apply String.eqb_eq in E.
    destruct (String.eqb (id a) y) eqn:F; [|reflexivity].
    apply String.eqb_eq in F. congruence.
  - destruct (String.eqb (id a) y); [reflexivity | exact IH].
Qed.

Lemma length_remove_first x l :
  In x (map id l) -> S (List.length (remove_first x l)) = List.length l.
Proof.
  induction l as [|a r IH]; simpl; [tauto|].
  destruct (String.eqb (id a) x) eqn:E; [reflexivity|].
  intros [H|H]; [apply String.eqb_neq in E; congruence|].
  simpl. now rewrite IH.
Qed.

Lemma filter_other_ids x (l : list string) :
  ~ In x l -> filter (fun y => negb (String.eqb y x)) l = l.
Proof.
  induction l as [|b r IH]; simpl; intros Hn; [reflexivity|].
  destruct (String.eqb b x) eqn:F; simpl.
  - apply String.eqb_eq in F. exfalso. auto.
  - f_equal. apply IH. tauto.
Qed.

Lemma ids_remove_first x l :
  NoDup (map id l) ->
  map id (remove_first x l) =
  filter (fun y => negb (String.eqb y x)) (map id l).
Proof.
  induction l as [|a r IH]; simpl; intros Hnd; [reflexivity|].
  inversion Hnd as [|? ? Hnotin Hnd']; subst.
  destruct (String.eqb (id a) x) eqn:E; simpl.
  - apply String.eqb_eq in E. subst x. symmetry.
    now apply filter_other_ids.
  - f_equal. auto.
Qed.

Lemma setClientAlias_clients x a m :
  m_clients (setClientAlias x a m) =
  upd_first x (with_alias a) (m_clients m).
Proof.
  unfold setClientAlias. destruct (indexOfClient x m =? -1) eqn:E.
  - apply Z.eqb_eq in E. apply indexOfClient_absent in E.
    symmetry. apply upd_first_absent. exact E.
  - apply Z.eqb_neq in E. rewrite at_indexOfClient by exact E.
    destruct (lookup x (m_clients m)) as [e|] eqn:L.
    + destruct (String.eqb (alias e) a) eqn:S; simpl.
      * apply String.eqb_eq in S. clear E. revert L.
        induction (m_clients m) as [|r0 r IH]; simpl; [discriminate|].
        destruct (String.eqb (id r0) x).
        -- intros [= ->]. f_equal.
           destruct e; unfold with_alias; simpl in *. now subst.
        -- intros L. f_equal. auto.
      * apply set_nth_indexOf. exact E.
    + apply lookup_absent in L. symmetry. apply upd_first_absent. exact L.
Qed.

(** What [aliasAt] shows for a row. *)
Lemma aliasAt_lookup x m e :
  lookup x (m_clients m) = Some e ->
  aliasAt (indexOfClient x m) m =
  if negb (isEmpty (alias e)) then alias e
  else ("client_" ++
        QString_left 4 (QString_remove "}" (QString_remove "{" (id e))))%string.
Proof.
  intros L. unfold aliasAt.
  assert (Hne : indexOfClient x m <> -1).
  { intros H. apply indexOfClient_absent in H. apply lookup_absent in H.
    congruence. }
  rewrite at_indexOfClient by exact Hne. rewrite L. reflexivity.
Qed.

Lemma lookup_known x m e :
  lookup x (m_clients m) = Some e -> 0 <= indexOfClient x m < size m.
Proof.
  intros L. destruct (indexOfClient_range x m) as [H|H]; [|exact H].
  apply indexOfClient_absent in H. apply lookup_absent in H. congruence.
Qed.

End ModelMutators.

(** X6.  Insert, look up, delete: admitting an id the model does not hold
    appends its row (so its index is the old row count), announces the
    insertion and the new count, and the row is found under its id; removing
    it again restores the rows and announces the removal of that index. *)
Theorem addClient_then_removeClient (x st : string) (m : ClientModel.t)
  (Hfresh : ~ In x (ClientModel.ids m)) :
  let n := ClientModel.rowCount m in
  let m1 := ClientModel.addClient x st m in
  ClientModel.indexOfClient x m1 = n /\
  ClientModel.rowCount m1 = n + 1 /\
  View.lookup x (ClientModel.m_clients m1) = Some (ClientModel.newEntry x st) /\
  ClientModel.emitted m1 =
    ClientModel.emitted m
      ++ [ClientModel.rowsInserted n n; ClientModel.countChanged (n + 1)] /\
  ClientModel.m_clients (ClientModel.removeClient x m1) =
    ClientModel.m_clients m /\
  ClientModel.emitted (ClientModel.removeClient x m1) =
    ClientModel.emitted m1 ++ [ClientModel.rowsRemoved n n].
Proof.
  intros n m1.
  assert (Habs : ClientModel.indexOfClient x m = -1)
    by now apply indexOfClient_absent.
  assert (Hrows : ClientModel.m_clients m1 =
                  ClientModel.m_clients m ++ [ClientModel.newEntry x st]).
  { unfold m1. rewrite addClient_clients, Habs. reflexivity. }
  assert (Hidx : ClientModel.indexOfClient x m1 = n).
  { unfold ClientModel.indexOfClient. rewrite Hrows.
    rewrite indexOf_from_app_fresh; [reflexivity | exact Hfresh | reflexivity]. }
  assert (Hn : 0 <= n) by (unfold n, ClientModel.rowCount, ClientModel.size; lia).
  split; [exact Hidx|]. split.
  { unfold ClientModel.rowCount, ClientModel.size. rewrite Hrows.
    rewrite length_app. simpl. unfold n, ClientModel.rowCount, ClientModel.size.
    lia. }
  split.
  { rewrite Hrows, lookup_app.
    replace (View.lookup x (ClientModel.m_clients m)) with (@None ClientModel.ClientEntry)
      by (symmetry; now apply lookup_absent).
    simpl. now rewrite String.eqb_refl. }
  split.
  { unfold m1, ClientModel.addClient. rewrite Habs. simpl.
    rewrite <- app_assoc. simpl. unfold ClientModel.size. simpl.
    rewrite length_app. simpl.
    replace (Z.of_nat (List.length (ClientModel.m_clients m) + 1))
      with (n + 1)
      by (unfold n, ClientModel.rowCount, ClientModel.size; lia).
    reflexivity. }
  split.
  { rewrite removeClient_clients, Hrows.
    apply remove_first_app_fresh; [exact Hfresh | reflexivity]. }
  unfold ClientModel.removeClient. rewrite Hidx.
  replace (n =? -1) with false by (symmetry; apply Z.eqb_neq; lia).
  reflexivity.
Qed.

(** X7.  Removing an id the model holds (ids distinct) deletes exactly its
    row: the count drops by one, the id is gone, the other ids keep their
    order and their rows, and the removal of the id's index is announced;
    removing an id the model does not hold changes nothing. *)
Theorem removeClient_deletes_the_row (x : string) (m : ClientModel.t)
  (Hdistinct : NoDup (ClientModel.ids m)) :
  (In x (ClientModel.ids m) ->
   let m1 := ClientModel.removeClient x m in
   let idx := ClientModel.indexOfClient x m in
   ClientModel.rowCount m1 = ClientModel.rowCount m - 1 /\
   ~ In x (ClientModel.ids m1) /\
   ClientModel.ids m1 =
     filter (fun y => negb (String.eqb y x)) (ClientModel.ids m) /\
   (forall y, y <> x ->
      View.lookup y (ClientModel.m_clients m1) =
      View.lookup y (ClientModel.m_clients m)) /\
   0 <= idx < ClientModel.rowCount m /\
   ClientModel.emitted m1 =
     ClientModel.emitted m ++ [ClientModel.rowsRemoved idx idx]) /\
  (~ In x (ClientModel.ids m) -> ClientModel.removeClient x m = m).
Proof.
  split.
  - intros Hin m1 idx.
    assert (Hne : idx <> -1).
    { unfold idx. intros H. apply indexOfClient_absent in H. auto. }
    assert (Hrows : ClientModel.m_clients m1 =
                    View.remove_first x (ClientModel.m_clients m))
      by apply removeClient_clients.
    split.
    { unfold ClientModel.rowCount, ClientModel.size. rewrite Hrows.
      pose proof (length_remove_first x (ClientModel.m_clients m) Hin). lia. }
    split.
    { unfold ClientModel.ids. rewrite Hrows.
      rewrite ids_remove_first by exact Hdistinct.
      rewrite filter_In. rewrite String.eqb_refl. simpl. intros [_ H].
      discriminate. }
    split.
    { unfold ClientModel.ids. rewrite Hrows.
      apply ids_remove_first. exact Hdistinct. }
    split.
    { intros y Hy. rewrite Hrows. now apply lookup_remove_first_other. }
    split.
    { destruct (indexOfClient_range x m) as [?|Hr]; [contradiction|].
      exact Hr. }
    unfold m1, ClientModel.removeClient. fold idx.
    replace (idx =? -1) with false by (symmetry; now apply Z.eqb_neq).
    reflexivity.
  - intros Hn. unfold ClientModel.removeClient.
    apply indexOfClient_absent in Hn. now rewrite Hn.
Qed.

(** X8.  [setClientAlias] writes the alias of the row with the given id and
    nothing else: ids and the rows of other ids are untouched, the row is
    found with the new alias, one [dataChanged] for the alias role of that
    row is announced when the alias differs, and the call changes nothing at
    all when the id is unknown or the alias is already the given one (so a
    repeated call is silent). *)
Theorem setClientAlias_writes_the_row (x a : string) (m : ClientModel.t) :
  let m1 := ClientModel.setClientAlias x a m in
  ClientModel.ids m1 = ClientModel.ids m /\
  (forall y, y <> x ->
     View.lookup y (ClientModel.m_clients m1) =
     View.lookup y (ClientModel.m_clients m)) /\
  View.lookup x (ClientModel.m_clients m1) =
    option_map (ClientModel.with_alias a)
               (View.lookup x (ClientModel.m_clients m)) /\
  (forall e, View.lookup x (ClientModel.m_clients m) = Some e ->
     ClientModel.alias e <> a ->
     ClientModel.emitted m1 =
       ClientModel.emitted m
         ++ [ClientModel.dataChanged (ClientModel.indexOfClient x m)
                                     ClientModel.AliasRole]) /\
  (forall e, View.lookup x (ClientModel.m_clients m) = Some e ->
     ClientModel.alias e = a -> m1 = m) /\
  (View.lookup x (ClientModel.m_clients m) = None -> m1 = m) /\
  ClientModel.setClientAlias x a m1 = m1.
Proof.
  intros m1.
  assert (Hrows : ClientModel.m_clients m1 =
                  View.upd_first x (ClientModel.with_alias a)
                                 (ClientModel.m_clients m))
    by apply setClientAlias_clients.
  assert (Hid : forall e, ClientModel.id (ClientModel.with_alias a e)
                          = ClientModel.id e) by reflexivity.
  assert (Hsome : forall e, View.lookup x (ClientModel.m_clients m) = Some e ->
            ClientModel.indexOfClient x m <> -1).
  { intros e L H. apply indexOfClient_absent in H.
    apply lookup_absent in H. congruence. }
  assert (Hnone : View.lookup x (ClientModel.m_clients m) = None -> m1 = m).
  { intros L. unfold m1, ClientModel.setClientAlias.
    apply lookup_absent in L. apply indexOfClient_absent in L.
    now rewrite L. }
  assert (Hsame : forall e, View.lookup x (ClientModel.m_clients m) = Some e ->
            ClientModel.alias e = a -> m1 = m).
  { intros e L Ha. unfold m1, ClientModel.setClientAlias.
    pose proof (Hsome e L) as Hne.
    replace (ClientModel.indexOfClient x m =? -1) with false
      by (symmetry; now apply Z.eqb_neq).
    rewrite at_indexOfClient by exact Hne. rewrite L.
    replace (String.eqb (ClientModel.alias e) a) with true
      by (symmetry; now apply String.eqb_eq).
    reflexivity. }
  split.
  { unfold ClientModel.ids. rewrite Hrows. now apply map_id_upd_first. }
  split.
  { intros y Hy. rewrite Hrows. now apply lookup_upd_first_other. }
  split.
  { rewrite Hrows. now apply lookup_upd_first. }
  split.
  { intros e L Ha. unfold m1, ClientModel.setClientAlias.
    pose proof (Hsome e L) as Hne.
    replace (ClientModel.indexOfClient x m =? -1) with false
      by (symmetry; now apply Z.eqb_neq).
    rewrite at_indexOfClient by exact Hne. rewrite L.
    replace (String.eqb (ClientModel.alias e) a) with false
      by (symmetry; now apply String.eqb_neq).
    reflexivity. }
  split; [exact Hsame|]. split; [exact Hnone|].
  (* a second call finds the alias in place *)
  destruct (View.lookup x (ClientModel.m_clients m)) as [e|] eqn:L.
  - assert (L1 : View.lookup x (ClientModel.m_clients m1)
                 = Some (ClientModel.with_alias a e)).
    { rewrite Hrows, lookup_upd_first by exact Hid. now rewrite L. }
    unfold ClientModel.setClientAlias.
    assert (Hne1 : ClientModel.indexOfClient x m1 <> -1).
    { intros H. apply indexOfClient_absent in H. apply lookup_absent in H.
      congruence. }
    replace (ClientModel.indexOfClient x m1 =? -1) with false
      by (symmetry; now apply Z.eqb_neq).
    rewrite at_indexOfClient by exact Hne1. rewrite L1. simpl.
    now rewrite String.eqb_refl.
  - rewrite (Hnone eq_refl). exact (Hnone eq_refl).
Qed.

(** ** Starting and stopping the server *)

Section Lifecycle.
Import Bridge ImageServerBridge.

Lemma events_app a b : Log.events (a ++ b) = Log.events a ++ Log.events b.
Proof.
  induction a as [|s r IH]; simpl; [reflexivity|].
  destruct s; simpl; rewrite ?IH; reflexivity.
Qed.

Lemma setServerState_spec s b :
  m_serverState (setServerState s b) = s /\
  m_statusMessage (setServerState s b) = m_statusMessage b /\
  Log.events (signals (setServerState s b)) = Log.events (signals b) /\
  m_clientModel (setServerState s b) = m_clientModel b /\
  m_activeClientId (setServerState s b) = m_activeClientId b /\
  m_server (setServerState s b) = m_server b.
Proof.
  unfold setServerState.
  destruct (ServerState_eqb (m_serverState b) s) eqn:E.
  - repeat split. destruct (m_serverState b), s; simpl in E;
      reflexivity || discriminate.
  - simpl. rewrite events_app. simpl. rewrite app_nil_r. auto 10.
Qed.

Lemma setStatusMessage_spec s b :
  m_statusMessage (setStatusMessage s b) = s /\
  m_serverState (setStatusMessage s b) = m_serverState b /\
  Log.events (signals (setStatusMessage s b)) = Log.events (signals b) /\
  m_clientModel (setStatusMessage s b) = m_clientModel b /\
  m_activeClientId (setStatusMessage s b) = m_activeClientId b /\
  m_server (setStatusMessage s b) = m_server b.
Proof.
  unfold setStatusMessage.
  destruct (String.eqb (m_statusMessage b) s) eqn:E.
  - apply String.eqb_eq in E. auto 10.
  - simpl. rewrite events_app. simpl. rewrite app_nil_r. auto 10.
Qed.

(** A state change followed by a status message, as [start] and [stop] do
    it. *)
Lemma announce_spec st msg b :
  let b' := setStatusMessage msg (setServerState st b) in
  m_serverState b' = st /\ m_statusMessage b' = msg /\
  Log.events (signals b') = Log.events (signals b) /\
  m_clientModel b' = m_clientModel b /\
  m_activeClientId b' = m_activeClientId b /\
  m_server b' = m_server b.
Proof.
  intros b'. unfold b'.
  destruct (setStatusMessage_spec msg (setServerState st b))
    as (A1 & A2 & A3 & A4 & A5 & A6).
  destruct (setServerState_spec st b) as (B1 & B2 & B3 & B4 & B5 & B6).
  rewrite A1, A2, A3, A4, A5, A6. auto 10.
Qed.

Lemma start_without_listener h assigned :
  listener h = None ->
  fst (start (Bound assigned) h) = true /\
  m_serverState (bridge (snd (start (Bound assigned) h))) = Running.
Proof.
  intros Hl. destruct h as [b0 p0 l0 s0]. simpl in Hl. subst l0.
  unfold start, WebSocketServer_start.
  cbn [with_bridge bridge m_port listener settings with_listener fst snd].
  split; [reflexivity|].
  cbn [Bridge.emit m_serverState].
  apply (announce_spec Running "Running").
Qed.

End Lifecycle.

(** X9.  [start()] has three outcomes.  With no listener yet and the port
    bound, it answers true, the server listens on the configured port (on the
    one the system assigned when port 0 was configured), the state is
    Running and ServerStarted carries that port.  When binding is refused it
    answers false, the state is Error and ServerStartFailed is reported
    twice, first by the server and then by the bridge.  When the server is
    already listening it also answers false and reports Error and
    ServerStartFailed ("failed to bind") although the listener is kept.  In
    no case are the registry, the active reference or the sessions
    touched. *)
Theorem start_outcomes (h : ImageServerBridge.t) (env : ImageServerBridge.Listen) :
  let r := ImageServerBridge.start env h in
  let b := ImageServerBridge.bridge h in
  let b' := ImageServerBridge.bridge (snd r) in
  let configured := ImageServerBridge.quint16 (ImageServerBridge.m_port h) in
  Bridge.m_clientModel b' = Bridge.m_clientModel b /\
  Bridge.m_activeClientId b' = Bridge.m_activeClientId b /\
  Bridge.m_server b' = Bridge.m_server b /\
  match ImageServerBridge.listener h, env with
  | None, ImageServerBridge.Bound assigned =>
      let port := if configured =? 0 then assigned else configured in
      fst r = true /\
      ImageServerBridge.listener (snd r) = Some port /\
      ImageServerBridge.serverPort (snd r) = port /\
      Bridge.m_serverState b' = Bridge.Running /\
      Bridge.m_statusMessage b' = "Running" /\
      Log.events (Bridge.signals b') =
        Log.events (Bridge.signals b)
          ++ [(ServerStarted, [("port", VInt port)])]
  | None, ImageServerBridge.Refused =>
      fst r = false /\
      ImageServerBridge.listener (snd r) = None /\
      Bridge.m_serverState b' = Bridge.Error /\
      Bridge.m_statusMessage b' = "Failed to start" /\
      Log.events (Bridge.signals b') =
        Log.events (Bridge.signals b)
          ++ [(ServerStartFailed,
               [("port", VInt 0);
                ("reason", VString "Failed to start WebSocketServer on port 0")]);
              (ServerStartFailed,
               [("port", VInt (ImageServerBridge.m_port h));
                ("reason", VString "failed to bind")])]
  | Some q, _ =>
      fst r = false /\
      ImageServerBridge.listener (snd r) = Some q /\
      Bridge.m_serverState b' = Bridge.Error /\
      Bridge.m_statusMessage b' = "Failed to start" /\
      Log.events (Bridge.signals b') =
        Log.events (Bridge.signals b)
          ++ [(ServerStartFailed,
               [("port", VInt (ImageServerBridge.m_port h));
                ("reason", VString "failed to bind")])]
  end.
Proof.
  cbv zeta. destruct h as [b0 port0 l0 s0].
  unfold ImageServerBridge.start. cbn [ImageServerBridge.with_bridge
    ImageServerBridge.bridge ImageServerBridge.m_port
    ImageServerBridge.listener ImageServerBridge.settings].
  destruct (announce_spec Bridge.Starting "Starting" b0)
    as (A1 & A2 & A3 & A4 & A5 & A6).
  set (b1 := Bridge.setStatusMessage "Starting"
               (ImageServerBridge.setServerState Bridge.Starting b0)) in *.
  unfold ImageServerBridge.WebSocketServer_start.
  cbn [ImageServerBridge.with_bridge ImageServerBridge.bridge
       ImageServerBridge.m_port ImageServerBridge.listener
       ImageServerBridge.settings ImageServerBridge.with_listener].
  destruct l0 as [q|]; [|destruct env as [|assigned]];
    cbn [fst snd ImageServerBridge.with_bridge ImageServerBridge.bridge
         ImageServerBridge.m_port ImageServerBridge.listener
         ImageServerBridge.settings ImageServerBridge.with_listener
         ImageServerBridge.serverPort].
  - destruct (announce_spec Bridge.Error "Failed to start" b1)
      as (B1 & B2 & B3 & B4 & B5 & B6).
    cbn [Bridge.emit Bridge.m_clientModel Bridge.m_activeClientId
         Bridge.m_server Bridge.m_serverState Bridge.m_statusMessage
         Bridge.signals].
    rewrite events_app, B1, B2, B3, B4, B5, B6, A3, A4, A5, A6.
    simpl. auto 10.
  - set (b2 := ImageServerBridge.onServerError _ _ b1).
    destruct (announce_spec Bridge.Error "Failed to start" b2)
      as (B1 & B2 & B3 & B4 & B5 & B6).
    cbn [Bridge.emit Bridge.m_clientModel Bridge.m_activeClientId
         Bridge.m_server Bridge.m_serverState Bridge.m_statusMessage
         Bridge.signals].
    rewrite events_app, B1, B2, B3, B4, B5, B6.
    unfold b2, ImageServerBridge.onServerError.
    cbn [Bridge.emit Bridge.m_clientModel Bridge.m_activeClientId
         Bridge.m_server Bridge.m_serverState Bridge.m_statusMessage
         Bridge.signals].
    rewrite events_app, A3, A4, A5, A6. simpl.
    rewrite <- app_assoc. simpl. auto 10.
  - destruct (announce_spec Bridge.Running "Running" b1)
      as (B1 & B2 & B3 & B4 & B5 & B6).
    cbn [Bridge.emit Bridge.m_clientModel Bridge.m_activeClientId
         Bridge.m_server Bridge.m_serverState Bridge.m_statusMessage
         Bridge.signals].
    rewrite events_app, B1, B2, B3, B4, B5, B6, A3, A4, A5, A6.
    simpl. auto 10.
Qed.

(** X10.  [stop()] leaves the server without a listener, in state Idle with
    the message "Stopped", and reports ServerStopped (also when nothing was
    listening); the registry, the active reference and the sessions are left
    as they were.  After [stop()] a [start()] whose port is bound succeeds,
    whatever the state before. *)
Theorem stop_then_start (h : ImageServerBridge.t) (assigned : Z) :
  let h1 := ImageServerBridge.stop h in
  let b := ImageServerBridge.bridge h in
  let b1 := ImageServerBridge.bridge h1 in
  ImageServerBridge.listener h1 = None /\
  Bridge.m_serverState b1 = Bridge.Idle /\
  Bridge.m_statusMessage b1 = "Stopped" /\
  Log.events (Bridge.signals b1) =
    Log.events (Bridge.signals b) ++ [(ServerStopped, [])] /\
  Bridge.m_clientModel b1 = Bridge.m_clientModel b /\
  Bridge.m_activeClientId b1 = Bridge.m_activeClientId b /\
  Bridge.m_server b1 = Bridge.m_server b /\
  fst (ImageServerBridge.start (ImageServerBridge.Bound assigned) h1) = true /\
  Bridge.m_serverState
    (ImageServerBridge.bridge
       (snd (ImageServerBridge.start (ImageServerBridge.Bound assigned) h1)))
  = Bridge.Running.
Proof.
  intros h1 b b1.
  assert (Hl : ImageServerBridge.listener h1 = None).
  { unfold h1, ImageServerBridge.stop, ImageServerBridge.WebSocketServer_stop.
    cbv zeta. destruct h as [b0 p0 [q|] s0]; reflexivity. }
  assert (Hb : b1 = Bridge.setStatusMessage "Stopped"
                 (ImageServerBridge.setServerState Bridge.Idle
                    (Bridge.emit (Bridge.eventOccurred ServerStopped [])
                       (Bridge.setStatusMessage "Stopping"
                          (ImageServerBridge.setServerState Bridge.Stopping b))))).
  { unfold b1, h1, b, ImageServerBridge.stop,
      ImageServerBridge.WebSocketServer_stop.
    cbv zeta. destruct h as [b0 p0 [q|] s0]; reflexivity. }
  destruct (announce_spec Bridge.Stopping "Stopping" b)
    as (A1 & A2 & A3 & A4 & A5 & A6).
  set (b2 := Bridge.setStatusMessage "Stopping"
               (ImageServerBridge.setServerState Bridge.Stopping b)) in *.
  destruct (announce_spec Bridge.Idle "Stopped"
              (Bridge.emit (Bridge.eventOccurred ServerStopped []) b2))
    as (B1 & B2 & B3 & B4 & B5 & B6).
  rewrite <- Hb in *.
  split; [exact Hl|]. split; [exact B1|]. split; [exact B2|].
  split.
  { rewrite B3. cbn [Bridge.emit Bridge.signals]. rewrite events_app, A3.
    reflexivity. }
  split; [rewrite B4; exact A4|]. split; [rewrite B5; exact A5|].
  split; [rewrite B6; exact A6|].
  apply start_without_listener. exact Hl.
Qed.

(** ** The alias a client announces *)

(** The effect of an ALIAS message with a non-empty alias from a registered
    client. *)
Lemma onControlMessageReceived_alias {ext : Externals}
        (b : Bridge.t) (x : string) (serialized : bytes)
        (msg : Control.ControlMessage) (e : ClientModel.ClientEntry) :
  ParseFromArray serialized = Some msg ->
  Control.type msg = Control.ALIAS ->
  Control.alias msg <> "" ->
  View.lookup x (ClientModel.m_clients (Bridge.m_clientModel b)) = Some e ->
  let a := Control.alias msg in
  let m := Bridge.m_clientModel b in
  let shown := ClientModel.aliasAt (ClientModel.indexOfClient x m) m in
  let b' := ImageServerBridge.onControlMessageReceived x serialized b in
  let m' := Bridge.m_clientModel b' in
  ClientModel.aliasAt (ClientModel.indexOfClient x m') m' = a /\
  Registry.keys b' = Registry.keys b /\
  Bridge.m_activeClientId b' = Bridge.m_activeClientId b /\
  (x = Bridge.m_activeClientId b -> ImageServerBridge.activeClientAlias b' = a) /\
  Bridge.signals b' =
    Bridge.signals b
      ++ (if negb (String.eqb a shown) && String.eqb x (Bridge.m_activeClientId b)
          then [Bridge.activeClientAliasChanged a] else [])
      ++ [Bridge.eventOccurred ClientConnected
            [("clientId", VString x); ("alias", VString a)];
          Bridge.clientConnectedWithAlias x a].
Proof.
  intros Hparse Hty Ha L a m shown b' m'.
  assert (Hae : isEmpty a = false) by now apply isEmpty_false.
  (* the rows afterwards *)
  assert (Hshape :
    b' = Bridge.emit (Bridge.clientConnectedWithAlias x a)
           (Bridge.emit (Bridge.eventOccurred ClientConnected
                           [("clientId", VString x); ("alias", VString a)])
              (if negb (String.eqb a shown) then
                 let b1 := Bridge.set_clientModel
                             (ClientModel.setClientAlias x a m) b in
                 if String.eqb x (Bridge.m_activeClientId b1)
                 then Bridge.emit (Bridge.activeClientAliasChanged a) b1
                 else b1
               else b))).
  { unfold b', ImageServerBridge.onControlMessageReceived.
    rewrite Hparse, Hty. fold a. rewrite Hae. reflexivity. }
  assert (Hshown : ClientModel.aliasAt (ClientModel.indexOfClient x m') m' = a
                   /\ Registry.keys b' = Registry.keys b
                   /\ Bridge.m_activeClientId b' = Bridge.m_activeClientId b).
  { unfold m'. rewrite Hshape.
    destruct (String.eqb a shown) eqn:E; cbn [negb].
    - apply String.eqb_eq in E. cbn. split; [|split; reflexivity].
      symmetry. exact E.
    - cbv zeta.
      assert (Hm1 : forall b1, Bridge.m_clientModel
                (if String.eqb x (Bridge.m_activeClientId b1)
                 then Bridge.emit (Bridge.activeClientAliasChanged a) b1
                 else b1) = Bridge.m_clientModel b1)
        by (intros b1; destruct (String.eqb x _); reflexivity).
      assert (Ha1 : forall b1, Bridge.m_activeClientId
                (if String.eqb x (Bridge.m_activeClientId b1)
                 then Bridge.emit (Bridge.activeClientAliasChanged a) b1
                 else b1) = Bridge.m_activeClientId b1)
        by (intros b1; destruct (String.eqb x _); reflexivity).
      unfold Registry.keys. cbn [Bridge.emit Bridge.m_clientModel
                                 Bridge.m_activeClientId].
      rewrite Hm1, Ha1. cbn [Bridge.set_clientModel Bridge.m_clientModel
                             Bridge.m_activeClientId].
      split; [|split; [|reflexivity]].
      + assert (L1 : View.lookup x (ClientModel.m_clients
                        (ClientModel.setClientAlias x a m))
                     = Some (ClientModel.with_alias a e)).
        { rewrite setClientAlias_clients, lookup_upd_first by reflexivity.
          unfold m. now rewrite L. }
        rewrite (aliasAt_lookup _ _ _ L1). cbn [ClientModel.with_alias
          ClientModel.alias]. now rewrite Hae.
      + rewrite setClientAlias_clients. apply key_upd_first_same.
        reflexivity. }
  destruct Hshown as (S1 & S2 & S3).
  split; [exact S1|]. split; [exact S2|]. split; [exact S3|].
  split.
  { intros Hx. unfold ImageServerBridge.activeClientAlias. rewrite S3, <- Hx.
    fold m'.
    assert (Hk : In x (ClientModel.ids m')).
    { unfold ClientModel.ids.
      rewrite <- map_fst_key.
      change (In x (map fst (Registry.keys b'))). rewrite S2.
      unfold Registry.keys. rewrite map_fst_key.
      apply lookup_some in L. destruct L as [Hin Hid]. rewrite <- Hid.
      now apply in_map. }
    destruct (indexOfClient_range x m') as [H|H].
    - apply indexOfClient_absent in H. contradiction.
    - replace (0 <=? ClientModel.indexOfClient x m') with true
        by (symmetry; apply Z.leb_le; lia).
      exact S1. }
  rewrite Hshape.
  destruct (String.eqb a shown) eqn:E; cbn [negb andb].
  - cbn. rewrite <- app_assoc. reflexivity.
  - cbv zeta. cbn [Bridge.set_clientModel Bridge.m_activeClientId].
    destruct (String.eqb x (Bridge.m_activeClientId b)); cbn;
      rewrite <- ?app_assoc; reflexivity.
Qed.

(** X11.  When a registered client's control message parses as ALIAS with a
    non-empty alias, the registry shows that alias for the client from then
    on (also when it equals the generated name shown before, in which case
    the row is left alone); ids, statuses and the active reference are
    unchanged; ClientConnected and clientConnectedWithAlias are emitted with
    the id and the alias, preceded by activeClientAliasChanged exactly when
    the client is the active one and the alias shown changes. *)
Theorem alias_message_names_the_client {ext : Externals}
        (b : Bridge.t) (x : string) (serialized : bytes)
        (msg : Control.ControlMessage) (e : ClientModel.ClientEntry) :
  ParseFromArray serialized = Some msg ->
  Control.type msg = Control.ALIAS ->
  Control.alias msg <> "" ->
  View.lookup x (ClientModel.m_clients (Bridge.m_clientModel b)) = Some e ->
  let a := Control.alias msg in
  let m := Bridge.m_clientModel b in
  let shown := ClientModel.aliasAt (ClientModel.indexOfClient x m) m in
  let b' := ImageServerBridge.onControlMessageReceived x serialized b in
  let m' := Bridge.m_clientModel b' in
  ClientModel.aliasAt (ClientModel.indexOfClient x m') m' = a /\
  Registry.keys b' = Registry.keys b /\
  Bridge.m_activeClientId b' = Bridge.m_activeClientId b /\
  (x = Bridge.m_activeClientId b -> ImageServerBridge.activeClientAlias b' = a) /\
  Bridge.signals b' =
    Bridge.signals b
      ++ (if negb (String.eqb a shown) && String.eqb x (Bridge.m_activeClientId b)
          then [Bridge.activeClientAliasChanged a] else [])
      ++ [Bridge.eventOccurred ClientConnected
            [("clientId", VString x); ("alias", VString a)];
          Bridge.clientConnectedWithAlias x a].
Proof. apply onControlMessageReceived_alias. Qed.

(** ** Frames on their way to the display *)

Section FrameStream.
Import Bridge.

Ltac bridge_simpl :=
  cbv beta iota zeta delta
    [set_clientModel set_lastFrame set_frameId emit set_activeClientMeasuredFps
     m_server m_clientModel m_activeClientId m_lastFrame m_frameId
     m_serverState m_connectionState m_statusMessage m_currentFps
     m_configuredFps m_activeClientMeasuredFps signals negb andb].

Lemma onFrameReceived_other now later x frame b :
  x <> m_activeClientId b ->
  onFrameReceived now later x frame b =
  set_clientModel (Window.recordFrameReceived later x now (m_clientModel b)) b.
Proof.
  intros Hne. unfold onFrameReceived. cbv zeta.
  cbn [set_clientModel m_activeClientId].
  replace (String.eqb x (m_activeClientId b)) with false
    by (symmetry; now apply String.eqb_neq).
  reflexivity.
Qed.

Lemma onFrameReceived_active now later frame b :
  let x := m_activeClientId b in
  let b' := onFrameReceived now later x frame b in
  let idx := ClientModel.indexOfClient x (m_clientModel b') in
  m_activeClientId b' = x /\
  m_clientModel b' =
    Window.recordFrameReceived later x now (m_clientModel b) /\
  m_lastFrame b' = frame /\
  m_frameId b' = Int.incr (m_frameId b) /\
  m_connectionState b' = ReceivingFrames /\
  m_server b' = m_server b /\
  m_activeClientMeasuredFps b' =
    (if 0 <=? idx then ClientModel.measuredFpsAt idx (m_clientModel b')
     else m_activeClientMeasuredFps b).
Proof.
  cbv zeta.
  destruct b as [srv model act lf fid sst cst msg cur conf meas sigs].
  unfold onFrameReceived. bridge_simpl.
  rewrite String.eqb_refl. bridge_simpl.
  unfold setConnectionState, setStatusMessage. bridge_simpl.
  set (model1 := Window.recordFrameReceived later act now model).
  destruct (ConnectionState_eqb cst ReceivingFrames) eqn:C;
    [destruct cst; try discriminate C|];
    bridge_simpl;
    destruct (String.eqb msg "Receiving frames");
    bridge_simpl;
    destruct (0 <=? ClientModel.indexOfClient act model1) eqn:Z0;
    try destruct (ClientModel.measuredFpsAt
                    (ClientModel.indexOfClient act model1) model1 =? meas) eqn:M;
    bridge_simpl; rewrite ?Z0; bridge_simpl;
    repeat split; try reflexivity;
    try (apply Z.eqb_eq in M; symmetry; exact M).
Qed.

Lemma last_cons {A} (y : A) l d : last (y :: l) d = last l y.
Proof.
  revert y d. induction l as [|z r IH]; intros y d; [reflexivity|].
  change (last (y :: z :: r) d) with (last (z :: r) d).
  rewrite IH. symmetry. apply IH.
Qed.

Lemma recordFrameReceived_ids clock x ts m :
  ClientModel.ids (Window.recordFrameReceived clock x ts m) = ClientModel.ids m.
Proof.
  unfold ClientModel.ids. rewrite recordFrameReceived_clients.
  apply map_id_upd_first. intros e. apply record_entry_id.
Qed.

End FrameStream.

(** X12.  Whatever frames arrive, and from whichever sessions, the image
    provider serves the latest frame sent by the active session (the frame
    cached before when it sent none); the frame counter grows by the number
    of frames the active session sent (the counter staying below INT_MAX);
    frames of other sessions leave the cached frame, the counter and
    the bridge's signals alone.  Frames never change the active reference or
    the registry's ids. *)
Theorem provider_serves_latest_active_frame
        (b : Bridge.t) (arrivals : list Stream.Arrival)
        (size : option (Z * Z)) :
  let a := Bridge.m_activeClientId b in
  let n := Z.of_nat (List.length (Stream.from a arrivals)) in
  Int.INT_MIN <= Bridge.m_frameId b ->
  Bridge.m_frameId b + n <= Int.INT_MAX ->
  let b' := Stream.run arrivals b in
  Bridge.m_activeClientId b' = a /\
  ClientModel.ids (Bridge.m_clientModel b') =
    ClientModel.ids (Bridge.m_clientModel b) /\
  fst (QmlImageProvider.requestImage (Some b') size) =
    Stream.latest a arrivals (Bridge.m_lastFrame b) /\
  Bridge.m_frameId b' = Bridge.m_frameId b + n /\
  (n = 0 -> Bridge.signals b' = Bridge.signals b) /\
  (0 < n -> Bridge.m_connectionState b' = Bridge.ReceivingFrames).
Proof.
  cbv zeta. unfold QmlImageProvider.requestImage. cbn [fst].
  revert b. induction arrivals as [|ar rest IH]; intros b Hlo Hhi.
  - cbn. repeat split; try reflexivity; try lia.
  - unfold Stream.run in *. cbn [fold_left].
    set (b1 := Stream.receive b ar).
    unfold Stream.latest, Stream.from in *. cbn [filter] in *.
    destruct (String.eqb (Stream.sender ar) (Bridge.m_activeClientId b)) eqn:E.
    + apply String.eqb_eq in E.
      pose proof (onFrameReceived_active (Stream.now ar) (Stream.later ar)
                    (Stream.image ar) b) as H.
      cbv zeta in H. rewrite <- E in H. fold (Stream.receive b ar) in H.
      fold b1 in H. destruct H as (H1 & H2 & H3 & H4 & H5 & H6 & H7).
      cbn [List.length map] in *.
      assert (Hinc : Bridge.m_frameId b1 = Bridge.m_frameId b + 1).
      { rewrite H4. apply Int_incr_no_overflow.
        unfold Int.INT_MAX, Int.INT_MIN in *. lia. }
      specialize (IH b1). rewrite H1, E in IH. rewrite E in *.
      destruct IH as (I1 & I2 & I3 & I4 & I5 & I6).
      { rewrite Hinc. unfold Int.INT_MIN in *. lia. }
      { rewrite Hinc. lia. }
      split; [exact I1|]. split.
      { rewrite I2, H2. apply recordFrameReceived_ids. }
      split.
      { rewrite I3, H3. symmetry. apply last_cons. }
      split; [rewrite I4, Hinc; lia|].
      split; [intros; lia|].
      intros _.
      destruct (Z.eq_dec
                  (Z.of_nat (List.length
                     (filter (fun a0 => String.eqb (Stream.sender a0)
                                (Bridge.m_activeClientId b)) rest))) 0)
        as [Hz|Hz].
      * clear I6 I3 I4.
        assert (Hnil : filter (fun a0 => String.eqb (Stream.sender a0)
                                (Bridge.m_activeClientId b)) rest = []).
        { destruct (filter _ rest); [reflexivity | simpl in Hz; lia]. }
        clear Hz I5 I1 I2. revert Hnil H5 H1. generalize b1. clear.
        induction rest as [|a2 r IHr]; intros b1 Hnil H5 H1; [exact H5|].
        cbn [fold_left]. cbn [filter] in Hnil.
        destruct (String.eqb (Stream.sender a2) (Bridge.m_activeClientId b))
          eqn:F; [discriminate|].
        apply String.eqb_neq in F. apply IHr; [exact Hnil| |].
        -- unfold Stream.receive. rewrite onFrameReceived_other
             by (rewrite H1; exact F). exact H5.
        -- unfold Stream.receive. rewrite onFrameReceived_other
             by (rewrite H1; exact F). exact H1.
      * apply I6. lia.
    + apply String.eqb_neq in E.
      assert (Hb1 : b1 = Bridge.set_clientModel
                (Window.recordFrameReceived (Stream.later ar) (Stream.sender ar)
                   (Stream.now ar) (Bridge.m_clientModel b)) b)
        by (apply onFrameReceived_other; exact E).
      specialize (IH b1). rewrite Hb1 in IH.
      cbn [Bridge.set_clientModel Bridge.m_activeClientId Bridge.m_frameId
           Bridge.m_lastFrame Bridge.signals Bridge.m_clientModel] in IH.
      rewrite <- Hb1 in IH.
      destruct (IH Hlo Hhi) as (I1 & I2 & I3 & I4 & I5 & I6).
      split; [exact I1|]. split.
      { rewrite I2. apply recordFrameReceived_ids. }
      auto.
Qed.

(** X13.  A frame of a registered session is measured the same way whether
    it arrives through [onFrameReceived] or through the invokable
    [recordFrameReceived]; afterwards the bridge's measured rate equals the
    measured rate of the session's row when the session is the active one,
    and is unchanged otherwise.  [recordFrameReceived] never touches the
    cached frame, the frame counter or the connection state. *)
Theorem measured_rate_follows_active_row
        (b : Bridge.t) (now later : Z) (x : string) (frame : QImage) :
  In x (ClientModel.ids (Bridge.m_clientModel b)) ->
  let b1 := Bridge.onFrameReceived now later x frame b in
  let b2 := ImageServerBridge.recordFrameReceived now later x b in
  let m' := Window.recordFrameReceived later x now (Bridge.m_clientModel b) in
  let measured := ClientModel.measuredFpsAt (ClientModel.indexOfClient x m') m' in
  Bridge.m_clientModel b1 = m' /\
  Bridge.m_clientModel b2 = m' /\
  Bridge.m_activeClientMeasuredFps b1 =
    (if String.eqb x (Bridge.m_activeClientId b) then measured
     else Bridge.m_activeClientMeasuredFps b) /\
  Bridge.m_activeClientMeasuredFps b2 =
    (if String.eqb x (Bridge.m_activeClientId b) then measured
     else Bridge.m_activeClientMeasuredFps b) /\
  Bridge.m_lastFrame b2 = Bridge.m_lastFrame b /\
  Bridge.m_frameId b2 = Bridge.m_frameId b /\
  Bridge.m_connectionState b2 = Bridge.m_connectionState b /\
  Bridge.m_activeClientId b2 = Bridge.m_activeClientId b.
Proof.
  intros Hin b1 b2 m' measured.
  assert (Hidx : 0 <= ClientModel.indexOfClient x m').
  { destruct (indexOfClient_range x m') as [H|H]; [|lia].
    apply indexOfClient_absent in H. unfold m' in H.
    rewrite recordFrameReceived_ids in H. contradiction. }
  assert (Hle : (0 <=? ClientModel.indexOfClient x m') = true)
    by now apply Z.leb_le.
  assert (H2 : Bridge.m_clientModel b2 = m' /\
               Bridge.m_activeClientMeasuredFps b2 =
               (if String.eqb x (Bridge.m_activeClientId b) then measured
                else Bridge.m_activeClientMeasuredFps b) /\
               Bridge.m_lastFrame b2 = Bridge.m_lastFrame b /\
               Bridge.m_frameId b2 = Bridge.m_frameId b /\
               Bridge.m_connectionState b2 = Bridge.m_connectionState b /\
               Bridge.m_activeClientId b2 = Bridge.m_activeClientId b).
  { unfold b2, ImageServerBridge.recordFrameReceived. cbv zeta.
    cbn [Bridge.set_clientModel Bridge.m_clientModel
         Bridge.m_activeClientMeasuredFps Bridge.m_activeClientId].
    fold m'. rewrite Hle. fold measured.
    destruct (measured =? Bridge.m_activeClientMeasuredFps b) eqn:M;
      destruct (String.eqb x (Bridge.m_activeClientId b)) eqn:E;
      cbn [negb andb Bridge.emit Bridge.set_activeClientMeasuredFps
           Bridge.set_clientModel Bridge.m_clientModel
           Bridge.m_activeClientMeasuredFps Bridge.m_activeClientId
           Bridge.m_lastFrame Bridge.m_frameId Bridge.m_connectionState];
      repeat split; try reflexivity.
    apply Z.eqb_eq in M. symmetry. exact M. }
  destruct H2 as (A1 & A2 & A3 & A4 & A5 & A6).
  destruct (String.eqb x (Bridge.m_activeClientId b)) eqn:E.
  - apply String.eqb_eq in E.
    pose proof (onFrameReceived_active now later frame b) as H.
    cbv zeta in H. rewrite <- E in H. fold b1 in H.
    destruct H as (H1 & H2 & H3 & H4 & H5 & H6 & H7).
    rewrite H2 in H7. fold m' in H7, H2. rewrite Hle in H7.
    auto 10.
  - apply String.eqb_neq in E.
    unfold b1. rewrite onFrameReceived_other by exact E.
    cbn [Bridge.set_clientModel Bridge.m_clientModel
         Bridge.m_activeClientMeasuredFps]. fold m'. auto 10.
Qed.

(** ** The running server *)

Section ServingFacts.
Context {ext : Externals}.
Import ClientModel View Registry Bridge Serving.

Lemma mem_In x l : Server.mem x l = true <-> In x l.
Proof.
  induction l as [|y r IH]; simpl; [split; [discriminate | tauto]|].
  destruct (String.eqb y x) eqn:E.
  - apply String.eqb_eq in E. split; auto.
  - apply String.eqb_neq in E. rewrite IH. split; [auto|].
    intros [H|H]; [contradiction | exact H].
Qed.

Lemma ids_keys b : ids (m_clientModel b) = map fst (keys b).
Proof. unfold keys, ids. now rewrite map_fst_key. Qed.

(** [setFps] when the active client is a live session and the message
    serializes: the message is sent, the rate is recorded and FpsApplied is
    reported. *)
Lemma setFps_applied fps b ba :
  m_activeClientId b <> "" ->
  SerializeToString (set_fps_message fps) = Some ba ->
  In (m_activeClientId b) (Server.m_sessions (m_server b)) ->
  setFps fps b =
  emit (eventOccurred FpsApplied
          [("fps", VInt fps); ("client", VString (m_activeClientId b))])
    (set_clientModel
       (setClientConfiguredFps (m_activeClientId b) fps (m_clientModel b))
       (emit (currentFpsChanged fps)
          (set_currentFps fps
             (set_server
                (Server.sendControlMessage (m_activeClientId b) ba (m_server b))
                b)))).
Proof.
  intros Ha Hs Hin. unfold setFps.
  replace (isEmpty (m_activeClientId b)) with false
    by (symmetry; now apply isEmpty_false).
  unfold set_fps_message in Hs. rewrite Hs.
  unfold Server.sendControlToClient.
  replace (Server.mem (m_activeClientId b) (Server.m_sessions (m_server b)))
    with true by (symmetry; now apply mem_In).
  reflexivity.
Qed.

Lemma setFps_sessions fps b :
  Server.m_sessions (m_server (setFps fps b)) = Server.m_sessions (m_server b).
Proof.
  unfold setFps. destruct (isEmpty (m_activeClientId b)); [reflexivity|].
  destruct (SerializeToString _); [|reflexivity].
  unfold Server.sendControlToClient.
  destruct (Server.mem _ _); reflexivity.
Qed.

Lemma setFps_ids fps b :
  ids (m_clientModel (setFps fps b)) = ids (m_clientModel b).
Proof. now rewrite !ids_keys, setFps_keys. Qed.

(** Under the conditions of [setFps_applied] the rate is in force
    afterwards and no failure is reported. *)
Lemma setFps_in_force b :
  SerializeToString (set_fps_message (m_configuredFps b)) <> None ->
  m_activeClientId b <> "" ->
  In (m_activeClientId b) (Server.m_sessions (m_server b)) ->
  let b' := setFps (m_configuredFps b) b in
  rate_in_force b' /\
  Log.fps_failures b' = Log.fps_failures b.
Proof.
  intros Hser Ha Hin b'.
  destruct (SerializeToString (set_fps_message (m_configuredFps b)))
    as [ba|] eqn:S; [|exfalso; now apply Hser].
  unfold b'. rewrite (setFps_applied _ _ ba Ha S Hin).
  split.
  - intros _. cbn. split; [reflexivity|].
    intros e. rewrite setClientConfiguredFps_clients.
    rewrite lookup_upd_first by reflexivity.
    destruct (lookup (m_activeClientId b) (m_clients (m_clientModel b)));
      simpl; [|discriminate].
    intros [= <-]. reflexivity.
  - unfold Log.fps_failures. cbn [emit set_clientModel set_currentFps
      set_server signals].
    rewrite !events_app, !filter_app. cbn. rewrite !app_nil_r. reflexivity.
Qed.

Lemma setClientStatus_ids x st m : ids (setClientStatus x st m) = ids m.
Proof.
  unfold ids. rewrite setClientStatus_clients.
  now apply map_id_upd_first.
Qed.

Lemma lookup_with_status x y st l e :
  lookup x (upd_first y (with_status st) l) = Some e ->
  exists e0, lookup x l = Some e0 /\ configuredFps e = configuredFps e0.
Proof.
  induction l as [|a r IH]; simpl; [discriminate|].
  destruct (String.eqb (id a) y) eqn:E; simpl.
  - destruct (String.eqb (id a) x) eqn:F.
    + intros [= <-]. exists a. split; reflexivity.
    + intros H. exists e. split; [exact H | reflexivity].
  - destruct (String.eqb (id a) x) eqn:F.
    + intros [= <-]. exists a. split; reflexivity.
    + exact IH.
Qed.

(** The bridge at the moment [setActiveClient] applies the rate. *)
Lemma setActiveClient_shape x b :
  m_activeClientId b <> x ->
  exists b3 details,
    setActiveClient x b =
    emit (activeClientChanged x)
      (emit (eventOccurred ClientBecameActive details)
         (setFps (m_configuredFps b) b3)) /\
    m_activeClientId b3 = x /\
    m_server b3 = m_server b /\
    m_configuredFps b3 = m_configuredFps b /\
    m_currentFps b3 = m_currentFps b /\
    signals b3 = signals b /\
    ids (m_clientModel b3) = ids (m_clientModel b).
Proof.
  intros Hne. unfold setActiveClient.
  replace (String.eqb (m_activeClientId b) x) with false
    by (symmetry; now apply String.eqb_neq).
  cbv zeta.
  set (b1 := if negb (isEmpty (m_activeClientId b))
             then set_clientModel
                    (setClientStatus (m_activeClientId b) "Connected"
                       (m_clientModel b)) b
             else b).
  assert (H1 : m_server b1 = m_server b /\
               m_configuredFps b1 = m_configuredFps b /\
               m_currentFps b1 = m_currentFps b /\
               signals b1 = signals b /\
               ids (m_clientModel b1) = ids (m_clientModel b)).
  { unfold b1. destruct (negb (isEmpty (m_activeClientId b))); cbn;
      rewrite ?setClientStatus_ids; auto. }
  destruct H1 as (A1 & A2 & A3 & A4 & A5).
  set (b3 := set_clientModel
               (setClientStatus (m_activeClientId (set_activeClientId x b1))
                  "Active" (m_clientModel (set_activeClientId x b1)))
               (set_activeClientId x b1)).
  assert (H3 : m_activeClientId b3 = x /\
               m_server b3 = m_server b /\
               m_configuredFps b3 = m_configuredFps b /\
               m_currentFps b3 = m_currentFps b /\
               signals b3 = signals b /\
               ids (m_clientModel b3) = ids (m_clientModel b)).
  { unfold b3. cbn [set_activeClientId set_clientModel m_configuredFps
      m_activeClientId m_clientModel m_server m_currentFps signals].
    rewrite setClientStatus_ids. auto 10. }
  exists b3. eexists. split; [|exact H3].
  destruct H3 as (_ & _ & <- & _). reflexivity.
Qed.

Lemma setActiveClient_sessions x b :
  Server.m_sessions (m_server (setActiveClient x b))
  = Server.m_sessions (m_server b).
Proof.
  destruct (String.eqb (m_activeClientId b) x) eqn:E.
  - apply String.eqb_eq in E. now rewrite setActiveClient_same.
  - apply String.eqb_neq in E.
    destruct (setActiveClient_shape x b E) as (b3 & d & -> & _ & Hs & _).
    cbn [emit m_server]. now rewrite setFps_sessions, Hs.
Qed.

Lemma setActiveClient_ids x b :
  ids (m_clientModel (setActiveClient x b)) = ids (m_clientModel b).
Proof.
  destruct (String.eqb (m_activeClientId b) x) eqn:E.
  - apply String.eqb_eq in E. now rewrite setActiveClient_same.
  - apply String.eqb_neq in E.
    destruct (setActiveClient_shape x b E)
      as (b3 & d & -> & _ & _ & _ & _ & _ & Hi).
    cbn [emit m_clientModel]. now rewrite setFps_ids, Hi.
Qed.

Lemma setActiveClient_configured x b :
  m_configuredFps (setActiveClient x b) = m_configuredFps b.
Proof.
  destruct (String.eqb (m_activeClientId b) x) eqn:E.
  - apply String.eqb_eq in E. now rewrite setActiveClient_same.
  - apply String.eqb_neq in E.
    destruct (setActiveClient_shape x b E)
      as (b3 & d & -> & _ & _ & Hc & _).
    cbn [emit m_configuredFps]. now rewrite setFps_configured, Hc.
Qed.

(** Promoting a live session puts the configured rate in force. *)
Lemma setActiveClient_in_force x b :
  SerializeToString (set_fps_message (m_configuredFps b)) <> None ->
  x <> "" -> m_activeClientId b <> x ->
  In x (Server.m_sessions (m_server b)) ->
  let b' := setActiveClient x b in
  rate_in_force b' /\ Log.fps_failures b' = Log.fps_failures b.
Proof.
  intros Hser Hx Hne Hin b'.
  destruct (setActiveClient_shape x b Hne)
    as (b3 & d & Hb & Ha & Hs & Hc & Hcur & Hsig & Hi).
  assert (Hin3 : In (m_activeClientId b3) (Server.m_sessions (m_server b3)))
    by now rewrite Ha, Hs.
  assert (Ha3 : m_activeClientId b3 <> "") by now rewrite Ha.
  assert (Hser3 : SerializeToString (set_fps_message (m_configuredFps b3))
                  <> None) by now rewrite Hc.
  destruct (setFps_in_force b3 Hser3 Ha3 Hin3) as [R F].
  rewrite Hc in R, F. unfold b'. rewrite Hb. split.
  - unfold rate_in_force in *. cbn [emit m_activeClientId m_currentFps
      m_configuredFps m_clientModel]. exact R.
  - unfold Log.fps_failures in *. cbn [emit signals].
    rewrite !events_app, !filter_app. cbn. rewrite !app_nil_r.
    rewrite F, Hsig. reflexivity.
Qed.

Lemma setConnectionState_events s b :
  Log.events (signals (setConnectionState s b)) = Log.events (signals b).
Proof.
  unfold setConnectionState.
  destruct (ConnectionState_eqb (m_connectionState b) s); [reflexivity|].
  cbn [emit signals]. rewrite events_app. cbn. now rewrite app_nil_r.
Qed.

(** The state change and status message of a slot leave the registry, the
    reference, the rates, the sessions and the events alone. *)
Lemma announce_connection c msg b :
  let b' := setStatusMessage msg (setConnectionState c b) in
  m_clientModel b' = m_clientModel b /\
  m_activeClientId b' = m_activeClientId b /\
  m_configuredFps b' = m_configuredFps b /\
  m_currentFps b' = m_currentFps b /\
  m_server b' = m_server b /\
  Log.events (signals b') = Log.events (signals b).
Proof.
  intros b'. unfold b'.
  destruct (setStatusMessage_fields msg (setConnectionState c b))
    as (A1 & A2 & A3 & A4 & _ & A6).
  destruct (setConnectionState_fields c b) as (B1 & B2 & B3 & B4 & _ & B6).
  destruct (setStatusMessage_spec msg (setConnectionState c b))
    as (_ & _ & E & _).
  rewrite A1, A2, A3, A4, A6, E, setConnectionState_events. auto 10.
Qed.

Lemma rate_in_force_same b b' :
  m_activeClientId b' = m_activeClientId b ->
  m_currentFps b' = m_currentFps b ->
  m_configuredFps b' = m_configuredFps b ->
  (forall e, lookup (m_activeClientId b) (m_clients (m_clientModel b')) = Some e ->
     exists e0, lookup (m_activeClientId b) (m_clients (m_clientModel b))
                = Some e0 /\ configuredFps e = configuredFps e0) ->
  rate_in_force b -> rate_in_force b'.
Proof.
  intros Ha Hc Hf Hl R. unfold rate_in_force in *. rewrite Ha, Hc, Hf.
  intros Hne. destruct (R Hne) as [R1 R2]. split; [exact R1|].
  intros e He. destruct (Hl e He) as (e0 & L0 & Heq). rewrite Heq. auto.
Qed.

Lemma fps_failures_same b b' :
  Log.events (signals b') = Log.events (signals b) ->
  Log.fps_failures b' = Log.fps_failures b.
Proof. unfold Log.fps_failures. now intros ->. Qed.

Lemma configuredFpsAt_lookup x m e :
  lookup x (m_clients m) = Some e ->
  configuredFpsAt (indexOfClient x m) m = configuredFps e.
Proof.
  intros L. unfold configuredFpsAt.
  assert (Hne : indexOfClient x m <> -1).
  { intros H. apply indexOfClient_absent in H. apply lookup_absent in H.
    congruence. }
  rewrite at_indexOfClient by exact Hne. now rewrite L.
Qed.

Lemma lookup_present x l :
  In x (map id l) -> exists e, lookup x l = Some e.
Proof.
  intros Hin. destruct (lookup x l) as [e|] eqn:L; [now exists e|].
  apply lookup_absent in L. contradiction.
Qed.

(** Admitting a session that the server has just appended to its table. *)
Lemma onClientConnected_serving x addr b :
  serializes_rates ->
  x <> "" ->
  ~ In x (ids (m_clientModel b)) ->
  inv (m_activeClientId b) (keys b) ->
  Server.m_sessions (m_server b) = ids (m_clientModel b) ++ [x] ->
  rate_in_force b ->
  let b' := onClientConnected x addr b in
  mirrored b' /\ rate_in_force b' /\
  Log.fps_failures b' = Log.fps_failures b /\
  m_configuredFps b' = m_configuredFps b.
Proof.
  intros Hser Hx Hfresh Hinv Hsess Hrate b'.
  unfold b', onClientConnected. cbv zeta.
  set (b1 := set_clientModel (addClient x "Connected" (m_clientModel b)) b).
  assert (Hrows1 : m_clients (m_clientModel b1) =
                   m_clients (m_clientModel b) ++ [newEntry x "Connected"]).
  { unfold b1. cbn [set_clientModel m_clientModel].
    rewrite addClient_clients.
    replace (indexOfClient x (m_clientModel b) =? -1) with true
      by (symmetry; apply Z.eqb_eq; now apply indexOfClient_absent).
    reflexivity. }
  assert (Hids1 : ids (m_clientModel b1) = ids (m_clientModel b) ++ [x]).
  { unfold ids. rewrite Hrows1, map_app. reflexivity. }
  assert (Hcount : (0 <? rowCount (m_clientModel b1)) = true).
  { apply Z.ltb_lt. unfold rowCount, size. rewrite Hrows1, length_app.
    simpl. lia. }
  rewrite Hcount.
  destruct (announce_connection ClientsConnected "Clients connected" b1)
    as (A1 & A2 & A3 & A4 & A5 & A6).
  set (b2 := setStatusMessage "Clients connected"
               (setConnectionState ClientsConnected b1)) in *.
  assert (Hin2 : In x (Server.m_sessions (m_server b2))).
  { rewrite A5. unfold b1. cbn [set_clientModel m_server]. rewrite Hsess.
    apply in_or_app. right. now left. }
  destruct (isEmpty (m_activeClientId b2)) eqn:E.
  - (* the first session becomes the active one *)
    apply isEmpty_true in E.
    assert (Hne : m_activeClientId b2 <> x) by (rewrite E; congruence).
    destruct (setActiveClient_in_force x b2 (Hser _) Hx Hne Hin2) as [R F].
    set (b3 := setActiveClient x b2) in *.
    assert (Ha3 : m_activeClientId b3 = x) by apply setActiveClient_active.
    assert (Hc3 : m_configuredFps b3 = m_configuredFps b).
    { unfold b3. rewrite setActiveClient_configured, A3. reflexivity. }
    assert (Hs3 : Server.m_sessions (m_server b3)
                  = ids (m_clientModel b) ++ [x]).
    { unfold b3. rewrite setActiveClient_sessions, A5. exact Hsess. }
    assert (Hi3 : ids (m_clientModel b3) = ids (m_clientModel b) ++ [x]).
    { unfold b3. rewrite setActiveClient_ids, A1. exact Hids1. }
    assert (Hf3 : Log.fps_failures b3 = Log.fps_failures b).
    { rewrite F. apply fps_failures_same. rewrite A6. reflexivity. }
    rewrite Ha3, String.eqb_refl, Bool.andb_true_r.
    destruct (0 <? m_configuredFps b3) eqn:P.
    + assert (Hin3 : In (m_activeClientId b3) (Server.m_sessions (m_server b3))).
      { rewrite Ha3, Hs3. apply in_or_app. right. now left. }
      assert (Hne3 : m_activeClientId b3 <> "") by now rewrite Ha3.
      destruct (setFps_in_force b3 (Hser _) Hne3 Hin3) as [R4 F4].
      split; [|split; [exact R4|split]].
      * unfold mirrored. now rewrite setFps_sessions, setFps_ids, Hs3, Hi3.
      * now rewrite F4.
      * now rewrite setFps_configured.
    + assert (Hknown : In x (map id (m_clients (m_clientModel b3)))).
      { change (In x (ids (m_clientModel b3))). rewrite Hi3.
        apply in_or_app. right. now left. }
      destruct (lookup_present _ _ Hknown) as [e L].
      assert (Hidx : (0 <=? indexOfClient x (m_clientModel b3)) = true).
      { apply Z.leb_le. pose proof (lookup_known _ _ _ L). lia. }
      rewrite Hidx, (configuredFpsAt_lookup _ _ _ L).
      assert (Hce : configuredFps e = m_configuredFps b3).
      { apply R; [now rewrite Ha3 | now rewrite Ha3]. }
      rewrite Hce, P. cbn [andb].
      split; [|split; [exact R|split; assumption]].
      unfold mirrored. now rewrite Hs3, Hi3.
  - (* another client stays active *)
    apply isEmpty_false in E. rewrite A2 in E.
    assert (Hact : In (m_activeClientId b) (ids (m_clientModel b))).
    { destruct Hinv as (_ & _ & _ & H4 & _). rewrite ids_keys. auto. }
    assert (Hne : String.eqb (m_activeClientId b2) x = false).
    { apply String.eqb_neq. rewrite A2. intros H. apply Hfresh.
      now rewrite <- H. }
    rewrite Hne, !Bool.andb_false_r.
    assert (Hres : (if 0 <=? indexOfClient x (m_clientModel b2) then b2 else b2)
                   = b2) by (destruct (0 <=? _); reflexivity).
    rewrite Hres.
    split; [|split; [|split]].
    + unfold mirrored. rewrite A5, A1. unfold b1.
      cbn [set_clientModel m_server]. fold b1. now rewrite Hsess, Hids1.
    + apply (rate_in_force_same b b2);
        [exact A2 | rewrite A4; reflexivity | rewrite A3; reflexivity | |
         exact Hrate].
      intros e. rewrite A1, Hrows1, lookup_app.
      destruct (lookup_present _ _ Hact) as [e0 L0]. rewrite L0.
      intros [= <-]. exists e0. auto.
    + apply fps_failures_same. rewrite A6. reflexivity.
    + rewrite A3. reflexivity.
Qed.

Lemma remove_first_gone x l :
  NoDup (map id l) -> ~ In x (map id (remove_first x l)).
Proof.
  intros Hnd. rewrite ids_remove_first by exact Hnd.
  rewrite filter_In, String.eqb_refl. simpl. intros [_ H]. discriminate.
Qed.

(** Removing a session that the server has just deleted from its table. *)
Lemma onSessionDisconnected_serving x b :
  serializes_rates ->
  inv (m_activeClientId b) (keys b) ->
  In x (ids (m_clientModel b)) ->
  Server.m_sessions (m_server b)
  = map id (remove_first x (m_clients (m_clientModel b))) ->
  rate_in_force b ->
  let b' := onSessionDisconnected x b in
  mirrored b' /\ rate_in_force b' /\
  Log.fps_failures b' = Log.fps_failures b /\
  m_configuredFps b' = m_configuredFps b.
Proof.
  intros Hser Hinv Hin Hsess Hrate b'.
  destruct Hinv as (Hnd & Hnoempty & Hnone & Hsome & _).
  rewrite <- ids_keys in Hnd, Hnoempty, Hsome.
  unfold b', onSessionDisconnected. cbv zeta.
  set (shown := if isEmpty _ then x else _).
  set (b3 := emit (clientDisconnectedWithAlias x shown)
               (emit (eventOccurred ClientDisconnected
                        [("clientId", VString x); ("alias", VString shown)])
                  (set_clientModel (removeClient x (m_clientModel b)) b))).
  assert (Hrows3 : m_clients (m_clientModel b3)
                   = remove_first x (m_clients (m_clientModel b))).
  { unfold b3. cbn [emit set_clientModel m_clientModel].
    apply removeClient_clients. }
  assert (Hids3 : ids (m_clientModel b3)
                  = map id (remove_first x (m_clients (m_clientModel b))))
    by (unfold ids; now rewrite Hrows3).
  assert (Hev3 : Log.fps_failures b3 = Log.fps_failures b).
  { unfold Log.fps_failures, b3. cbn [emit set_clientModel signals].
    rewrite !events_app, !filter_app. cbn. now rewrite !app_nil_r. }
  assert (Hact3 : m_activeClientId b3 = m_activeClientId b) by reflexivity.
  assert (Hsess3 : Server.m_sessions (m_server b3)
                   = Server.m_sessions (m_server b)) by reflexivity.
  assert (Hconf3 : m_configuredFps b3 = m_configuredFps b) by reflexivity.
  assert (Hcur3 : m_currentFps b3 = m_currentFps b) by reflexivity.
  destruct (rowCount (m_clientModel b3) =? 0) eqn:Z0.
  - (* the registry is empty *)
    destruct (announce_connection NoClients "No clients available"
                (set_activeClientId "" b3))
      as (A1 & A2 & A3 & A4 & A5 & A6).
    set (b6 := setStatusMessage "No clients available"
                 (setConnectionState NoClients (set_activeClientId "" b3)))
      in *.
    split; [|split; [|split]].
    + unfold mirrored. cbn [emit m_server m_clientModel].
      rewrite A5, A1. cbn [set_activeClientId m_server m_clientModel].
      now rewrite Hsess3, Hids3.
    + unfold rate_in_force. cbn [emit m_activeClientId]. rewrite A2.
      cbn. congruence.
    + unfold Log.fps_failures. cbn [emit signals].
      rewrite !events_app, !filter_app. cbn. rewrite !app_nil_r, A6.
      exact Hev3.
    + cbn [emit m_configuredFps]. rewrite A3. reflexivity.
  - apply Z.eqb_neq in Z0.
    destruct (m_clients (m_clientModel b3)) as [|e0 rest] eqn:R3.
    { exfalso. apply Z0. unfold rowCount, size. now rewrite R3. }
    assert (Hnext : clientIdAt 0 (m_clientModel b3) = id e0)
      by (rewrite clientIdAt_0, R3; reflexivity).
    assert (Hin0 : In (id e0) (map id (remove_first x
                                         (m_clients (m_clientModel b))))).
    { rewrite <- Hrows3. now left. }
    destruct (String.eqb (m_activeClientId b3) x) eqn:E.
    + (* the active session left: the first remaining row is promoted *)
      apply String.eqb_eq in E. rewrite Hnext.
      assert (H0x : id e0 <> x).
      { intros H. rewrite H in Hin0.
        exact (remove_first_gone x _ Hnd Hin0). }
      assert (H0e : id e0 <> "").
      { intros H. apply Hnoempty. rewrite H in Hin0.
        eapply In_remove_first. exact Hin0. }
      assert (Hne : m_activeClientId b3 <> id e0) by (rewrite E; congruence).
      assert (Hs0 : In (id e0) (Server.m_sessions (m_server b3)))
        by (rewrite Hsess3, Hsess; exact Hin0).
      destruct (setActiveClient_in_force (id e0) b3 (Hser _) H0e Hne Hs0)
        as [R F].
      split; [|split; [exact R|split]].
      * unfold mirrored.
        now rewrite setActiveClient_sessions, setActiveClient_ids, Hsess3,
          Hids3.
      * now rewrite F.
      * now rewrite setActiveClient_configured.
    + apply String.eqb_neq in E. rewrite Hact3 in E.
      assert (Hne : m_activeClientId b <> "").
      { intros H. specialize (Hnone H). unfold keys in Hnone.
        unfold ids in Hin. destruct (m_clients (m_clientModel b));
          [contradiction | discriminate]. }
      replace (isEmpty (m_activeClientId b3)) with false
        by (symmetry; rewrite Hact3; now apply isEmpty_false).
      cbn [andb].
      split; [|split; [|split]].
      * unfold mirrored. now rewrite Hsess3, Hids3.
      * apply (rate_in_force_same b b3); auto.
        intros e. rewrite R3, Hrows3, lookup_remove_first_other by exact E.
        intros L. exists e. auto.
      * exact Hev3.
      * exact Hconf3.
Qed.

(** *** What no event changes: the configured rate *)

Lemma onClientConnected_configured x addr b :
  m_configuredFps (onClientConnected x addr b) = m_configuredFps b /\
  Server.m_sessions (m_server (onClientConnected x addr b))
  = Server.m_sessions (m_server b).
Proof.
  unfold onClientConnected. cbv zeta.
  set (b1 := set_clientModel (addClient x "Connected" (m_clientModel b)) b).
  set (b2 := if 0 <? rowCount (m_clientModel b1)
             then setStatusMessage "Clients connected"
                    (setConnectionState ClientsConnected b1)
             else b1).
  assert (H2 : m_configuredFps b2 = m_configuredFps b /\
               Server.m_sessions (m_server b2) = Server.m_sessions (m_server b)).
  { unfold b2. destruct (0 <? rowCount (m_clientModel b1)); [|auto].
    destruct (announce_connection ClientsConnected "Clients connected" b1)
      as (_ & _ & A3 & _ & A5 & _). rewrite A3, A5. auto. }
  set (b3 := if isEmpty (m_activeClientId b2) then setActiveClient x b2 else b2).
  assert (H3 : m_configuredFps b3 = m_configuredFps b /\
               Server.m_sessions (m_server b3) = Server.m_sessions (m_server b)).
  { unfold b3. destruct (isEmpty (m_activeClientId b2)); [|exact H2].
    now rewrite setActiveClient_configured, setActiveClient_sessions. }
  repeat match goal with
         | |- context [if ?c then _ else _] => destruct c
         end; rewrite ?setFps_configured, ?setFps_sessions; exact H3.
Qed.

Lemma onSessionDisconnected_configured x b :
  m_configuredFps (onSessionDisconnected x b) = m_configuredFps b /\
  Server.m_sessions (m_server (onSessionDisconnected x b))
  = Server.m_sessions (m_server b).
Proof.
  unfold onSessionDisconnected. cbv zeta.
  set (shown := if isEmpty _ then x else _).
  set (b3 := emit (clientDisconnectedWithAlias x shown) _).
  assert (H3 : m_configuredFps b3 = m_configuredFps b /\
               Server.m_sessions (m_server b3) = Server.m_sessions (m_server b))
    by (split; reflexivity).
  destruct (rowCount (m_clientModel b3) =? 0).
  - cbn [emit m_configuredFps m_server].
    destruct (announce_connection NoClients "No clients available"
                (set_activeClientId "" b3)) as (_ & _ & A3 & _ & A5 & _).
    rewrite A3, A5. exact H3.
  - repeat match goal with
           | |- context [if ?c then _ else _] => destruct c
           end; rewrite ?setActiveClient_configured, ?setActiveClient_sessions;
      exact H3.
Qed.

Lemma onControlMessageReceived_core x ser b :
  let b' := ImageServerBridge.onControlMessageReceived x ser b in
  keys b' = keys b /\
  m_activeClientId b' = m_activeClientId b /\
  m_server b' = m_server b /\
  m_configuredFps b' = m_configuredFps b /\
  m_currentFps b' = m_currentFps b /\
  Log.fps_failures b' = Log.fps_failures b /\
  (forall y e, lookup y (m_clients (m_clientModel b')) = Some e ->
     exists e0, lookup y (m_clients (m_clientModel b)) = Some e0 /\
                configuredFps e = configuredFps e0).
Proof.
  intros b'.
  assert (Hsame : forall y e, lookup y (m_clients (m_clientModel b)) = Some e ->
            exists e0, lookup y (m_clients (m_clientModel b)) = Some e0 /\
                       configuredFps e = configuredFps e0)
    by (intros y e L; exists e; auto).
  unfold b', ImageServerBridge.onControlMessageReceived.
  destruct (ParseFromArray ser) as [msg|]; [|auto 10].
  destruct (Control.type msg); auto 10.
  destruct (negb (isEmpty (Control.alias msg))); [|auto 10].
  cbv zeta.
  set (a := Control.alias msg).
  set (b1 := if negb (String.eqb a _) then _ else b).
  assert (H1 : keys b1 = keys b /\
               m_activeClientId b1 = m_activeClientId b /\
               m_server b1 = m_server b /\
               m_configuredFps b1 = m_configuredFps b /\
               m_currentFps b1 = m_currentFps b /\
               Log.events (signals b1) = Log.events (signals b) /\
               (forall y e, lookup y (m_clients (m_clientModel b1)) = Some e ->
                  exists e0, lookup y (m_clients (m_clientModel b)) = Some e0 /\
                             configuredFps e = configuredFps e0)).
  { unfold b1. destruct (negb (String.eqb a _)); [|auto 10].
    assert (Hk : map key (m_clients (setClientAlias x a (m_clientModel b)))
                 = map key (m_clients (m_clientModel b))).
    { rewrite setClientAlias_clients. now apply key_upd_first_same. }
    assert (Hl : forall y e,
               lookup y (m_clients (setClientAlias x a (m_clientModel b)))
               = Some e ->
               exists e0, lookup y (m_clients (m_clientModel b)) = Some e0 /\
                          configuredFps e = configuredFps e0).
    { intros y e. rewrite setClientAlias_clients.
      destruct (String.eqb y x) eqn:Y.
      - apply String.eqb_eq in Y. subst y.
        rewrite lookup_upd_first by reflexivity.
        destruct (lookup x (m_clients (m_clientModel b))) as [e0|];
          simpl; [|discriminate].
        intros [= <-]. exists e0. auto.
      - apply String.eqb_neq in Y.
        rewrite lookup_upd_first_other by (auto; reflexivity).
        intros L. exists e. auto. }
    cbn [set_clientModel m_activeClientId].
    destruct (String.eqb x (m_activeClientId b)); unfold keys;
      cbn [emit set_clientModel m_clientModel m_activeClientId m_server
           m_configuredFps m_currentFps signals];
      rewrite ?events_app; cbn [Log.events]; rewrite ?app_nil_r; auto 10. }
  destruct H1 as (K & A & S & C & U & E & L).
  unfold keys, Log.fps_failures in *.
  cbn [emit m_clientModel m_activeClientId m_server m_configuredFps
       m_currentFps signals].
  rewrite !events_app, !filter_app, E. cbn. rewrite !app_nil_r. auto 10.
Qed.

Lemma record_entry_key ts e :
  key (fst (Window.record_entry ts e)) = key e /\
  configuredFps (fst (Window.record_entry ts e)) = configuredFps e.
Proof.
  unfold Window.record_entry, Window.init_window. cbv zeta.
  destruct (windowStartMs e =? 0);
    match goal with |- context [if ?c then _ else _] => destruct c end;
    split; reflexivity.
Qed.

Ltac bridge_simpl :=
  cbv beta iota zeta delta
    [set_clientModel set_lastFrame set_frameId emit set_activeClientMeasuredFps
     m_server m_clientModel m_activeClientId m_lastFrame m_frameId
     m_serverState m_connectionState m_statusMessage m_currentFps
     m_configuredFps m_activeClientMeasuredFps signals negb andb].

Lemma onFrameReceived_core now later x frame b :
  let b' := onFrameReceived now later x frame b in
  m_clientModel b' =
    Window.recordFrameReceived later x now (m_clientModel b) /\
  m_activeClientId b' = m_activeClientId b /\
  m_server b' = m_server b /\
  m_configuredFps b' = m_configuredFps b /\
  m_currentFps b' = m_currentFps b /\
  Log.events (signals b') = Log.events (signals b).
Proof.
  cbv zeta.
  destruct b as [srv model act lf fid sst cst msg cur conf meas sigs].
  unfold onFrameReceived. bridge_simpl.
  destruct (String.eqb x act); bridge_simpl; [|auto 10].
  unfold setConnectionState, setStatusMessage. bridge_simpl.
  set (model1 := Window.recordFrameReceived later x now model).
  destruct (ConnectionState_eqb cst ReceivingFrames);
    bridge_simpl;
    destruct (String.eqb msg "Receiving frames");
    bridge_simpl;
    destruct (0 <=? ClientModel.indexOfClient x model1);
    try destruct (ClientModel.measuredFpsAt
                    (ClientModel.indexOfClient x model1) model1 =? meas);
    bridge_simpl;
    rewrite ?events_app; cbn [Log.events]; rewrite ?app_nil_r;
    repeat split; reflexivity.
Qed.

Lemma recordFrameReceived_core clock x ts m :
  map key (m_clients (Window.recordFrameReceived clock x ts m))
  = map key (m_clients m) /\
  (forall y e,
     lookup y (m_clients (Window.recordFrameReceived clock x ts m)) = Some e ->
     exists e0, lookup y (m_clients m) = Some e0 /\
                configuredFps e = configuredFps e0).
Proof.
  rewrite recordFrameReceived_clients. split.
  - apply key_upd_first_same. intros e. apply record_entry_key.
  - intros y e. destruct (String.eqb y x) eqn:Y.
    + apply String.eqb_eq in Y. subst y.
      rewrite lookup_upd_first by (intros; apply record_entry_id).
      destruct (lookup x (m_clients m)) as [e0|]; simpl; [|discriminate].
      intros [= <-]. exists e0. split; [reflexivity|].
      apply record_entry_key.
    + apply String.eqb_neq in Y.
      rewrite lookup_upd_first_other
        by (auto; intros; apply record_entry_id).
      intros L. exists e. auto.
Qed.

(** *** The invariant of the running server *)

Lemma remove_session_ids x l :
  ImageServerBridge.remove_session x (map id l) = map id (remove_first x l).
Proof.
  induction l as [|e r IH]; simpl; [reflexivity|].
  destruct (String.eqb (id e) x); simpl; [reflexivity | now rewrite IH].
Qed.

(** A step that leaves ids, statuses, reference, sessions and rates alone
    keeps the invariant. *)
Lemma good_same b b' :
  keys b' = keys b ->
  m_activeClientId b' = m_activeClientId b ->
  Server.m_sessions (m_server b') = Server.m_sessions (m_server b) ->
  m_configuredFps b' = m_configuredFps b ->
  m_currentFps b' = m_currentFps b ->
  (forall y e, lookup y (m_clients (m_clientModel b')) = Some e ->
     exists e0, lookup y (m_clients (m_clientModel b)) = Some e0 /\
                configuredFps e = configuredFps e0) ->
  inv (m_activeClientId b) (keys b) /\ mirrored b /\ rate_in_force b ->
  inv (m_activeClientId b') (keys b') /\ mirrored b' /\ rate_in_force b'.
Proof.
  intros K A S C U L (I & M & R). rewrite K, A. split; [exact I|]. split.
  - unfold mirrored in *. now rewrite S, M, !ids_keys, K.
  - apply (rate_in_force_same b b'); auto.
Qed.

Lemma dispatch_good now later b e :
  inv (m_activeClientId b) (keys b) /\ mirrored b /\ rate_in_force b ->
  let b' := ImageServerBridge.dispatch now later b e in
  (inv (m_activeClientId b') (keys b') /\ mirrored b' /\ rate_in_force b') /\
  Log.fps_failures b' = Log.fps_failures b /\
  m_configuredFps b' = m_configuredFps b /\
  ids (m_clientModel b') = ids (m_clientModel b).
Proof.
  intros G b'. unfold b'. destruct e as [t|t|x payload|x img];
    cbn [ImageServerBridge.dispatch]; auto.
  - destruct (onControlMessageReceived_core x payload b)
      as (K & A & S & C & U & F & L).
    split; [|split; [exact F|split; [exact C|]]].
    + apply (good_same b); auto. now rewrite S.
    + now rewrite !ids_keys, K.
  - destruct (onFrameReceived_core now later x img b)
      as (M & A & S & C & U & E).
    destruct (recordFrameReceived_core later x now (m_clientModel b))
      as (K & L).
    assert (K' : keys (onFrameReceived now later x img b) = keys b)
      by (unfold keys; rewrite M; exact K).
    split; [|split; [now apply fps_failures_same|split; [exact C|]]].
    + apply (good_same b); auto; [now rewrite S | now rewrite M].
    + now rewrite !ids_keys, K'.
Qed.

Lemma handle_good ev h :
  serializes_rates ->
  (forall sid addr, ev = ImageServerBridge.NewConnection sid addr ->
     sid <> "" /\
     ~ In sid (ids (m_clientModel (ImageServerBridge.bridge h)))) ->
  let b := ImageServerBridge.bridge h in
  inv (m_activeClientId b) (keys b) /\ mirrored b /\ rate_in_force b ->
  let b' := ImageServerBridge.bridge (ImageServerBridge.handle h ev) in
  (inv (m_activeClientId b') (keys b') /\ mirrored b' /\ rate_in_force b') /\
  Log.fps_failures b' = Log.fps_failures b /\
  (forall y, In y (ids (m_clientModel b')) ->
     In y (ids (m_clientModel b)) \/ In y (ImageServerBridge.opened [ev])).
Proof.
  intros Hser Hfresh b G b'. unfold b', b in *. clear b b'.
  destruct G as (I & M & R).
  destruct ev as [sid addr|sid|sid message now later|fps];
    cbn [ImageServerBridge.handle ImageServerBridge.opened].
  - (* a connection is accepted *)
    destruct (Hfresh sid addr eq_refl) as [Hne Hnew].
    unfold ImageServerBridge.onNewConnection.
    destruct (ImageServerBridge.listener h); [|auto 10].
    set (b := ImageServerBridge.bridge h) in *.
    set (b1 := set_server
                 (Server.mk (Server.m_sessions (m_server b) ++ [sid])
                            (Server.sent (m_server b))) b).
    assert (I1 : inv (m_activeClientId b1) (keys b1)) by exact I.
    assert (S1 : Server.m_sessions (m_server b1)
                 = ids (m_clientModel b1) ++ [sid]).
    { unfold b1. cbn [set_server m_server m_clientModel Server.m_sessions].
      now rewrite M. }
    assert (R1 : rate_in_force b1) by exact R.
    destruct (onClientConnected_serving sid addr b1 Hser Hne Hnew I1 S1 R1)
      as (M2 & R2 & F2 & C2).
    pose proof (onClientConnected_inv sid addr b1 Hne I1) as I2.
    destruct (onClientConnected_configured sid addr b1) as [_ S2].
    set (b2 := onClientConnected sid addr b1) in *.
    assert (Hids2 : forall y, In y (ids (m_clientModel b2)) ->
              In y (ids (m_clientModel b)) \/ In y [sid]).
    { intros y. unfold mirrored in M2. rewrite <- M2, S2, S1.
      intros Hy. apply in_app_or in Hy. exact Hy. }
    destruct (SerializeToString _);
      cbn [ImageServerBridge.with_bridge ImageServerBridge.bridge].
    + split; [|split; [exact F2 | exact Hids2]].
      apply (good_same b2); auto. intros y e L. exists e. auto.
    + auto.
  - (* a session's socket has closed *)
    unfold ImageServerBridge.onSessionDisconnected.
    set (b := ImageServerBridge.bridge h) in *.
    destruct (Server.mem sid (Server.m_sessions (m_server b))) eqn:Hm;
      [|auto 10].
    apply mem_In in Hm. rewrite M in Hm.
    cbn [ImageServerBridge.with_bridge ImageServerBridge.bridge].
    set (b1 := set_server _ b).
    assert (I1 : inv (m_activeClientId b1) (keys b1)) by exact I.
    assert (S1 : Server.m_sessions (m_server b1)
                 = map id (remove_first sid (m_clients (m_clientModel b1)))).
    { unfold b1. cbn [set_server m_server m_clientModel Server.m_sessions].
      rewrite M. apply remove_session_ids. }
    assert (R1 : rate_in_force b1) by exact R.
    assert (Hin1 : In sid (ids (m_clientModel b1))) by exact Hm.
    destruct (onSessionDisconnected_serving sid b1 Hser I1 Hin1 S1 R1)
      as (M2 & R2 & F2 & C2).
    pose proof (onSessionDisconnected_inv sid b1 I1) as I2.
    destruct (onSessionDisconnected_configured sid b1) as [_ S2].
    split; [auto|]. split; [exact F2|].
    intros y. unfold mirrored in M2. rewrite <- M2, S2, S1.
    intros Hy. left. eapply In_remove_first. exact Hy.
  - (* a binary message arrives *)
    unfold ImageServerBridge.onBinaryMessage.
    cbn [ImageServerBridge.with_bridge ImageServerBridge.bridge].
    set (b := ImageServerBridge.bridge h) in *.
    assert (G : inv (m_activeClientId b) (keys b) /\ mirrored b /\
                rate_in_force b) by auto.
    clear I M R Hfresh. revert G. generalize b.
    induction (Session.onBinaryMessageReceived sid message) as [|e r IH];
      intros b0 G; cbn [fold_left]; [auto 10|].
    destruct (dispatch_good now later b0 e G) as (G1 & F1 & _ & I1).
    destruct (IH _ G1) as (G2 & F2 & I2).
    split; [exact G2|]. split; [now rewrite F2|].
    intros y Hy. destruct (I2 y Hy) as [H|H]; [|contradiction H].
    left. now rewrite <- I1.
  - (* the configured rate is changed *)
    unfold ImageServerBridge.setConfiguredFps.
    set (b := ImageServerBridge.bridge h) in *.
    destruct (m_configuredFps b =? fps); [auto 10|].
    cbv zeta. cbn [ImageServerBridge.with_bridge ImageServerBridge.bridge].
    set (b3 := emit (configuredFpsChanged _) _).
    assert (H3 : keys b3 = keys b /\ m_activeClientId b3 = m_activeClientId b /\
                 m_server b3 = m_server b /\
                 Log.fps_failures b3 = Log.fps_failures b /\
                 m_clientModel b3 = m_clientModel b).
    { unfold b3, keys, Log.fps_failures.
      cbn [emit ImageServerBridge.set_configuredFps m_clientModel
           m_activeClientId m_server signals].
      rewrite events_app, filter_app. cbn. rewrite !app_nil_r. auto 10. }
    destruct H3 as (K3 & A3 & S3 & F3 & M3).
    destruct (isEmpty (m_activeClientId b3)) eqn:E; cbn [negb].
    + apply isEmpty_true in E.
      split; [|split; [exact F3|]].
      * rewrite K3, A3. split; [exact I|]. split.
        -- unfold mirrored. now rewrite S3, M3.
        -- unfold rate_in_force. congruence.
      * intros y. rewrite M3. auto.
    + apply isEmpty_false in E.
      assert (Hin : In (m_activeClientId b3) (Server.m_sessions (m_server b3))).
      { rewrite S3, A3, M. rewrite ids_keys.
        destruct I as (_ & _ & _ & H4 & _). apply H4. now rewrite <- A3. }
      destruct (setFps_in_force b3 (Hser _) E Hin) as [R4 F4].
      split; [|split].
      * rewrite setFps_keys, setFps_active, K3, A3.
        split; [exact I|]. split; [|exact R4].
        unfold mirrored. now rewrite setFps_sessions, setFps_ids, S3, M3.
      * now rewrite F4.
      * intros y. rewrite setFps_ids, M3. auto.
Qed.

Lemma vacant_good h :
  vacant h ->
  let b := ImageServerBridge.bridge h in
  inv (m_activeClientId b) (keys b) /\ mirrored b /\ rate_in_force b.
Proof.
  intros (Hr & Hs & Ha) b. fold b in Hr, Hs, Ha.
  unfold keys, mirrored, rate_in_force, ids. rewrite Hr, Hs, Ha. cbn.
  split; [|split; [reflexivity | congruence]].
  unfold inv. cbn. repeat split; try constructor; try tauto; try congruence.
Qed.

Lemma serve_good evs : forall h,
  serializes_rates ->
  NoDup (ImageServerBridge.opened evs) ->
  ~ In "" (ImageServerBridge.opened evs) ->
  (forall x, In x (ids (m_clientModel (ImageServerBridge.bridge h))) ->
             ~ In x (ImageServerBridge.opened evs)) ->
  let b := ImageServerBridge.bridge h in
  inv (m_activeClientId b) (keys b) /\ mirrored b /\ rate_in_force b ->
  let b' := ImageServerBridge.bridge (ImageServerBridge.serve evs h) in
  (inv (m_activeClientId b') (keys b') /\ mirrored b' /\ rate_in_force b') /\
  Log.fps_failures b' = Log.fps_failures b.
Proof.
  induction evs as [|ev r IH]; intros h Hser Hnd Hne Hfresh b G b';
    unfold b', b in *; clear b b'; [cbn; auto|].
  unfold ImageServerBridge.serve in *. cbn [fold_left].
  assert (Hfr : forall sid addr, ev = ImageServerBridge.NewConnection sid addr ->
            sid <> "" /\
            ~ In sid (ids (m_clientModel (ImageServerBridge.bridge h)))).
  { intros sid addr ->. cbn [ImageServerBridge.opened] in *. split.
    - intros ->. apply Hne. now left.
    - intros H. apply (Hfresh sid H). now left. }
  destruct (handle_good ev h Hser Hfr G) as (G1 & F1 & I1).
  assert (Hnd' : NoDup (ImageServerBridge.opened r)).
  { destruct ev; cbn [ImageServerBridge.opened] in Hnd; auto.
    now inversion Hnd. }
  assert (Hne' : ~ In "" (ImageServerBridge.opened r)).
  { destruct ev; cbn [ImageServerBridge.opened] in Hne; auto.
    intros H. apply Hne. now right. }
  assert (Hfresh' : forall x,
            In x (ids (m_clientModel
                         (ImageServerBridge.bridge
                            (ImageServerBridge.handle h ev)))) ->
            ~ In x (ImageServerBridge.opened r)).
  { intros x Hx. destruct (I1 x Hx) as [H|H].
    - specialize (Hfresh x H). destruct ev;
        cbn [ImageServerBridge.opened] in Hfresh; auto.
      intros H'. apply Hfresh. now right.
    - destruct ev; cbn [ImageServerBridge.opened] in H, Hnd;
        try contradiction.
      destruct H as [<-|[]]. now inversion Hnd. }
  destruct (IH _ Hser Hnd' Hne' Hfresh' G1) as (G2 & F2).
  split; [exact G2|]. now rewrite F2.
Qed.

End ServingFacts.

Section ServingTheorems.
Context {ext : Externals}.
Import ClientModel View Registry Bridge Serving.

Lemma onClientConnected_ids x addr b :
  ids (m_clientModel (onClientConnected x addr b))
  = ids (addClient x "Connected" (m_clientModel b)).
Proof.
  unfold onClientConnected. cbv zeta.
  set (b1 := set_clientModel (addClient x "Connected" (m_clientModel b)) b).
  set (b2 := if 0 <? rowCount (m_clientModel b1)
             then setStatusMessage "Clients connected"
                    (setConnectionState ClientsConnected b1)
             else b1).
  assert (H2 : ids (m_clientModel b2)
               = ids (addClient x "Connected" (m_clientModel b))).
  { unfold b2. destruct (0 <? rowCount (m_clientModel b1)); [|reflexivity].
    destruct (announce_connection ClientsConnected "Clients connected" b1)
      as (A1 & _). now rewrite A1. }
  set (b3 := if isEmpty (m_activeClientId b2) then setActiveClient x b2 else b2).
  assert (H3 : ids (m_clientModel b3)
               = ids (addClient x "Connected" (m_clientModel b))).
  { unfold b3. destruct (isEmpty (m_activeClientId b2)); [|exact H2].
    now rewrite setActiveClient_ids. }
  repeat match goal with
         | |- context [if ?c then _ else _] => destruct c
         end; rewrite ?setFps_ids; exact H3.
Qed.

Lemma onSessionDisconnected_ids x b :
  ids (m_clientModel (onSessionDisconnected x b))
  = map id (remove_first x (m_clients (m_clientModel b))).
Proof.
  unfold onSessionDisconnected. cbv zeta.
  set (shown := if isEmpty _ then x else _).
  set (b3 := emit (clientDisconnectedWithAlias x shown) _).
  assert (H3 : ids (m_clientModel b3)
               = map id (remove_first x (m_clients (m_clientModel b)))).
  { unfold b3, ids. cbn [emit set_clientModel m_clientModel].
    now rewrite removeClient_clients. }
  destruct (rowCount (m_clientModel b3) =? 0).
  - cbn [emit m_clientModel].
    destruct (announce_connection NoClients "No clients available"
                (set_activeClientId "" b3)) as (A1 & _).
    rewrite A1. exact H3.
  - repeat match goal with
           | |- context [if ?c then _ else _] => destruct c
           end; rewrite ?setActiveClient_ids; exact H3.
Qed.

Lemma dispatch_ids now later b e :
  ids (m_clientModel (ImageServerBridge.dispatch now later b e))
  = ids (m_clientModel b) /\
  Server.m_sessions (m_server (ImageServerBridge.dispatch now later b e))
  = Server.m_sessions (m_server b) /\
  keys (ImageServerBridge.dispatch now later b e) = keys b /\
  m_activeClientId (ImageServerBridge.dispatch now later b e)
  = m_activeClientId b /\
  m_configuredFps (ImageServerBridge.dispatch now later b e)
  = m_configuredFps b.
Proof.
  destruct e as [t|t|x payload|x img]; cbn [ImageServerBridge.dispatch];
    auto.
  - destruct (onControlMessageReceived_core x payload b)
      as (K & A & S & C & _).
    rewrite !ids_keys, K, S. auto.
  - destruct (onFrameReceived_core now later x img b)
      as (M & A & S & C & _).
    destruct (recordFrameReceived_core later x now (m_clientModel b))
      as (K & _).
    assert (K' : keys (onFrameReceived now later x img b) = keys b)
      by (unfold keys; rewrite M; exact K).
    rewrite !ids_keys, K', S. auto.
Qed.

Lemma fold_dispatch now later effects : forall b,
  let b' := fold_left (ImageServerBridge.dispatch now later) effects b in
  ids (m_clientModel b') = ids (m_clientModel b) /\
  Server.m_sessions (m_server b') = Server.m_sessions (m_server b) /\
  keys b' = keys b /\
  m_activeClientId b' = m_activeClientId b /\
  m_configuredFps b' = m_configuredFps b.
Proof.
  induction effects as [|e r IH]; intros b; cbn [fold_left]; [auto 10|].
  destruct (dispatch_ids now later b e) as (A1 & A2 & A3 & A4 & A5).
  destruct (IH (ImageServerBridge.dispatch now later b e))
    as (B1 & B2 & B3 & B4 & B5).
  cbv zeta. rewrite B1, B2, B3, B4, B5. auto 10.
Qed.

(** Every event leaves the configured rate alone, except [ConfigureFps],
    which sets it; the stored rate follows. *)
Lemma handle_configured ev h :
  let h' := ImageServerBridge.handle h ev in
  let stored s := match s with Some v => v | None => 0 end in
  m_configuredFps (ImageServerBridge.bridge h')
  = Log.last_configured [ev] (m_configuredFps (ImageServerBridge.bridge h)) /\
  (stored (ImageServerBridge.settings h)
   = m_configuredFps (ImageServerBridge.bridge h) ->
   stored (ImageServerBridge.settings h')
   = m_configuredFps (ImageServerBridge.bridge h')).
Proof.
  cbv zeta.
  destruct ev as [sid addr|sid|sid message now later|fps];
    cbn [ImageServerBridge.handle Log.last_configured].
  - unfold ImageServerBridge.onNewConnection.
    destruct (ImageServerBridge.listener h); [|auto].
    destruct (SerializeToString _);
      cbn [ImageServerBridge.with_bridge ImageServerBridge.bridge
           ImageServerBridge.settings set_server m_configuredFps];
      destruct (onClientConnected_configured sid addr
                  (set_server
                     (Server.mk
                        (Server.m_sessions
                           (m_server (ImageServerBridge.bridge h)) ++ [sid])
                        (Server.sent (m_server (ImageServerBridge.bridge h))))
                     (ImageServerBridge.bridge h))) as [-> _];
      cbn [set_server m_configuredFps]; auto.
  - unfold ImageServerBridge.onSessionDisconnected.
    destruct (Server.mem _ _); [|auto].
    cbn [ImageServerBridge.with_bridge ImageServerBridge.bridge
         ImageServerBridge.settings].
    match goal with
    | |- context [Bridge.onSessionDisconnected sid ?b1] =>
        destruct (onSessionDisconnected_configured sid b1) as [-> _]
    end.
    cbn [set_server m_configuredFps]. auto.
  - unfold ImageServerBridge.onBinaryMessage.
    cbn [ImageServerBridge.with_bridge ImageServerBridge.bridge
         ImageServerBridge.settings].
    destruct (fold_dispatch now later
                (Session.onBinaryMessageReceived sid message)
                (ImageServerBridge.bridge h)) as (_ & _ & _ & _ & ->).
    auto.
  - unfold ImageServerBridge.setConfiguredFps.
    destruct (m_configuredFps (ImageServerBridge.bridge h) =? fps) eqn:E.
    + apply Z.eqb_eq in E. auto.
    + cbv zeta. cbn [ImageServerBridge.with_bridge ImageServerBridge.bridge
                     ImageServerBridge.settings].
      match goal with
      | |- context [if ?c then _ else _] => destruct c
      end; rewrite ?setFps_configured; cbn; auto.
Qed.

Lemma last_configured_app a r fps :
  Log.last_configured (a ++ r) fps
  = Log.last_configured r (Log.last_configured a fps).
Proof.
  revert fps. induction a as [|ev a IH]; intros fps; [reflexivity|].
  destruct ev; cbn; apply IH.
Qed.

End ServingTheorems.

(** X14.  The configured rate survives the process: whatever events a host
    constructed from a settings store handles, a new host constructed from
    the store it leaves behind starts with the same configured rate, which is
    the rate of the last change (the stored one, else 0, when there was
    none). *)
Theorem configured_rate_persists {ext : Externals}
        (store : option Z) (evs : list ImageServerBridge.Event) :
  let h := ImageServerBridge.serve evs (ImageServerBridge.construct store) in
  ImageServerBridge.configuredFps
    (ImageServerBridge.construct (ImageServerBridge.settings h))
  = ImageServerBridge.configuredFps h /\
  ImageServerBridge.configuredFps h
  = Log.last_configured evs (match store with Some v => v | None => 0 end).
Proof.
  cbv zeta.
  set (stored := fun s : option Z => match s with Some v => v | None => 0 end).
  assert (H : forall evs h,
             stored (ImageServerBridge.settings h)
             = Bridge.m_configuredFps (ImageServerBridge.bridge h) ->
             let h' := ImageServerBridge.serve evs h in
             stored (ImageServerBridge.settings h')
             = Bridge.m_configuredFps (ImageServerBridge.bridge h') /\
             Bridge.m_configuredFps (ImageServerBridge.bridge h')
             = Log.last_configured evs
                 (Bridge.m_configuredFps (ImageServerBridge.bridge h))).
  { clear. intros evs. induction evs as [|ev r IH]; intros h Hs; [cbn; auto|].
    unfold ImageServerBridge.serve in *. cbn [fold_left].
    destruct (handle_configured ev h) as [C S]. specialize (S Hs).
    destruct (IH _ S) as [I1 I2]. cbv zeta in *. split; [exact I1|].
    rewrite I2, C. change (ev :: r) with ([ev] ++ r).
    now rewrite last_configured_app. }
  destruct (H evs (ImageServerBridge.construct store) eq_refl) as [H1 H2].
  cbv zeta in *. split.
  - unfold ImageServerBridge.configuredFps at 1.
    unfold ImageServerBridge.construct at 1.
    cbn [ImageServerBridge.bridge Bridge.init Bridge.m_configuredFps].
    exact H1.
  - exact H2.
Qed.

Section ServingInvariants.
Context {ext : Externals}.
Import ClientModel View Registry Bridge Serving.

Lemma handle_mirrored ev h :
  (forall sid addr, ev = ImageServerBridge.NewConnection sid addr ->
     ~ In sid (ids (m_clientModel (ImageServerBridge.bridge h)))) ->
  mirrored (ImageServerBridge.bridge h) ->
  let b' := ImageServerBridge.bridge (ImageServerBridge.handle h ev) in
  mirrored b' /\
  (forall y, In y (ids (m_clientModel b')) ->
     In y (ids (m_clientModel (ImageServerBridge.bridge h))) \/
     In y (ImageServerBridge.opened [ev])).
Proof.
  intros Hfresh M. cbv zeta. unfold mirrored in *.
  destruct ev as [sid addr|sid|sid message now later|fps];
    cbn [ImageServerBridge.handle ImageServerBridge.opened].
  - specialize (Hfresh sid addr eq_refl).
    unfold ImageServerBridge.onNewConnection.
    destruct (ImageServerBridge.listener h); [|auto].
    set (b := ImageServerBridge.bridge h) in *.
    set (b1 := set_server
                 (Server.mk (Server.m_sessions (m_server b) ++ [sid])
                            (Server.sent (m_server b))) b).
    destruct (onClientConnected_configured sid addr b1) as [_ S2].
    pose proof (onClientConnected_ids sid addr b1) as I2.
    assert (Hadd : ids (addClient sid "Connected" (m_clientModel b1))
                   = ids (m_clientModel b) ++ [sid]).
    { unfold ids. rewrite addClient_clients.
      replace (indexOfClient sid (m_clientModel b1) =? -1) with true
        by (symmetry; apply Z.eqb_eq; now apply indexOfClient_absent).
      now rewrite map_app. }
    rewrite Hadd in I2.
    assert (S1 : Server.m_sessions (m_server b1)
                 = ids (m_clientModel b) ++ [sid]).
    { unfold b1. cbn [set_server m_server Server.m_sessions]. now rewrite M. }
    destruct (SerializeToString _);
      cbn [ImageServerBridge.with_bridge ImageServerBridge.bridge
           set_server m_server m_clientModel Server.sendControlMessage
           Server.m_sessions];
      rewrite S2, I2, S1; split; auto; intros y Hy; now apply in_app_or.
  - unfold ImageServerBridge.onSessionDisconnected.
    set (b := ImageServerBridge.bridge h) in *.
    destruct (Server.mem sid (Server.m_sessions (m_server b))); [|auto].
    cbn [ImageServerBridge.with_bridge ImageServerBridge.bridge].
    set (b1 := set_server _ b).
    destruct (onSessionDisconnected_configured sid b1) as [_ S2].
    rewrite S2, onSessionDisconnected_ids.
    unfold b1. cbn [set_server m_server m_clientModel Server.m_sessions].
    rewrite M. split; [apply remove_session_ids|].
    intros y Hy. left. eapply In_remove_first. exact Hy.
  - unfold ImageServerBridge.onBinaryMessage.
    cbn [ImageServerBridge.with_bridge ImageServerBridge.bridge].
    destruct (fold_dispatch now later
                (Session.onBinaryMessageReceived sid message)
                (ImageServerBridge.bridge h)) as (A1 & A2 & _).
    cbv zeta in *. rewrite A1, A2. auto.
  - unfold ImageServerBridge.setConfiguredFps.
    destruct (m_configuredFps (ImageServerBridge.bridge h) =? fps); [auto|].
    cbv zeta. cbn [ImageServerBridge.with_bridge ImageServerBridge.bridge].
    match goal with
    | |- context [if ?c then _ else _] => destruct c
    end; rewrite ?setFps_sessions, ?setFps_ids; cbn; auto.
Qed.

Lemma handle_inv ev h :
  (forall sid addr, ev = ImageServerBridge.NewConnection sid addr -> sid <> "") ->
  let b := ImageServerBridge.bridge h in
  inv (m_activeClientId b) (keys b) ->
  let b' := ImageServerBridge.bridge (ImageServerBridge.handle h ev) in
  inv (m_activeClientId b') (keys b').
Proof.
  intros Hne b I. unfold b in *. clear b. cbv zeta.
  destruct ev as [sid addr|sid|sid message now later|fps];
    cbn [ImageServerBridge.handle].
  - specialize (Hne sid addr eq_refl).
    unfold ImageServerBridge.onNewConnection.
    destruct (ImageServerBridge.listener h); [|exact I].
    destruct (SerializeToString _);
      cbn [ImageServerBridge.with_bridge ImageServerBridge.bridge];
      apply (onClientConnected_inv sid addr _ Hne); exact I.
  - unfold ImageServerBridge.onSessionDisconnected.
    destruct (Server.mem _ _); [|exact I].
    cbn [ImageServerBridge.with_bridge ImageServerBridge.bridge].
    apply onSessionDisconnected_inv. exact I.
  - unfold ImageServerBridge.onBinaryMessage.
    cbn [ImageServerBridge.with_bridge ImageServerBridge.bridge].
    destruct (fold_dispatch now later
                (Session.onBinaryMessageReceived sid message)
                (ImageServerBridge.bridge h)) as (_ & _ & K & A & _).
    cbv zeta in *. now rewrite K, A.
  - unfold ImageServerBridge.setConfiguredFps.
    destruct (m_configuredFps (ImageServerBridge.bridge h) =? fps); [exact I|].
    cbv zeta. cbn [ImageServerBridge.with_bridge ImageServerBridge.bridge].
    match goal with
    | |- context [if ?c then _ else _] => destruct c
    end; rewrite ?setFps_keys, ?setFps_active; exact I.
Qed.

End ServingInvariants.

(** X15.  The server's session table and the registry stay in step: if they
    list the same ids in the same order, and the sessions opened afterwards
    draw ids that are new and pairwise distinct, then after any sequence of
    connections, disconnections, binary messages and rate changes they
    still list the same ids in the same order. *)
Theorem sessions_mirror_registry {ext : Externals}
        (h : ImageServerBridge.t) (evs : list ImageServerBridge.Event) :
  Serving.mirrored (ImageServerBridge.bridge h) ->
  NoDup (ImageServerBridge.opened evs) ->
  (forall x, In x (ClientModel.ids
                     (Bridge.m_clientModel (ImageServerBridge.bridge h))) ->
             ~ In x (ImageServerBridge.opened evs)) ->
  Serving.mirrored (ImageServerBridge.bridge (ImageServerBridge.serve evs h)).
Proof.
  revert h. induction evs as [|ev r IH]; intros h M Hnd Hfresh; [exact M|].
  unfold ImageServerBridge.serve in *. cbn [fold_left].
  assert (Hfr : forall sid addr, ev = ImageServerBridge.NewConnection sid addr ->
            ~ In sid (ClientModel.ids
                        (Bridge.m_clientModel (ImageServerBridge.bridge h)))).
  { intros sid addr -> H. apply (Hfresh sid H). now left. }
  destruct (handle_mirrored ev h Hfr M) as [M1 I1].
  apply IH; [exact M1 | |].
  - destruct ev; cbn [ImageServerBridge.opened] in Hnd; auto.
    now inversion Hnd.
  - intros x Hx. destruct (I1 x Hx) as [H|H].
    + specialize (Hfresh x H). destruct ev;
        cbn [ImageServerBridge.opened] in Hfresh; auto.
      intros H'. apply Hfresh. now right.
    + destruct ev; cbn [ImageServerBridge.opened] in H, Hnd;
        try contradiction.
      destruct H as [<-|[]]. now inversion Hnd.
Qed.

(** X16.  The rate the active client has been told is the configured one.
    For a host that starts without sessions, when session ids are non-empty
    and pairwise distinct and SET_FPS messages serialize: after any sequence
    of connections, disconnections, binary messages and rate changes, if a
    client is active then the current rate equals the configured rate and so
    does the configured rate recorded in the active client's row; and
    applying a rate has never failed (no FpsFailedNoClient or FpsSendError
    was reported). *)
Theorem configured_rate_in_force {ext : Externals}
        (h : ImageServerBridge.t) (evs : list ImageServerBridge.Event) :
  Serving.vacant h ->
  Serving.serializes_rates ->
  NoDup (ImageServerBridge.opened evs) ->
  ~ In "" (ImageServerBridge.opened evs) ->
  let b := ImageServerBridge.bridge (ImageServerBridge.serve evs h) in
  let m := Bridge.m_clientModel b in
  (Bridge.m_activeClientId b <> "" ->
   Bridge.m_currentFps b = Bridge.m_configuredFps b /\
   ClientModel.configuredFpsAt
     (ClientModel.indexOfClient (Bridge.m_activeClientId b) m) m
   = Bridge.m_configuredFps b) /\
  Log.fps_failures b = Log.fps_failures (ImageServerBridge.bridge h).
Proof.
  intros Hv Hser Hnd Hne b m.
  assert (Hfresh : forall x,
            In x (ClientModel.ids
                    (Bridge.m_clientModel (ImageServerBridge.bridge h))) ->
            ~ In x (ImageServerBridge.opened evs)).
  { destruct Hv as (Hr & _). unfold ClientModel.ids. rewrite Hr.
    intros x []. }
  destruct (serve_good evs h Hser Hnd Hne Hfresh (vacant_good h Hv))
    as ((I & M & R) & F).
  fold b in I, M, R, F. split; [|exact F].
  intros Ha. destruct (R Ha) as [R1 R2]. split; [exact R1|].
  destruct I as (_ & _ & _ & H4 & _). specialize (H4 Ha).
  rewrite <- ids_keys in H4.
  destruct (lookup_present _ _ H4) as [e L].
  unfold m. rewrite (configuredFpsAt_lookup _ _ _ L). now apply R2.
Qed.

(** X17.  The active-reference invariant survives every event of the running
    server, not only admissions and removals: for a host that starts without
    sessions, when session ids are non-empty, after any sequence of
    connections, disconnections, binary messages (control messages and
    frames) and rate changes the reference is empty exactly when the
    registry is, and otherwise names a row, which is the only row whose
    status is "Active". *)
Theorem active_reference_survives_all_events {ext : Externals}
        (h : ImageServerBridge.t) (evs : list ImageServerBridge.Event) :
  Serving.vacant h ->
  ~ In "" (ImageServerBridge.opened evs) ->
  Registry.active_reference_ok
    (ImageServerBridge.bridge (ImageServerBridge.serve evs h)).
Proof.
  intros Hv Hne. apply inv_active_reference_ok.
  destruct (vacant_good h Hv) as (I & _). clear Hv. revert h I Hne.
  induction evs as [|ev r IH]; intros h I Hne; [exact I|].
  unfold ImageServerBridge.serve in *. cbn [fold_left].
  apply IH.
  - apply handle_inv; [|exact I].
    intros sid addr -> ->. apply Hne. now left.
  - destruct ev; cbn [ImageServerBridge.opened] in Hne; auto.
    intros H. apply Hne. now right.
Qed.

(** ** What a new session is sent *)

Section Greeting.
Context {ext : Externals}.
Import ClientModel View Registry Bridge Serving.

Lemma setConnectionState_state c msg b :
  m_connectionState (setStatusMessage msg (setConnectionState c b)) = c.
Proof.
  unfold setStatusMessage, setConnectionState.
  destruct (ConnectionState_eqb (m_connectionState b) c) eqn:E.
  - assert (m_connectionState b = c)
      by (destruct (m_connectionState b), c; simpl in E;
          reflexivity || discriminate).
    destruct (String.eqb (m_statusMessage b) msg); cbn; assumption.
  - cbn. destruct (String.eqb (m_statusMessage b) msg); reflexivity.
Qed.

Lemma setActiveClient_applied x b ba :
  x <> "" -> m_activeClientId b <> x ->
  In x (Server.m_sessions (m_server b)) ->
  SerializeToString (set_fps_message (m_configuredFps b)) = Some ba ->
  let b' := setActiveClient x b in
  m_server b' = Server.sendControlMessage x ba (m_server b) /\
  m_currentFps b' = m_configuredFps b /\
  m_activeClientId b' = x.
Proof.
  intros Hx Hne Hin Hs b'.
  destruct (setActiveClient_shape x b Hne)
    as (b3 & d & Hb & Ha & Hsrv & Hc & Hcur & Hsig & Hi).
  unfold b'. rewrite Hb. cbn [emit m_server m_currentFps m_activeClientId].
  assert (Ha3 : m_activeClientId b3 <> "") by now rewrite Ha.
  assert (Hin3 : In (m_activeClientId b3) (Server.m_sessions (m_server b3)))
    by now rewrite Ha, Hsrv.
  rewrite (setFps_applied _ b3 ba Ha3 Hs Hin3).
  cbn [emit set_clientModel set_currentFps set_server m_server m_currentFps
       m_activeClientId]. rewrite Ha, Hsrv. auto.
Qed.

End Greeting.

(** X18.  While a client is active, a new connection changes nothing for
    it: the session is appended to the session table and to the registry
    with status "Connected", the only message sent is the alias request to
    the newcomer, and the active reference and the current rate stay as they
    were.  The connection state is (re)set to ClientsConnected. *)
Theorem later_session_is_only_asked_for_alias {ext : Externals}
        (h : ImageServerBridge.t) (sid addr : string) (ba : bytes) (p : Z) :
  let b := ImageServerBridge.bridge h in
  ImageServerBridge.listener h = Some p ->
  Bridge.m_activeClientId b <> "" ->
  In (Bridge.m_activeClientId b) (ClientModel.ids (Bridge.m_clientModel b)) ->
  ~ In sid (ClientModel.ids (Bridge.m_clientModel b)) ->
  SerializeToString Serving.alias_request = Some ba ->
  let b' := ImageServerBridge.bridge
              (ImageServerBridge.onNewConnection (Some (sid, addr)) h) in
  Server.sent (Bridge.m_server b')
    = Server.sent (Bridge.m_server b) ++ [(sid, x01 :: ba)] /\
  Server.m_sessions (Bridge.m_server b')
    = Server.m_sessions (Bridge.m_server b) ++ [sid] /\
  ClientModel.m_clients (Bridge.m_clientModel b')
    = ClientModel.m_clients (Bridge.m_clientModel b)
        ++ [ClientModel.newEntry sid "Connected"] /\
  Bridge.m_activeClientId b' = Bridge.m_activeClientId b /\
  Bridge.m_currentFps b' = Bridge.m_currentFps b /\
  Bridge.m_connectionState b' = Bridge.ClientsConnected.
Proof.
  intros b Hl Ha Hin Hfresh Hser b'.
  unfold b', ImageServerBridge.onNewConnection. rewrite Hl. fold b.
  unfold Serving.alias_request in Hser. rewrite Hser.
  cbn [ImageServerBridge.with_bridge ImageServerBridge.bridge].
  set (b1 := Bridge.set_server _ b).
  unfold Bridge.onClientConnected. cbv zeta.
  set (c1 := Bridge.set_clientModel _ b1).
  assert (Hrows1 : ClientModel.m_clients (Bridge.m_clientModel c1) =
                   ClientModel.m_clients (Bridge.m_clientModel b)
                     ++ [ClientModel.newEntry sid "Connected"]).
  { unfold c1. cbn [Bridge.set_clientModel Bridge.m_clientModel].
    rewrite addClient_clients.
    replace (ClientModel.indexOfClient sid (Bridge.m_clientModel b1) =? -1)
      with true
      by (symmetry; apply Z.eqb_eq; now apply indexOfClient_absent).
    reflexivity. }
  assert (Hcount : (0 <? ClientModel.rowCount (Bridge.m_clientModel c1)) = true).
  { apply Z.ltb_lt. unfold ClientModel.rowCount, ClientModel.size.
    rewrite Hrows1, length_app. simpl. lia. }
  rewrite Hcount.
  destruct (announce_connection Bridge.ClientsConnected "Clients connected" c1)
    as (A1 & A2 & A3 & A4 & A5 & A6).
  pose proof (setConnectionState_state Bridge.ClientsConnected
                "Clients connected" c1) as A7.
  set (c2 := Bridge.setStatusMessage "Clients connected"
               (Bridge.setConnectionState Bridge.ClientsConnected c1)) in *.
  assert (Hact : Bridge.m_activeClientId c2 = Bridge.m_activeClientId b)
    by (rewrite A2; reflexivity).
  replace (isEmpty (Bridge.m_activeClientId c2)) with false
    by (symmetry; rewrite Hact; now apply isEmpty_false).
  replace (String.eqb (Bridge.m_activeClientId c2) sid) with false
    by (symmetry; apply String.eqb_neq; rewrite Hact; intros H;
        apply Hfresh; now rewrite <- H).
  rewrite !Bool.andb_false_r.
  assert (Hres : (if 0 <=? ClientModel.indexOfClient sid (Bridge.m_clientModel c2)
                  then c2 else c2) = c2) by (destruct (0 <=? _); reflexivity).
  rewrite Hres.
  cbn [Bridge.set_server Bridge.m_server Bridge.m_clientModel
       Bridge.m_activeClientId Bridge.m_currentFps Bridge.m_connectionState
       Server.sendControlMessage Server.sent Server.m_sessions].
  rewrite A5, A1, A4, A7, Hrows1, Hact. unfold c1, b1.
  cbn [Bridge.set_clientModel Bridge.set_server Bridge.m_server
       Bridge.m_currentFps Server.sent Server.m_sessions]. auto 10.
Qed.

(** X19.  The first session of a vacant host becomes the active client and
    is told the configured rate before it is asked for its alias: it is sent
    SET_FPS with the configured rate (twice when that rate is positive),
    then the alias request, and nothing else; the current rate becomes the
    configured one. *)
Theorem first_session_is_configured_then_asked {ext : Externals}
        (h : ImageServerBridge.t) (sid addr : string) (bf ba : bytes) (p : Z) :
  let b := ImageServerBridge.bridge h in
  let fps := Bridge.m_configuredFps b in
  ImageServerBridge.listener h = Some p ->
  Serving.vacant h ->
  sid <> "" ->
  SerializeToString (Serving.set_fps_message fps) = Some bf ->
  SerializeToString Serving.alias_request = Some ba ->
  let b' := ImageServerBridge.bridge
              (ImageServerBridge.onNewConnection (Some (sid, addr)) h) in
  Server.sent (Bridge.m_server b')
    = Server.sent (Bridge.m_server b)
        ++ (if 0 <? fps then [(sid, x01 :: bf); (sid, x01 :: bf)]
            else [(sid, x01 :: bf)])
        ++ [(sid, x01 :: ba)] /\
  Bridge.m_activeClientId b' = sid /\
  Bridge.m_currentFps b' = fps /\
  ClientModel.ids (Bridge.m_clientModel b') = [sid].
Proof.
  intros b fps Hl (Hr & Hs & Ha) Hne Hsf Hsa b'. fold b in Hr, Hs, Ha.
  unfold b', ImageServerBridge.onNewConnection. rewrite Hl. fold b.
  unfold Serving.alias_request in Hsa. rewrite Hsa.
  cbn [ImageServerBridge.with_bridge ImageServerBridge.bridge].
  set (b1 := Bridge.set_server _ b).
  assert (Hids : ClientModel.ids
                   (Bridge.m_clientModel (Bridge.onClientConnected sid addr b1))
                 = [sid]).
  { rewrite onClientConnected_ids. unfold ClientModel.ids.
    rewrite addClient_clients. unfold b1.
    cbn [Bridge.set_server Bridge.m_clientModel].
    unfold ClientModel.indexOfClient. rewrite Hr. reflexivity. }
  cbn [Bridge.set_server Bridge.m_server Bridge.m_clientModel
       Bridge.m_activeClientId Bridge.m_currentFps
       Server.sendControlMessage Server.sent Server.m_sessions].
  rewrite Hids.
  unfold Bridge.onClientConnected. cbv zeta.
  set (c1 := Bridge.set_clientModel _ b1).
  assert (Hcount : (0 <? ClientModel.rowCount (Bridge.m_clientModel c1)) = true).
  { unfold c1, b1. cbn [Bridge.set_clientModel Bridge.set_server
                        Bridge.m_clientModel].
    apply Z.ltb_lt. unfold ClientModel.rowCount, ClientModel.size.
    rewrite addClient_clients. unfold ClientModel.indexOfClient.
    rewrite Hr. simpl. lia. }
  rewrite Hcount.
  destruct (announce_connection Bridge.ClientsConnected "Clients connected" c1)
    as (A1 & A2 & A3 & A4 & A5 & A6).
  set (c2 := Bridge.setStatusMessage "Clients connected"
               (Bridge.setConnectionState Bridge.ClientsConnected c1)) in *.
  assert (Hact : Bridge.m_activeClientId c2 = "") by (rewrite A2; exact Ha).
  rewrite Hact. cbn [isEmpty String.eqb].
  assert (Hne2 : Bridge.m_activeClientId c2 <> sid)
    by (rewrite Hact; congruence).
  assert (Hsess2 : Server.m_sessions (Bridge.m_server c2) = [sid]).
  { rewrite A5. unfold c1, b1.
    cbn [Bridge.set_clientModel Bridge.set_server Bridge.m_server
         Server.m_sessions]. now rewrite Hs. }
  assert (Hin2 : In sid (Server.m_sessions (Bridge.m_server c2)))
    by (rewrite Hsess2; now left).
  assert (Hconf2 : Bridge.m_configuredFps c2 = fps) by (rewrite A3; reflexivity).
  assert (Hsf2 : SerializeToString
                   (Serving.set_fps_message (Bridge.m_configuredFps c2))
                 = Some bf) by (rewrite Hconf2; exact Hsf).
  destruct (setActiveClient_applied sid c2 bf Hne Hne2 Hin2 Hsf2)
    as (S3 & C3 & A3').
  pose proof (setActiveClient_configured sid c2) as F3.
  pose proof (setActiveClient_sessions sid c2) as SS3.
  pose proof (setActiveClient_ids sid c2) as I3.
  set (c3 := Bridge.setActiveClient sid c2) in *.
  rewrite A3', String.eqb_refl, Bool.andb_true_r, F3, Hconf2.
  assert (Hsent2 : Server.sent (Bridge.m_server c2)
                   = Server.sent (Bridge.m_server b)).
  { rewrite A5. reflexivity. }
  destruct (0 <? fps) eqn:P.
  - assert (Ha3 : Bridge.m_activeClientId c3 <> "") by now rewrite A3'.
    assert (Hin3 : In (Bridge.m_activeClientId c3)
                      (Server.m_sessions (Bridge.m_server c3)))
      by (rewrite A3', SS3; exact Hin2).
    rewrite (setFps_applied fps c3 bf Ha3 Hsf Hin3).
    cbn [Bridge.emit Bridge.set_clientModel Bridge.set_currentFps
         Bridge.set_server Bridge.m_server Bridge.m_currentFps
         Bridge.m_activeClientId Server.sendControlMessage Server.sent].
    rewrite A3', S3. cbn [Server.sendControlMessage Server.sent].
    rewrite Hsent2, <- !app_assoc. cbn. auto.
  - assert (Hknown : In sid (map ClientModel.id
                       (ClientModel.m_clients (Bridge.m_clientModel c3)))).
    { change (In sid (ClientModel.ids (Bridge.m_clientModel c3))).
      rewrite I3, A1. unfold c1, b1, ClientModel.ids.
      cbn [Bridge.set_clientModel Bridge.set_server Bridge.m_clientModel].
      rewrite addClient_clients. unfold ClientModel.indexOfClient.
      rewrite Hr. simpl. now left. }
    destruct (lookup_present _ _ Hknown) as [e L].
    assert (Hidx : (0 <=? ClientModel.indexOfClient sid
                            (Bridge.m_clientModel c3)) = true).
    { apply Z.leb_le. pose proof (lookup_known _ _ _ L). lia. }
    rewrite Hidx, (configuredFpsAt_lookup _ _ _ L).
    assert (Hser : Serving.rate_in_force c3).
    { apply setActiveClient_in_force; auto. rewrite Hsf2. discriminate. }
    assert (Hce : ClientModel.configuredFps e = fps).
    { destruct Hser as [_ H2]; [now rewrite A3'|].
      rewrite <- Hconf2, <- F3. apply H2. now rewrite A3'. }
    rewrite Hce, P. cbn [andb].
    rewrite S3, C3. cbn [Server.sendControlMessage Server.sent].
    rewrite Hsent2, Hconf2, <- !app_assoc. cbn. auto.
Qed.

(** ** Server and client, end to end *)

Section EndToEnd.
Context {ext : Externals}.
Import WebSocketImageClient.

Lemma doAsyncRead_members p :
  m_alias (doAsyncRead p) = m_alias p /\
  configuredFps (doAsyncRead p) = configuredFps p /\
  written (doAsyncRead p) = written p /\
  fpsChanged (doAsyncRead p) = fpsChanged p /\
  has_onFpsChanged (doAsyncRead p) = has_onFpsChanged p.
Proof.
  unfold doAsyncRead.
  destruct (negb (Client.running (impl p)) || _); cbn; auto.
Qed.

(** A control frame carrying a parseable message, as the session sees it. *)
Lemma session_control_frame sid payload msg :
  ParseFromArray payload = Some msg ->
  Session.onBinaryMessageReceived sid (x01 :: payload) =
  [Session.qDebug "Received ControlMessage from client";
   Session.controlMessageReceived sid payload].
Proof.
  intros Hp. unfold Session.onBinaryMessageReceived.
  cbn [Byte.eqb]. replace (Byte.eqb x01 x01) with true by reflexivity.
  cbn [Session.mid skipn]. now rewrite Hp.
Qed.

End EndToEnd.

Lemma cleanupConnection_attempts self c :
  Client.count Client.is_attempt (Client.cleanupConnection self c)
  = Client.count Client.is_attempt c.
Proof.
  destruct c as [i th al w wo ru re hc hd fr tr].
  unfold Client.cleanupConnection, Client.count.
  destruct th as [th|], i, w, wo, al, re, hd; cbn;
    try match goal with
        | |- context [Client.Thread_eqb ?a ?b] =>
            destruct (Client.Thread_eqb a b)
        end;
    cbn; rewrite ?filter_app, ?length_app; cbn; lia.
Qed.

(** X20.  A rate command reaches the client.  When the active client is a
    live session and the SET_FPS message for [fps] serializes to bytes that
    parse back to it, [setFps fps] sends the active session exactly one
    message, the control prefix 0x01 followed by those bytes, and the
    current rate becomes [fps]; a client whose read completes with that
    message stores [fps] as its configured rate and calls the rate callback
    with it when one is set, writing nothing. *)
Theorem rate_command_reaches_the_client {ext : Externals}
        (b : Bridge.t) (p : WebSocketImageClient.t) (self : Client.Thread)
        (fps : Z) (ba : bytes) :
  Bridge.m_activeClientId b <> "" ->
  In (Bridge.m_activeClientId b) (Server.m_sessions (Bridge.m_server b)) ->
  SerializeToString (Serving.set_fps_message fps) = Some ba ->
  ParseFromArray ba = Some (Serving.set_fps_message fps) ->
  let wire := x01 :: ba in
  let b' := Bridge.setFps fps b in
  let p' := WebSocketImageClient.onRead
              self (WebSocketImageClient.ReadMessage wire) p in
  Server.sent (Bridge.m_server b')
    = Server.sent (Bridge.m_server b) ++ [(Bridge.m_activeClientId b, wire)] /\
  Bridge.m_currentFps b' = fps /\
  WebSocketImageClient.configuredFps p' = fps /\
  WebSocketImageClient.fpsChanged p'
    = WebSocketImageClient.fpsChanged p
        ++ (if WebSocketImageClient.has_onFpsChanged p then [fps] else []) /\
  WebSocketImageClient.written p' = WebSocketImageClient.written p.
Proof.
  intros Ha Hin Hs Hp wire b' p'.
  unfold b'. rewrite (setFps_applied fps b ba Ha Hs Hin).
  cbn [Bridge.emit Bridge.set_clientModel Bridge.set_currentFps
       Bridge.set_server Bridge.m_server Bridge.m_currentFps
       Server.sendControlMessage Server.sent].
  split; [reflexivity|]. split; [reflexivity|].
  unfold p', wire, WebSocketImageClient.onRead.
  replace (Byte.eqb x01 x01) with true by reflexivity.
  rewrite Hp. cbn [Serving.set_fps_message Control.type Control.set_fps
                   Control.set_type Control.fps].
  match goal with
  | |- context [WebSocketImageClient.doAsyncRead ?q] =>
      destruct (doAsyncRead_members q) as (_ & A2 & A3 & A4 & _);
      rewrite A2, A3, A4
  end.
  cbn [WebSocketImageClient.has_onFpsChanged].
  destruct (WebSocketImageClient.has_onFpsChanged p); cbn;
    rewrite ?app_nil_r; auto.
Qed.

(** X21.  The alias handshake.  A connected client whose read completes with
    an alias request writes one message, the control prefix 0x01 followed by
    its serialized ALIAS reply.  When that message arrives at the client's
    session and the reply parses back, then if the client's alias is empty
    the bridge is left exactly as it was (the client stays under its
    generated name and no ClientConnected is reported), and otherwise the
    registry shows the client's alias for the session from then on. *)
Theorem alias_handshake {ext : Externals}
        (h : ImageServerBridge.t) (p : WebSocketImageClient.t)
        (self : Client.Thread) (sid : string) (request reply : bytes)
        (msg : Control.ControlMessage) (e : ClientModel.ClientEntry)
        (now later : Z) :
  let answer := Control.set_alias (WebSocketImageClient.m_alias p)
                  (Control.set_type Control.ALIAS Control.default) in
  WebSocketImageClient.not_connected (WebSocketImageClient.impl p) = false ->
  ParseFromArray request = Some msg ->
  Control.type msg = Control.REQUEST_ALIAS ->
  SerializeToString answer = Some reply ->
  ParseFromArray reply = Some answer ->
  View.lookup sid (ClientModel.m_clients
                     (Bridge.m_clientModel (ImageServerBridge.bridge h)))
  = Some e ->
  let p' := WebSocketImageClient.onRead
              self (WebSocketImageClient.ReadMessage (x01 :: request)) p in
  let h' := ImageServerBridge.onBinaryMessage now later sid (x01 :: reply) h in
  let m' := Bridge.m_clientModel (ImageServerBridge.bridge h') in
  WebSocketImageClient.written p'
    = WebSocketImageClient.written p ++ [x01 :: reply] /\
  (WebSocketImageClient.m_alias p = "" ->
   ImageServerBridge.bridge h' = ImageServerBridge.bridge h) /\
  (WebSocketImageClient.m_alias p <> "" ->
   ClientModel.aliasAt (ClientModel.indexOfClient sid m') m'
   = WebSocketImageClient.m_alias p /\
   Log.events (Bridge.signals (ImageServerBridge.bridge h'))
   = Log.events (Bridge.signals (ImageServerBridge.bridge h))
       ++ [(ClientConnected,
            [("clientId", VString sid);
             ("alias", VString (WebSocketImageClient.m_alias p))])]).
Proof.
  intros answer Hc Hreq Hty Hser Hpar L p' h' m'.
  split.
  { unfold p', WebSocketImageClient.onRead.
    replace (Byte.eqb x01 x01) with true by reflexivity.
    rewrite Hreq, Hty. fold answer. rewrite Hser.
    match goal with
    | |- context [WebSocketImageClient.doAsyncRead ?q] =>
        destruct (doAsyncRead_members q) as (_ & _ & A3 & _); rewrite A3
    end.
    unfold WebSocketImageClient.sendControlMessage. rewrite Hc. reflexivity. }
  assert (Hh : ImageServerBridge.bridge h'
               = ImageServerBridge.onControlMessageReceived
                   sid reply (ImageServerBridge.bridge h)).
  { unfold h', ImageServerBridge.onBinaryMessage.
    rewrite (session_control_frame sid reply answer Hpar). reflexivity. }
  split.
  - intros Hempty. rewrite Hh.
    unfold ImageServerBridge.onControlMessageReceived. rewrite Hpar.
    unfold answer. cbn [Control.type Control.set_alias Control.set_type
                        Control.alias]. now rewrite Hempty.
  - intros Hne. unfold m'. rewrite Hh.
    assert (Hty' : Control.type answer = Control.ALIAS) by reflexivity.
    assert (Hal : Control.alias answer = WebSocketImageClient.m_alias p)
      by reflexivity.
    assert (Hne' : Control.alias answer <> "") by now rewrite Hal.
    destruct (onControlMessageReceived_alias
                (ImageServerBridge.bridge h) sid reply answer e
                Hpar Hty' Hne' L) as (A1 & _ & _ & _ & A5).
    cbv zeta in A1, A5. rewrite Hal in A1, A5. split; [exact A1|].
    rewrite A5, !events_app.
    match goal with
    | |- context [if ?c then _ else _] => destruct c
    end; cbn; rewrite ?app_nil_r; reflexivity.
Qed.

(** X22.  A frame on its way to the server.  [sendFrame] of a connected
    client writes the JPEG bytes as they are, without a prefix, and answers
    true.  When those bytes arrive at the client's session, start with a
    byte other than 0x00 and 0x01 (JPEG data starts with 0xFF) and decode,
    the bridge receives the decoded image as a frame of that session, all
    bytes having been handed to the decoder. *)
Theorem sent_frame_reaches_the_bridge {ext : Externals}
        (h : ImageServerBridge.t) (p : WebSocketImageClient.t)
        (sid : string) (first : byte) (rest : bytes) (img : QImage)
        (now later : Z) :
  let jpeg := first :: rest in
  WebSocketImageClient.not_connected (WebSocketImageClient.impl p) = false ->
  first <> x00 -> first <> x01 ->
  loadFromData jpeg = Some img ->
  fst (WebSocketImageClient.sendFrame jpeg p) = true /\
  WebSocketImageClient.written (snd (WebSocketImageClient.sendFrame jpeg p))
    = WebSocketImageClient.written p ++ [jpeg] /\
  WebSocketImageClient.impl (snd (WebSocketImageClient.sendFrame jpeg p))
    = WebSocketImageClient.impl p /\
  ImageServerBridge.bridge
    (ImageServerBridge.onBinaryMessage now later sid jpeg h)
  = Bridge.onFrameReceived now later sid img (ImageServerBridge.bridge h).
Proof.
  intros jpeg Hc H0 H1 Hload.
  unfold WebSocketImageClient.sendFrame. rewrite Hc. cbn [fst snd].
  split; [reflexivity|]. split; [reflexivity|]. split; [reflexivity|].
  unfold ImageServerBridge.onBinaryMessage, Session.onBinaryMessageReceived,
    jpeg.
  rewrite (byte_eqb_neq first x01 H1), (byte_eqb_neq first x00 H0).
  fold jpeg. rewrite Hload. reflexivity.
Qed.

(** X23.  Sending while not connected.  When the client is not running, has
    no stream or its stream is not open, [sendFrame] and
    [sendControlMessage] answer false and write nothing; they clear the
    running flag and leave everything else alone, so no teardown happens
    and no reconnect loop is started by the failed send.  A later
    [connectToServer] therefore makes a connection attempt instead of
    answering from the flag. *)
Theorem sending_while_disconnected
        (p : WebSocketImageClient.t) (payload : bytes) (self : Client.Thread) :
  WebSocketImageClient.not_connected (WebSocketImageClient.impl p) = true ->
  let r1 := WebSocketImageClient.sendFrame payload p in
  let r2 := WebSocketImageClient.sendControlMessage payload p in
  fst r1 = false /\ fst r2 = false /\ snd r1 = snd r2 /\
  WebSocketImageClient.written (snd r1) = WebSocketImageClient.written p /\
  WebSocketImageClient.impl (snd r1)
    = Client.set_running false (WebSocketImageClient.impl p) /\
  Client.trace (WebSocketImageClient.impl (snd r1))
    = Client.trace (WebSocketImageClient.impl p) /\
  Client.reconnecting (WebSocketImageClient.impl (snd r1))
    = Client.reconnecting (WebSocketImageClient.impl p) /\
  Client.count Client.is_attempt
    (snd (Client.connectToServer self Client.HandshakeOk
            (WebSocketImageClient.impl (snd r1))))
  = S (Client.count Client.is_attempt (WebSocketImageClient.impl p)).
Proof.
  intros Hn r1 r2. unfold r1, r2, WebSocketImageClient.sendFrame,
    WebSocketImageClient.sendControlMessage. rewrite Hn. cbn [fst snd].
  repeat (split; [reflexivity|]).
  cbn [WebSocketImageClient.with_impl WebSocketImageClient.impl].
  set (c0 := Client.set_running false (WebSocketImageClient.impl p)).
  assert (H0 : Client.count Client.is_attempt c0
               = Client.count Client.is_attempt (WebSocketImageClient.impl p))
    by reflexivity.
  assert (Hr : Client.running c0 = false) by reflexivity.
  rewrite <- H0, <- (cleanupConnection_attempts self c0).
  unfold Client.connectToServer. rewrite Hr.
  generalize (Client.cleanupConnection self c0). intros c1.
  destruct c1 as [i th al w wo ru re hc hd fr tr].
  unfold Client.count.
  destruct th, i, w, hc; cbn; rewrite ?filter_app, ?length_app; cbn; lia.
Qed.

(** ** The example client's pacing and the application's event log *)

(** X24.  The pause the example client makes after a frame is between 1 and
    1000 ms; it is 33 ms while no rate has been commanded (a rate of 0 or
    less), 1 ms for rates above 1000, and for a commanded rate between 1 and
    1000 it is the frame period rounded down, so that the rate times the
    pause does not exceed one second while one more millisecond would. *)
Theorem frameDelay_paces (configured : Z) :
  let d := WebSocketImageClient.frameDelay configured in
  1 <= d <= 1000 /\
  (configured <= 0 -> d = 33) /\
  (1 <= configured <= 1000 ->
   configured * d <= 1000 < configured * (d + 1)) /\
  (1000 < configured -> d = 1).
Proof.
  cbv zeta. unfold WebSocketImageClient.frameDelay.
  destruct (configured <=? 0) eqn:E.
  - apply Z.leb_le in E. cbn. repeat split; intros; lia.
  - apply Z.leb_gt in E.
    rewrite Z.quot_div_nonneg by lia.
    assert (H0 : 0 <= 1000 / configured) by (apply Z.div_pos; lia).
    assert (H1 : 1000 / configured <= 1000)
      by (apply Z.div_le_upper_bound; nia).
    split; [lia|]. split; [intros; lia|]. split.
    + intros Hr.
      assert (1 <= 1000 / configured)
        by (apply Z.div_le_lower_bound; lia).
      rewrite Z.max_r by lia.
      pose proof (Z.mul_div_le 1000 configured ltac:(lia)).
      pose proof (Z.mul_succ_div_gt 1000 configured ltac:(lia)).
      lia.
    + intros Hr. rewrite Z.div_small by lia. reflexivity.
Qed.

(** X25.  How the server application logs the bridge's events: every
    rate or frame event, the success report FpsApplied included, and the
    generic UnknownError are logged as warnings; all server and client
    events, ServerStartFailed and ServerError included, are logged as
    information; no event is logged as an error or as critical.  For any
    integer code the severity is Warning from 3000 upwards and Info
    below. *)
Theorem event_severity_by_code (code : EventCode) (c : Z) :
  Diagnostics.eventSeverity (EventCode_value code) =
    match code with
    | FpsApplied | FpsFailedNoClient | FpsSendError
    | FrameReceived | FrameDropped | UnknownError => Diagnostics.Warning
    | _ => Diagnostics.Info
    end /\
  Diagnostics.eventSeverity c =
    (if 3000 <=? c then Diagnostics.Warning else Diagnostics.Info).
Proof.
  split; [destruct code; reflexivity|].
  unfold Diagnostics.eventSeverity.
  destruct (1000 <=? c) eqn:A, (c <? 2000) eqn:B, (2000 <=? c) eqn:C,
    (c <? 3000) eqn:D, (3000 <=? c) eqn:E, (c <? 4000) eqn:F,
    (4000 <=? c) eqn:G; cbn; try reflexivity;
    repeat match goal with
           | H : (_ <=? _) = true |- _ => apply Z.leb_le in H
           | H : (_ <=? _) = false |- _ => apply Z.leb_gt in H
           | H : (_ <? _) = true |- _ => apply Z.ltb_lt in H
           | H : (_ <? _) = false |- _ => apply Z.ltb_ge in H
           end; lia.
Qed.

(** ** The diagnostics list *)

Section DiagnosticsModelFacts.
Import DiagnosticsModel.

Lemma removelast_firstn_length {A} (l : list A) :
  removelast l = firstn (Nat.pred (List.length l)) l.
Proof.
  induction l as [|a r IH]; [reflexivity|].
  destruct r as [|b r']; [reflexivity|].
  change (removelast (a :: b :: r')) with (a :: removelast (b :: r')).
  rewrite IH. reflexivity.
Qed.

Lemma length_removelast {A} (l : list A) :
  List.length (removelast l) = Nat.pred (List.length l).
Proof.
  rewrite removelast_firstn_length, length_firstn. lia.
Qed.

(** The trimming loop keeps the first [maxEntries] entries, and is undefined
    for a negative limit. *)
Lemma trim_spec maxEntries : forall fuel l sigs,
  fuel = List.length l ->
  (0 <= maxEntries ->
   exists sigs',
     trim fuel maxEntries l sigs
     = Some (firstn (Z.to_nat maxEntries) l, sigs ++ sigs') /\
     List.length sigs' = (List.length l - Z.to_nat maxEntries)%nat /\
     (forall s, In s sigs' -> exists k, s = rowsRemoved k k /\
                                        maxEntries <= k < size l)) /\
  (maxEntries < 0 -> trim fuel maxEntries l sigs = None).
Proof.
  induction fuel as [|k IH]; intros l sigs Hf.
  - destruct l; [|discriminate]. cbn. split.
    + intros H. replace (0 <=? maxEntries) with true
        by (symmetry; now apply Z.leb_le).
      exists []. rewrite app_nil_r, firstn_nil. repeat split; auto.
      intros s [].
    + intros H. replace (0 <=? maxEntries) with false
        by (symmetry; apply Z.leb_gt; lia). reflexivity.
  - cbn [trim].
    destruct (size l <=? maxEntries) eqn:E.
    + apply Z.leb_le in E. unfold size in E. split; [|intros; lia].
      intros H. exists []. rewrite app_nil_r.
      rewrite firstn_all2 by lia. split; [reflexivity|].
      split; [cbn [List.length]; lia|]. intros s [].
    + apply Z.leb_gt in E. unfold size in E.
      assert (Hk : k = List.length (removelast l))
        by (rewrite length_removelast; lia).
      destruct (IH (removelast l)
                   (sigs ++ [rowsRemoved (size l - 1) (size l - 1)]) Hk)
        as [Hpos Hneg].
      split; [|exact Hneg].
      intros H. destruct (Hpos H) as (sigs' & T & L & I).
      exists (rowsRemoved (size l - 1) (size l - 1) :: sigs').
      split; [|split].
      * rewrite T. f_equal. f_equal.
        -- rewrite removelast_firstn_length, firstn_firstn. f_equal. lia.
        -- rewrite <- app_assoc. reflexivity.
      * cbn [List.length]. rewrite L, length_removelast. lia.
      * intros s [<-|Hs].
        -- eexists. split; [reflexivity|]. unfold size. lia.
        -- destruct (I s Hs) as (j & -> & Hj). exists j. split; [reflexivity|].
           unfold size in *. rewrite length_removelast in Hj. lia.
Qed.

Lemma upsert_loop_none i entry l :
  upsert_loop i entry l = None <-> ~ In (id entry) (map id l).
Proof.
  revert i. induction l as [|e r IH]; intros i; simpl; [tauto|].
  destruct (String.eqb (id e) (id entry)) eqn:E.
  - apply String.eqb_eq in E. split; [discriminate|]. intros H.
    exfalso. apply H. now left.
  - apply String.eqb_neq in E. specialize (IH (i + 1)).
    destruct (upsert_loop (i + 1) entry r) as [[k r']|].
    + split; [discriminate|]. intros H. exfalso.
      assert (Hn : ~ In (id entry) (map id r)) by tauto.
      apply IH in Hn. discriminate.
    + split; [|reflexivity]. intros _ [H|H]; [contradiction|].
      now apply (proj1 IH).
Qed.

Lemma upsert_loop_some i entry l k l' :
  upsert_loop i entry l = Some (k, l') ->
  map id l' = map id l /\
  List.length l' = List.length l /\
  i <= k < i + size l /\
  exists a e b, l = a ++ e :: b /\ l' = a ++ update entry e :: b /\
                id e = id entry /\ ~ In (id entry) (map id a) /\
                k = i + size a.
Proof.
  revert i k l'. induction l as [|e r IH]; intros i k l'; simpl;
    [discriminate|].
  destruct (String.eqb (id e) (id entry)) eqn:E.
  - intros [= <- <-]. apply String.eqb_eq in E. simpl.
    split; [reflexivity|]. split; [reflexivity|].
    split; [unfold size; simpl; lia|].
    exists [], e, r. unfold size. simpl. repeat split; auto; lia.
  - apply String.eqb_neq in E.
    destruct (upsert_loop (i + 1) entry r) as [[k0 r0]|] eqn:U;
      [|discriminate].
    intros [= <- <-].
    destruct (IH _ _ _ U) as (A & B & C & a & e0 & b & -> & -> & F & G & H).
    simpl. split; [now rewrite A|]. split; [now rewrite B|].
    split; [unfold size in *; simpl; lia|].
    exists (e :: a), e0, b. unfold size in *. simpl.
    repeat split; auto; [|lia].
    intros [H1|H1]; [contradiction|]. contradiction.
Qed.

Lemma In_firstn {A} n (l : list A) x : In x (firstn n l) -> In x l.
Proof.
  revert n. induction l as [|a r IH]; intros n; [now rewrite firstn_nil|].
  destruct n; simpl; [tauto|]. intros [H|H]; [now left|]. right. eauto.
Qed.

Lemma NoDup_firstn {A} n (l : list A) : NoDup l -> NoDup (firstn n l).
Proof.
  revert n. induction l as [|a r IH]; intros n H; [now rewrite firstn_nil|].
  destruct n; [constructor|]. simpl. inversion H as [|? ? Hn Hr]; subst.
  constructor; [|auto]. intros Hin. apply Hn.
  eapply In_firstn. exact Hin.
Qed.

(** One upsert keeps the list distinct and within its limit. *)
Lemma upsertEntry_step entry m :
  NoDup (ids m) -> 0 <= m_maxEntries m -> rowCount m <= m_maxEntries m ->
  exists m', upsertEntry entry m = Some m' /\
             NoDup (ids m') /\ rowCount m' <= m_maxEntries m'.
Proof.
  intros Hnd Hmax Hb. unfold upsertEntry.
  destruct (upsert_loop 0 entry (m_entries m)) as [[k l']|] eqn:U.
  - destruct (upsert_loop_some _ _ _ _ _ U) as (A & B & _).
    eexists. split; [reflexivity|]. unfold ids, rowCount, size in *. cbn.
    rewrite A, B. auto.
  - cbv zeta.
    destruct (trim_spec (m_maxEntries m) _ (entry :: m_entries m)
                (emitted m ++ [rowsInserted 0 0]) eq_refl) as [Hpos _].
    destruct (Hpos Hmax) as (sigs' & T & _). rewrite T.
    eexists. split; [reflexivity|]. unfold ids, rowCount, size. cbn [m_entries
      m_maxEntries].
    split.
    + rewrite <- firstn_map. apply NoDup_firstn. simpl.
      constructor; [|exact Hnd]. now apply upsert_loop_none in U.
    + rewrite length_firstn. lia.
Qed.

End DiagnosticsModelFacts.

(** X26.  [upsertEntry] updates or prepends.  On a list with distinct ids
    and a limit that is not negative it is defined and keeps the ids
    distinct and the limit.  For an id the list holds, the ids and their
    order stay, the entry's count, message, last timestamp, metadata and
    suppression flag are overwritten while its code, severity, source and
    first timestamp are kept, and [dataChanged] names its row.  For a new id
    the entry is put in front and the list is cut to the limit from the
    back, so the oldest entries go. *)
Theorem upsertEntry_updates_or_prepends
        (entry : DiagnosticsModel.DiagnosticEntry) (m : DiagnosticsModel.t) :
  NoDup (DiagnosticsModel.ids m) ->
  0 <= DiagnosticsModel.m_maxEntries m ->
  exists m',
    DiagnosticsModel.upsertEntry entry m = Some m' /\
    DiagnosticsModel.m_maxEntries m' = DiagnosticsModel.m_maxEntries m /\
    NoDup (DiagnosticsModel.ids m') /\
    (In (DiagnosticsModel.id entry) (DiagnosticsModel.ids m) ->
     DiagnosticsModel.ids m' = DiagnosticsModel.ids m /\
     exists a e b,
       DiagnosticsModel.m_entries m = a ++ e :: b /\
       DiagnosticsModel.m_entries m'
       = a ++ DiagnosticsModel.update entry e :: b /\
       DiagnosticsModel.id e = DiagnosticsModel.id entry /\
       DiagnosticsModel.emitted m'
       = DiagnosticsModel.emitted m
           ++ [DiagnosticsModel.dataChanged (DiagnosticsModel.size a)]) /\
    (~ In (DiagnosticsModel.id entry) (DiagnosticsModel.ids m) ->
     DiagnosticsModel.m_entries m'
     = firstn (Z.to_nat (DiagnosticsModel.m_maxEntries m))
              (entry :: DiagnosticsModel.m_entries m) /\
     DiagnosticsModel.rowCount m' <= DiagnosticsModel.m_maxEntries m).
Proof.
  intros Hnd Hmax. unfold DiagnosticsModel.upsertEntry.
  destruct (DiagnosticsModel.upsert_loop 0 entry (DiagnosticsModel.m_entries m))
    as [[k l']|] eqn:U.
  - destruct (upsert_loop_some _ _ _ _ _ U)
      as (A & B & C & a & e & b & E1 & E2 & E3 & E4 & E5).
    eexists. split; [reflexivity|]. cbn. split; [reflexivity|].
    unfold DiagnosticsModel.ids in *. cbn. rewrite A.
    split; [exact Hnd|]. split.
    + intros _. split; [reflexivity|].
      exists a, e, b. rewrite E5. repeat split; auto.
    + intros Hn. exfalso.
      assert (DiagnosticsModel.upsert_loop 0 entry (DiagnosticsModel.m_entries m)
              = None) by now apply upsert_loop_none.
      congruence.
  - apply upsert_loop_none in U. cbv zeta.
    destruct (trim_spec (DiagnosticsModel.m_maxEntries m) _
                (entry :: DiagnosticsModel.m_entries m)
                (DiagnosticsModel.emitted m ++ [DiagnosticsModel.rowsInserted 0 0])
                eq_refl) as [Hpos _].
    destruct (Hpos Hmax) as (sigs' & T & _).
    rewrite T. eexists. split; [reflexivity|]. cbn [DiagnosticsModel.m_maxEntries
      DiagnosticsModel.m_entries DiagnosticsModel.emitted].
    split; [reflexivity|].
    assert (Hnd1 : NoDup (map DiagnosticsModel.id
                            (entry :: DiagnosticsModel.m_entries m))).
    { simpl. constructor; assumption. }
    split.
    + unfold DiagnosticsModel.ids.
      cbn [DiagnosticsModel.m_entries]. rewrite <- firstn_map.
      now apply NoDup_firstn.
    + split; [intros H; contradiction|].
      intros _. split; [reflexivity|].
      unfold DiagnosticsModel.rowCount, DiagnosticsModel.size.
      cbn [DiagnosticsModel.m_entries]. rewrite length_firstn. lia.
Qed.

(** X27.  [setMaxEntries] keeps the newest entries: for a limit that is not
    negative the list becomes its first [maxEntries] entries (all of them
    when it is shorter) and one removal is announced for each entry cut off
    at the back; for a negative limit the loop empties the list and then
    pops from the empty deque, so the behaviour is undefined. *)
Theorem setMaxEntries_keeps_newest (n : Z) (m : DiagnosticsModel.t) :
  (0 <= n ->
   exists removals,
     DiagnosticsModel.setMaxEntries n m
     = Some (DiagnosticsModel.mkModel
               (firstn (Z.to_nat n) (DiagnosticsModel.m_entries m)) n
               (DiagnosticsModel.emitted m ++ removals)) /\
     List.length removals
     = (List.length (DiagnosticsModel.m_entries m) - Z.to_nat n)%nat /\
     forall s, In s removals ->
       exists k, s = DiagnosticsModel.rowsRemoved k k /\
                 n <= k < DiagnosticsModel.rowCount m) /\
  (n < 0 -> DiagnosticsModel.setMaxEntries n m = None).
Proof.
  unfold DiagnosticsModel.setMaxEntries.
  destruct (trim_spec n _ (DiagnosticsModel.m_entries m)
              (DiagnosticsModel.emitted m) eq_refl) as [Hpos Hneg].
  split.
  - intros H. destruct (Hpos H) as (sigs' & T & L & I).
    exists sigs'. rewrite T. auto.
  - intros H. now rewrite (Hneg H).
Qed.

(** X28.  The diagnostics list stays bounded and free of duplicates: from a
    list with distinct ids that respects its limit, any sequence of upserts,
    limit changes to values that are not negative, and clears is defined and
    ends in a list with distinct ids, at most as long as the limit then in
    force. *)
Theorem diagnostics_stay_bounded_and_distinct
        (ops : list DiagnosticsModel.Op) (m : DiagnosticsModel.t) :
  NoDup (DiagnosticsModel.ids m) ->
  DiagnosticsModel.rowCount m <= DiagnosticsModel.m_maxEntries m ->
  DiagnosticsModel.limits_ok ops ->
  exists m',
    DiagnosticsModel.run ops m = Some m' /\
    NoDup (DiagnosticsModel.ids m') /\
    DiagnosticsModel.rowCount m' <= DiagnosticsModel.m_maxEntries m'.
Proof.
  unfold DiagnosticsModel.run. revert m.
  induction ops as [|op r IH]; intros m Hnd Hb Hl; cbn [fold_left].
  - exists m. auto.
  - assert (Hmax : 0 <= DiagnosticsModel.m_maxEntries m).
    { unfold DiagnosticsModel.rowCount, DiagnosticsModel.size in Hb. lia. }
    destruct op as [entry|n|]; cbn [DiagnosticsModel.step
                                    DiagnosticsModel.limits_ok] in *.
    + destruct (upsertEntry_step entry m Hnd Hmax Hb)
        as (m1 & U & N1 & B1).
      rewrite U. apply IH; auto.
    + destruct Hl as [Hn Hl].
      destruct (setMaxEntries_keeps_newest n m) as [Hpos _].
      destruct (Hpos Hn) as (removals & S & _). rewrite S.
      apply IH; [| |exact Hl].
      * unfold DiagnosticsModel.ids. cbn [DiagnosticsModel.m_entries].
        rewrite <- firstn_map. now apply NoDup_firstn.
      * unfold DiagnosticsModel.rowCount, DiagnosticsModel.size.
        cbn [DiagnosticsModel.m_entries DiagnosticsModel.m_maxEntries].
        rewrite length_firstn. lia.
    + apply IH; [| |exact Hl].
      * unfold DiagnosticsModel.clear.
        destruct (DiagnosticsModel.m_entries m) eqn:E; [exact Hnd|].
        unfold DiagnosticsModel.ids. cbn. constructor.
      * unfold DiagnosticsModel.clear.
        destruct (DiagnosticsModel.m_entries m) eqn:E; [exact Hb|].
        unfold DiagnosticsModel.rowCount, DiagnosticsModel.size. cbn.
        exact Hmax.
Qed.

(** ** The aggregation of repeated errors *)

Section AggregationFacts.
Import DiagnosticsModel DiagnosticsManager.

Lemma find_insert key v h : find key (insert key v h) = Some v.
Proof.
  induction h as [|[k w] r IH]; simpl.
  - now rewrite String.eqb_refl.
  - destruct (String.eqb k key) eqn:E; simpl; rewrite E; [reflexivity|exact IH].
Qed.

Lemma hash_size_insert key v h :
  hash_size (insert key v h) =
  match find key h with Some _ => hash_size h | None => hash_size h + 1 end.
Proof.
  unfold hash_size. induction h as [|[k w] r IH]; simpl; [reflexivity|].
  destruct (String.eqb k key) eqn:E; simpl; [reflexivity|].
  destruct (find key r); lia.
Qed.

Lemma upsertEntry_front entry row rest maxEntries sigs :
  id row = id entry ->
  upsertEntry entry (mkModel (row :: rest) maxEntries sigs)
  = Some (mkModel (update entry row :: rest) maxEntries
                  (sigs ++ [dataChanged 0])).
Proof.
  intros H. unfold upsertEntry. cbn [m_entries upsert_loop].
  replace (String.eqb (id row) (id entry)) with true
    by (symmetry; now apply String.eqb_eq).
  reflexivity.
Qed.

Lemma upsertEntry_new entry m :
  ~ In (id entry) (ids m) -> 1 <= m_maxEntries m ->
  exists rest sigs,
    upsertEntry entry m = Some (mkModel (entry :: rest) (m_maxEntries m) sigs) /\
    (forall x, In x (map id rest) -> In x (ids m)) /\
    (NoDup (ids m) -> NoDup (map id (entry :: rest))).
Proof.
  intros Hn Hmax. unfold upsertEntry.
  replace (upsert_loop 0 entry (m_entries m)) with
    (@None (Z * list DiagnosticEntry))
    by (symmetry; now apply upsert_loop_none).
  cbv zeta.
  destruct (trim_spec (m_maxEntries m) _ (entry :: m_entries m)
              (emitted m ++ [rowsInserted 0 0]) eq_refl) as [Hpos _].
  destruct (Hpos ltac:(lia)) as (sigs' & T & _). rewrite T.
  replace (Z.to_nat (m_maxEntries m))
    with (S (Z.to_nat (m_maxEntries m - 1))) by lia.
  cbn [firstn]. eexists. eexists. split; [reflexivity|]. split.
  - intros x Hx. rewrite <- firstn_map in Hx. eapply In_firstn. exact Hx.
  - intros Hnd. simpl. constructor.
    + intros Hx. apply Hn. rewrite <- firstn_map in Hx.
      eapply In_firstn. exact Hx.
    + rewrite <- firstn_map. now apply NoDup_firstn.
Qed.

End AggregationFacts.

Section Aggregation.
Context {sha : Sha1}.
Import DiagnosticsModel DiagnosticsManager.

(** A further post of a counted error, within the window. *)
Lemma postError_counts code msg severity source metadata d c t0 t1 now later :
  let sig := makeSignature code msg source in
  m_enabled d = true -> m_burstMode d = false ->
  hash_size (m_aggregation d) <= m_rateLimitUniquePerMinute d ->
  Int.in_range (m_aggregationWindowMs d) ->
  counted sig msg c t0 t1 d ->
  t1 <= later -> later - t1 <= m_aggregationWindowMs d ->
  Int.INT_MIN <= c < Int.INT_MAX ->
  exists d',
    postError now later code msg severity source metadata d = Some d' /\
    counted sig msg (c + 1) t0 later d' /\
    m_enabled d' = true /\ m_burstMode d' = false /\
    hash_size (m_aggregation d') <= m_rateLimitUniquePerMinute d' /\
    m_aggregationWindowMs d' = m_aggregationWindowMs d /\
    m_lastErrorMessage d' = msg.
Proof.
  intros sig He Hb Hsize Hw (s & row & rest & F & Is & C & T0 & T1 & M & Ir & Cr
                             & Mr & Fr & Lr) Hmono Hin Hc.
  destruct d as [model agg window limit en lastmsg burst timer panel sigs].
  cbn [m_enabled m_burstMode m_aggregation m_rateLimitUniquePerMinute
       m_aggregationWindowMs m_model] in *.
  subst en burst. destruct model as [entries maxEntries emitted0].
  cbn [m_entries] in M. subst entries.
  unfold postError, postErrorEvent.
  cbn [m_enabled negb id firstTimestamp lastTimestamp count
       DiagnosticsModel.message m_aggregation m_aggregationWindowMs].
  fold sig. rewrite F.
  assert (Hms : Int64.sub later (last s) = later - last s).
  { apply Int64_sub_small. unfold Int.in_range, Int.INT_MIN, Int.INT_MAX in Hw.
    lia. }
  rewrite Hms, T1.
  replace (later - t1 <=? window) with true by (symmetry; now apply Z.leb_le).
  rewrite C, (Int_incr_no_overflow c Hc).
  cbv zeta.
  cbn [with_aggregation m_burstMode m_aggregation m_rateLimitUniquePerMinute
       m_model m_aggregationWindowMs m_enabled m_lastErrorMessage
       burstTimer_active m_panelVisible signals negb andb].
  rewrite hash_size_insert, F.
  replace (limit <? hash_size agg) with false
    by (symmetry; apply Z.ltb_ge; lia).
  cbn [m_aggregation m_burstMode with_aggregation]. rewrite find_insert.
  cbn [first last agg_count agg_suppressed entry with_aggregation m_model
       m_aggregation m_burstMode m_rateLimitUniquePerMinute
       m_aggregationWindowMs m_enabled m_lastErrorMessage burstTimer_active
       m_panelVisible signals].
  rewrite upsertEntry_front by (cbn; congruence).
  eexists. split; [reflexivity|].
  cbn [m_enabled m_burstMode m_aggregation m_rateLimitUniquePerMinute
       m_aggregationWindowMs m_lastErrorMessage m_model].
  split.
  - unfold counted. cbn [m_aggregation m_model m_entries].
    eexists. eexists. eexists. rewrite find_insert.
    split; [reflexivity|].
    cbn. repeat split; auto.
  - repeat split; auto.
    rewrite hash_size_insert, find_insert, hash_size_insert, F. exact Hsize.
Qed.

(** The first post of an error the manager has not seen. *)
Lemma postError_first code msg severity source metadata d now later :
  let sig := makeSignature code msg source in
  m_enabled d = true -> m_burstMode d = false ->
  find sig (m_aggregation d) = None ->
  hash_size (m_aggregation d) < m_rateLimitUniquePerMinute d ->
  ~ In sig (ids (m_model d)) ->
  1 <= m_maxEntries (m_model d) ->
  exists d',
    postError now later code msg severity source metadata d = Some d' /\
    counted sig msg 1 now now d' /\
    m_enabled d' = true /\ m_burstMode d' = false /\
    hash_size (m_aggregation d') <= m_rateLimitUniquePerMinute d' /\
    m_aggregationWindowMs d' = m_aggregationWindowMs d /\
    m_lastErrorMessage d' = msg.
Proof.
  intros sig He Hb F Hsize Hnew Hmax.
  destruct d as [model agg window limit en lastmsg burst timer panel sigs].
  cbn [m_enabled m_burstMode m_aggregation m_rateLimitUniquePerMinute
       m_aggregationWindowMs m_model] in *.
  subst en burst.
  unfold postError, postErrorEvent.
  cbn [m_enabled negb id firstTimestamp lastTimestamp count
       DiagnosticsModel.message m_aggregation m_aggregationWindowMs].
  fold sig. rewrite F. cbv zeta.
  cbn [with_aggregation m_burstMode m_aggregation m_rateLimitUniquePerMinute
       m_model m_aggregationWindowMs m_enabled m_lastErrorMessage
       burstTimer_active m_panelVisible signals negb andb].
  rewrite hash_size_insert, F.
  replace (limit <? hash_size agg + 1) with false
    by (symmetry; apply Z.ltb_ge; lia).
  cbn [m_aggregation m_burstMode with_aggregation]. rewrite find_insert.
  cbn [first last agg_count agg_suppressed entry with_aggregation m_model
       m_aggregation m_burstMode m_rateLimitUniquePerMinute
       m_aggregationWindowMs m_enabled m_lastErrorMessage burstTimer_active
       m_panelVisible signals].
  match goal with
  | |- context [upsertEntry ?e model] =>
      destruct (upsertEntry_new e model) as (rest & sigs' & U & _);
        [exact Hnew | exact Hmax | rewrite U]
  end.
  eexists. split; [reflexivity|].
  cbn [m_enabled m_burstMode m_aggregation m_rateLimitUniquePerMinute
       m_aggregationWindowMs m_lastErrorMessage m_model].
  split.
  - unfold counted. cbn [m_aggregation m_model m_entries].
    eexists. eexists. eexists. rewrite find_insert.
    split; [reflexivity|].
    cbn. repeat split; auto.
  - repeat split; auto.
    rewrite hash_size_insert, find_insert, hash_size_insert, F. lia.
Qed.

End Aggregation.

(** X29.  Repeated errors are counted, not listed again.  With the manager
    enabled and not in burst mode, an error whose signature it has not seen
    (room being left below the limit of distinct signatures, and the list
    keeping at least one row) is posted and then posted again any number of
    times, each time at most the aggregation window after the time before:
    every call is defined, and afterwards the signature's bucket and the
    first row of the list both show the number of posts, the time of the
    first post and the time of the last; the manager is still not in burst
    mode and its last error message is the message posted. *)
Theorem repeated_error_is_counted {sha : Sha1}
        (d : DiagnosticsManager.t) (code : Z) (message : string) (severity : Z)
        (source : string) (metadata : QVariantMap) (now later : Z)
        (clocks : list (Z * Z)) :
  let sig := DiagnosticsManager.makeSignature code message source in
  let n := Z.of_nat (List.length clocks) in
  DiagnosticsManager.m_enabled d = true ->
  DiagnosticsManager.m_burstMode d = false ->
  DiagnosticsManager.find sig (DiagnosticsManager.m_aggregation d) = None ->
  DiagnosticsManager.hash_size (DiagnosticsManager.m_aggregation d)
    < DiagnosticsManager.m_rateLimitUniquePerMinute d ->
  Int.in_range (DiagnosticsManager.m_aggregationWindowMs d) ->
  ~ In sig (DiagnosticsModel.ids (DiagnosticsManager.m_model d)) ->
  1 <= DiagnosticsModel.m_maxEntries (DiagnosticsManager.m_model d) ->
  DiagnosticsManager.within (DiagnosticsManager.m_aggregationWindowMs d)
                            now clocks ->
  1 + n <= Int.INT_MAX ->
  exists d',
    fold_left (DiagnosticsManager.repost code message severity source metadata)
              ((now, later) :: clocks) (Some d) = Some d' /\
    DiagnosticsManager.counted sig message (1 + n) now
      (DiagnosticsManager.last_reading now clocks) d' /\
    DiagnosticsManager.m_burstMode d' = false /\
    DiagnosticsManager.m_lastErrorMessage d' = message.
Proof.
  intros sig n He Hb F Hsize Hw Hnew Hmax Hin Hn.
  cbn [fold_left DiagnosticsManager.repost fst snd].
  destruct (postError_first code message severity source metadata d now later
              He Hb F Hsize Hnew Hmax)
    as (d1 & P1 & C1 & E1 & B1 & S1 & W1 & L1).
  rewrite P1. fold sig in C1.
  rewrite <- W1 in Hin.
  assert (Hw' : Int.in_range (DiagnosticsManager.m_aggregationWindowMs d1))
    by (rewrite W1; exact Hw).
  clear P1 He Hb F Hsize Hnew Hmax W1 Hw.
  unfold n in *. clear n.
  assert (G : forall clocks d1 c t1,
            DiagnosticsManager.m_enabled d1 = true ->
            DiagnosticsManager.m_burstMode d1 = false ->
            DiagnosticsManager.hash_size (DiagnosticsManager.m_aggregation d1)
              <= DiagnosticsManager.m_rateLimitUniquePerMinute d1 ->
            Int.in_range (DiagnosticsManager.m_aggregationWindowMs d1) ->
            DiagnosticsManager.m_lastErrorMessage d1 = message ->
            DiagnosticsManager.counted sig message c now t1 d1 ->
            DiagnosticsManager.within
              (DiagnosticsManager.m_aggregationWindowMs d1) t1 clocks ->
            1 <= c -> c + Z.of_nat (List.length clocks) <= Int.INT_MAX ->
            exists d',
              fold_left (DiagnosticsManager.repost code message severity source
                           metadata) clocks (Some d1) = Some d' /\
              DiagnosticsManager.counted sig message
                (c + Z.of_nat (List.length clocks)) now
                (DiagnosticsManager.last_reading t1 clocks) d' /\
              DiagnosticsManager.m_burstMode d' = false /\
              DiagnosticsManager.m_lastErrorMessage d' = message).
  { clear. intros clocks.
    induction clocks as [|[nw lt] r IH];
      intros d1 c t1 E1 B1 S1 W1 L1 C1 Hin Hc Hn.
    - cbn. exists d1. rewrite Z.add_0_r. auto.
    - cbn [fold_left DiagnosticsManager.repost fst snd
           DiagnosticsManager.within] in *.
      destruct Hin as (Hm & Hd & Hin).
      cbn [List.length] in Hn.
      assert (Hc' : Int.INT_MIN <= c < Int.INT_MAX)
        by (unfold Int.INT_MIN, Int.INT_MAX in *; lia).
      destruct (postError_counts code message severity source metadata d1 c
                  now t1 nw lt E1 B1 S1 W1 C1 Hm Hd Hc')
        as (d2 & P2 & C2 & E2 & B2 & S2 & W2 & L2).
      rewrite P2. rewrite <- W2 in Hin.
      assert (W1' : Int.in_range (DiagnosticsManager.m_aggregationWindowMs d2))
        by (rewrite W2; exact W1).
      destruct (IH d2 (c + 1) lt E2 B2 S2 W1' L2 C2 Hin ltac:(lia) ltac:(lia))
        as (d' & R & C' & B' & L').
      exists d'. split; [exact R|]. split; [|auto].
      replace (c + Z.of_nat (List.length ((nw, lt) :: r)))
        with (c + 1 + Z.of_nat (List.length r)) by (cbn [List.length]; lia).
      unfold DiagnosticsManager.last_reading in *. cbn [map snd].
      rewrite last_cons. exact C'. }
  destruct (G clocks d1 1 now E1 B1 S1 Hw' L1 C1 Hin ltac:(lia) Hn)
    as (d' & R & C' & B' & L').
  exists d'. auto.
Qed.

(** * The theorems at concrete inputs *)

(** C1 at the sequence admit A, admit B, remove A on a new bridge. *)
Lemma registry_active_reference_invariant_witness :
  let ops := [Bridge.OpAdmit "A" "10.0.0.1"; Bridge.OpAdmit "B" "10.0.0.2";
              Bridge.OpRemove "A"] in
  ClientModel.m_clients (Bridge.m_clientModel (Bridge.init 30)) = [] /\
  Bridge.m_activeClientId (Bridge.init 30) = "" /\
  ~ In "" (Bridge.admitted ops) /\
  Registry.active_reference_ok
    (Bridge.run (ext := Sample.externals) ops (Bridge.init 30)).
Proof.
  cbv zeta.
  assert (H : ~ In "" ["A"; "B"]) by (intros [H|[H|[]]]; discriminate).
  split; [reflexivity|]. split; [reflexivity|]. split; [exact H|].
  apply registry_active_reference_invariant; [reflexivity | reflexivity | exact H].
Defined.

(** C2 at a frame of the active client "A". *)
Lemma onFrameReceived_measures_and_forwards_witness :
  let b := Sample.bridge_with "A" in
  let e := ClientModel.mkEntry "A" "Active" "" 30 0 0 0 0 in
  let b' := Bridge.onFrameReceived 1700000000000 0 "A" Sample.frame b in
  View.lookup "A" (ClientModel.m_clients (Bridge.m_clientModel b)) = Some e /\
  Int.INT_MIN <= Bridge.m_frameId b < Int.INT_MAX /\
  Bridge.m_frameId b' = Bridge.m_frameId b + 1 /\
  Bridge.m_lastFrame b' = Sample.frame.
Proof.
  cbv zeta.
  assert (H1 : View.lookup "A"
                 (ClientModel.m_clients
                    (Bridge.m_clientModel (Sample.bridge_with "A")))
               = Some (ClientModel.mkEntry "A" "Active" "" 30 0 0 0 0))
    by reflexivity.
  assert (H2 : Int.INT_MIN <= Bridge.m_frameId (Sample.bridge_with "A")
               < Int.INT_MAX)
    by (split; [discriminate | reflexivity]).
  split; [exact H1|]. split; [exact H2|].
  destruct (onFrameReceived_measures_and_forwards
              (Sample.bridge_with "A") 1700000000000 0 "A"
              Sample.frame _ H1 H2) as (_ & _ & _ & Hact & _).
  destruct (Hact eq_refl) as (Hid & Hfr & _). split; [exact Hid | exact Hfr].
Defined.

(** C3 (amended) at the unknown id "ghost" while "A" is active. *)
Lemma setActiveClient_unknown_witness :
  let b := Sample.bridge_with "A" in
  let b' := Bridge.setActiveClient (ext := Sample.externals) "ghost" b in
  ~ In "ghost" (ClientModel.ids (Bridge.m_clientModel b)) /\
  Bridge.m_activeClientId b' = "ghost" /\
  Bridge.m_configuredFps b' = Bridge.m_configuredFps b /\
  Bridge.m_currentFps b' = Bridge.m_currentFps b.
Proof.
  cbv zeta.
  assert (H : ~ In "ghost"
                (ClientModel.ids (Bridge.m_clientModel (Sample.bridge_with "A"))))
    by (intros [H|[]]; discriminate).
  split; [exact H|].
  destruct (setActiveClient_unknown Sample.externals (Sample.bridge_with "A")
              "ghost" H) as (_ & Hne).
  destruct Hne as (H1 & _ & _ & H4 & H5 & _); [discriminate|].
  split; [exact H1|]. split; [exact H4|]. apply H5. reflexivity.
Defined.


(** C6 at the control frame "01 01 18" and the data frame "ff d8 00". *)
Lemma wire_discriminator_witness :
  Session.onBinaryMessageReceived (ext := Sample.externals) "s" [x01; x01; x18]
  = [Session.qDebug "Received ControlMessage from client";
     Session.controlMessageReceived "s" [x01; x18]] /\
  Session.onBinaryMessageReceived (ext := Sample.externals) "s" [xff; xd8; x00]
  = [Session.frameReceived "s" (mkImage 1 1 [xff; xd8; x00])].
Proof.
  split.
  - destruct (wire_discriminator Sample.externals "s" x01 [x01; x18])
      as (H & _). exact (H eq_refl).
  - destruct (wire_discriminator Sample.externals "s" xff [xd8; x00])
      as (_ & _ & H & _). apply H; discriminate.
Defined.


(** C9 (amended) at a teardown that starts on the I/O thread of an
    established connection and is completed by the exit helper. *)
Lemma teardown_discipline_witness :
  let c := Sample.connected in
  let sched := [Client.Teardown (Client.IoThread 2); Client.IoThreadExits;
                Client.Teardown (Client.ExitHelper 2)] in
  Client.owned c /\
  Client.single_flight c /\
  NoDup (Client.freed (Client.trace (Client.run sched c))) /\
  Client.count Client.is_disconnected (Client.run sched c) =
  (Client.count Client.is_disconnected c + 2)%nat.
Proof.
  cbv zeta.
  assert (H : Client.owned Sample.connected).
  { unfold Client.owned. vm_compute. repeat constructor; simpl.
    - intros [H|[]]. discriminate.
    - intros []. }
  assert (H' : Client.single_flight Sample.connected) by reflexivity.
  split; [exact H|]. split; [exact H'|].
  destruct (teardown_discipline Sample.connected
              [Client.Teardown (Client.IoThread 2); Client.IoThreadExits;
               Client.Teardown (Client.ExitHelper 2)] H H')
    as (H1 & _ & _ & H5).
  split; [exact H1 | exact H5].
Defined.

(** C10 at a second admission of "A". *)
Lemma addClient_existing_noop_witness :
  let m := ClientModel.addClient "A" "Connected" ClientModel.empty in
  In "A" (ClientModel.ids m) /\
  ClientModel.addClient "A" "Active" m = m.
Proof.
  cbv zeta.
  assert (H : In "A" (ClientModel.ids
                        (ClientModel.addClient "A" "Connected"
                                               ClientModel.empty)))
    by (left; reflexivity).
  split; [exact H|].
  exact (proj1 addClient_existing_noop _ "A" "Active" H).
Defined.

(** Removal of the active session "A" when "B" was admitted after it. *)
Lemma removing_active_promotes_first_witness :
  let ops := [Bridge.OpAdmit "A" "10.0.0.1"; Bridge.OpAdmit "B" "10.0.0.2"] in
  let b := Bridge.run (ext := Sample.externals) ops (Bridge.init 30) in
  Bridge.m_activeClientId b = "A" /\
  ~ In "" (Bridge.admitted ops) /\
  Bridge.m_activeClientId
    (Bridge.onSessionDisconnected (ext := Sample.externals) "A" b) = "B".
Proof.
  cbv zeta.
  assert (H : ~ In "" ["A"; "B"]) by (intros [H|[H|[]]]; discriminate).
  split; [reflexivity|]. split; [exact H|].
  destruct (removing_active_promotes_first Sample.externals (Bridge.init 30)
              [Bridge.OpAdmit "A" "10.0.0.1"; Bridge.OpAdmit "B" "10.0.0.2"]
              "A" (ClientModel.mkEntry "B" "Connected" "" 0 0 0 0 0) []
              eq_refl eq_refl H eq_refl eq_refl) as (H1 & _).
  exact H1.
Defined.

(** The steady stream starting at a concrete time. *)
Lemma steady_stream_measured_witness :
  Window.valid_ts 1700000000000 /\
  ClientModel.measuredFps
    (Window.feed (Window.evenly 1700000000000 33 32)
                 (ClientModel.newEntry "A" "Connected")) = 31.
Proof.
  assert (H1 : Window.valid_ts 1700000000000) by (split; reflexivity).
  split; [exact H1|].
  destruct (steady_stream_measured "A" "Connected" 1700000000000 H1)
    as (_ & H).
  rewrite H. reflexivity.
Defined.

(** X4 at the alias of the only row, which has none set. *)
Lemma data_agrees_with_accessors_witness :
  let m := Bridge.m_clientModel (Sample.bridge_with "A") in
  0 <= 0 < ClientModel.rowCount m /\
  Roles.data (Some 0) (Roles.value ClientModel.AliasRole) m
  = Some (VString "client_A").
Proof.
  cbv zeta.
  assert (H : 0 <= 0
              < ClientModel.rowCount
                  (Bridge.m_clientModel (Sample.bridge_with "A")))
    by (split; [discriminate | reflexivity]).
  split; [exact H|].
  destruct (data_agrees_with_accessors 0 0 _ H) as (_ & Ha & _). exact Ha.
Defined.

(** X5 at row 0 of a list that holds "A" alone. *)
Lemma index_and_id_are_inverse_witness :
  let m := Bridge.m_clientModel (Sample.bridge_with "A") in
  NoDup (ClientModel.ids m) /\
  ClientModel.indexOfClient "A" m = 0.
Proof.
  cbv zeta.
  assert (H : NoDup (ClientModel.ids
                       (Bridge.m_clientModel (Sample.bridge_with "A"))))
    by (repeat constructor; intros []).
  split; [exact H|].
  destruct (index_and_id_are_inverse
              (Bridge.m_clientModel (Sample.bridge_with "A")) 0 "A" H)
    as (Hto & _).
  destruct Hto as (Hi & _); [|exact Hi].
  split; [split; [discriminate | reflexivity] | reflexivity].
Defined.

(** X6 at the admission of "B" beside "A". *)
Lemma addClient_then_removeClient_witness :
  let m := Bridge.m_clientModel (Sample.bridge_with "A") in
  ~ In "B" (ClientModel.ids m) /\
  ClientModel.m_clients
    (ClientModel.removeClient "B" (ClientModel.addClient "B" "Connected" m))
  = ClientModel.m_clients m.
Proof.
  cbv zeta.
  assert (H : ~ In "B" (ClientModel.ids
                          (Bridge.m_clientModel (Sample.bridge_with "A"))))
    by (intros [H|[]]; discriminate).
  split; [exact H|].
  destruct (addClient_then_removeClient "B" "Connected" _ H)
    as (_ & _ & _ & _ & Hr & _). exact Hr.
Defined.

(** X7 at the removal of the only row. *)
Lemma removeClient_deletes_the_row_witness :
  let m := Bridge.m_clientModel (Sample.bridge_with "A") in
  NoDup (ClientModel.ids m) /\
  ~ In "A" (ClientModel.ids (ClientModel.removeClient "A" m)).
Proof.
  cbv zeta.
  assert (H : NoDup (ClientModel.ids
                       (Bridge.m_clientModel (Sample.bridge_with "A"))))
    by (repeat constructor; intros []).
  split; [exact H|].
  destruct (removeClient_deletes_the_row "A" _ H) as (Hin & _).
  destruct Hin as (_ & Hgone & _); [now left | exact Hgone].
Defined.

(** X11 at the alias "cam" announced by the active client "A". *)
Lemma alias_message_names_the_client_witness :
  let b := Sample.bridge_with "A" in
  let serialized := x04 :: list_byte_of_string "cam" in
  let msg := Control.set_alias "cam"
               (Control.set_type Control.ALIAS Control.default) in
  let b' := ImageServerBridge.onControlMessageReceived
              (ext := Wire.externals) "A" serialized b in
  ParseFromArray (Externals := Wire.externals) serialized = Some msg /\
  Control.alias msg <> "" /\
  ImageServerBridge.activeClientAlias b' = "cam".
Proof.
  cbv zeta.
  assert (H1 : ParseFromArray (Externals := Wire.externals)
                 (x04 :: list_byte_of_string "cam")
               = Some (Control.set_alias "cam"
                         (Control.set_type Control.ALIAS Control.default)))
    by reflexivity.
  assert (H2 : Control.alias
                 (Control.set_alias "cam"
                    (Control.set_type Control.ALIAS Control.default)) <> "")
    by discriminate.
  split; [exact H1|]. split; [exact H2|].
  destruct (alias_message_names_the_client (ext := Wire.externals)
              (Sample.bridge_with "A") "A" _ _
              (ClientModel.mkEntry "A" "Active" "" 30 0 0 0 0)
              H1 eq_refl H2 eq_refl) as (_ & _ & _ & Ha & _).
  exact (Ha eq_refl).
Defined.

(** X12 at one frame of the active client "A" and one of a stranger. *)
Lemma provider_serves_latest_active_frame_witness :
  let b := Sample.bridge_with "A" in
  let arrivals := [Stream.mkArrival "A" Sample.frame 1700000000000 0;
                   Stream.mkArrival "B" (mkImage 1 1 [xff; xd8])
                                    1700000000010 0] in
  Int.INT_MIN <= Bridge.m_frameId b /\
  Bridge.m_frameId b + 1 <= Int.INT_MAX /\
  fst (QmlImageProvider.requestImage (Some (Stream.run arrivals b)) None)
  = Sample.frame.
Proof.
  cbv zeta.
  assert (H1 : Int.INT_MIN <= Bridge.m_frameId (Sample.bridge_with "A"))
    by discriminate.
  assert (H2 : Bridge.m_frameId (Sample.bridge_with "A") + 1 <= Int.INT_MAX)
    by discriminate.
  split; [exact H1|]. split; [exact H2|].
  destruct (provider_serves_latest_active_frame (Sample.bridge_with "A")
              [Stream.mkArrival "A" Sample.frame 1700000000000 0;
               Stream.mkArrival "B" (mkImage 1 1 [xff; xd8]) 1700000000010 0]
              None H1 H2) as (_ & _ & Hf & _).
  exact Hf.
Defined.

(** X13 at a frame of the active client "A". *)
Lemma measured_rate_follows_active_row_witness :
  let b := Sample.bridge_with "A" in
  In "A" (ClientModel.ids (Bridge.m_clientModel b)) /\
  Bridge.m_clientModel
    (ImageServerBridge.recordFrameReceived 1700000000000 0 "A" b)
  = Bridge.m_clientModel
      (Bridge.onFrameReceived 1700000000000 0 "A" Sample.frame b).
Proof.
  cbv zeta.
  assert (H : In "A" (ClientModel.ids
                        (Bridge.m_clientModel (Sample.bridge_with "A"))))
    by (now left).
  split; [exact H|].
  destruct (measured_rate_follows_active_row (Sample.bridge_with "A")
              1700000000000 0 "A" Sample.frame H) as (H1 & H2 & _).
  exact (eq_trans H2 (eq_sym H1)).
Defined.

(** X15 at two connections and the loss of the first. *)
Lemma sessions_mirror_registry_witness :
  let evs := [ImageServerBridge.NewConnection "A" "10.0.0.1";
              ImageServerBridge.NewConnection "B" "10.0.0.2";
              ImageServerBridge.SocketDisconnected "A"] in
  Serving.mirrored (ImageServerBridge.bridge Wire.host) /\
  NoDup (ImageServerBridge.opened evs) /\
  Serving.mirrored
    (ImageServerBridge.bridge
       (ImageServerBridge.serve (ext := Wire.externals) evs Wire.host)).
Proof.
  cbv zeta.
  assert (H1 : Serving.mirrored (ImageServerBridge.bridge Wire.host))
    by reflexivity.
  assert (H2 : NoDup ["A"; "B"]).
  { repeat constructor.
    - intros [H|[]]. discriminate.
    - intros []. }
  split; [exact H1|]. split; [exact H2|].
  apply (sessions_mirror_registry (ext := Wire.externals) Wire.host
           [ImageServerBridge.NewConnection "A" "10.0.0.1";
            ImageServerBridge.NewConnection "B" "10.0.0.2";
            ImageServerBridge.SocketDisconnected "A"] H1 H2).
  intros x [].
Defined.

(** X16 at a run that changes the rate between two connections and then
    loses the active client. *)
Lemma configured_rate_in_force_witness :
  let evs := [ImageServerBridge.NewConnection "A" "10.0.0.1";
              ImageServerBridge.ConfigureFps 15;
              ImageServerBridge.NewConnection "B" "10.0.0.2";
              ImageServerBridge.SocketDisconnected "A"] in
  let b := ImageServerBridge.bridge
             (ImageServerBridge.serve (ext := Wire.externals) evs Wire.host) in
  Serving.vacant Wire.host /\
  Serving.serializes_rates (ext := Wire.externals) /\
  NoDup (ImageServerBridge.opened evs) /\
  ~ In "" (ImageServerBridge.opened evs) /\
  Bridge.m_currentFps b = Bridge.m_configuredFps b.
Proof.
  cbv zeta.
  assert (H1 : Serving.vacant Wire.host) by (repeat split).
  assert (H2 : Serving.serializes_rates (ext := Wire.externals))
    by (intros fps; cbn; discriminate).
  assert (H3 : NoDup ["A"; "B"]).
  { repeat constructor.
    - intros [H|[]]. discriminate.
    - intros []. }
  assert (H4 : ~ In "" ["A"; "B"]) by (intros [H|[H|[]]]; discriminate).
  split; [exact H1|]. split; [exact H2|]. split; [exact H3|].
  split; [exact H4|].
  destruct (configured_rate_in_force (ext := Wire.externals) Wire.host
              [ImageServerBridge.NewConnection "A" "10.0.0.1";
               ImageServerBridge.ConfigureFps 15;
               ImageServerBridge.NewConnection "B" "10.0.0.2";
               ImageServerBridge.SocketDisconnected "A"] H1 H2 H3 H4)
    as (Hforce & _).
  destruct Hforce as (Hc & _); [vm_compute; discriminate | exact Hc].
Defined.

(** X17 at a run in which the active client leaves and an alias arrives. *)
Lemma active_reference_survives_all_events_witness :
  let evs := [ImageServerBridge.NewConnection "A" "10.0.0.1";
              ImageServerBridge.NewConnection "B" "10.0.0.2";
              ImageServerBridge.BinaryMessage
                "B" (x01 :: x04 :: list_byte_of_string "cam") 5 6;
              ImageServerBridge.SocketDisconnected "A"] in
  Serving.vacant Wire.host /\
  ~ In "" (ImageServerBridge.opened evs) /\
  Registry.active_reference_ok
    (ImageServerBridge.bridge
       (ImageServerBridge.serve (ext := Wire.externals) evs Wire.host)).
Proof.
  cbv zeta.
  assert (H1 : Serving.vacant Wire.host) by (repeat split).
  assert (H2 : ~ In "" ["A"; "B"]) by (intros [H|[H|[]]]; discriminate).
  split; [exact H1|]. split; [exact H2|].
  exact (active_reference_survives_all_events (ext := Wire.externals)
           Wire.host
           [ImageServerBridge.NewConnection "A" "10.0.0.1";
            ImageServerBridge.NewConnection "B" "10.0.0.2";
            ImageServerBridge.BinaryMessage
              "B" (x01 :: x04 :: list_byte_of_string "cam") 5 6;
            ImageServerBridge.SocketDisconnected "A"] H1 H2).
Defined.

(** X18 at the connection of "B" while "A" is active. *)
Lemma later_session_is_only_asked_for_alias_witness :
  let h := Wire.host_with "A" in
  let b := ImageServerBridge.bridge h in
  let b' := ImageServerBridge.bridge
              (ImageServerBridge.onNewConnection (ext := Wire.externals)
                 (Some ("B", "10.0.0.2")) h) in
  Bridge.m_activeClientId b <> "" /\
  ~ In "B" (ClientModel.ids (Bridge.m_clientModel b)) /\
  SerializeToString (Externals := Wire.externals) Serving.alias_request
  = Some [x03] /\
  Server.sent (Bridge.m_server b')
  = Server.sent (Bridge.m_server b) ++ [("B", [x01; x03])].
Proof.
  cbv zeta.
  assert (H1 : Bridge.m_activeClientId
                 (ImageServerBridge.bridge (Wire.host_with "A")) <> "")
    by discriminate.
  assert (H2 : ~ In "B" (ClientModel.ids
                           (Bridge.m_clientModel
                              (ImageServerBridge.bridge (Wire.host_with "A")))))
    by (intros [H|[]]; discriminate).
  assert (H3 : SerializeToString (Externals := Wire.externals)
                 Serving.alias_request = Some [x03]) by reflexivity.
  split; [exact H1|]. split; [exact H2|]. split; [exact H3|].
  destruct (later_session_is_only_asked_for_alias (ext := Wire.externals)
              (Wire.host_with "A") "B" "10.0.0.2" [x03] 8080
              eq_refl H1 (or_introl eq_refl) H2 H3) as (Hs & _).
  exact Hs.
Defined.

(** X19 at the first connection to a server configured for 30 frames per
    second. *)
Lemma first_session_is_configured_then_asked_witness :
  let b' := ImageServerBridge.bridge
              (ImageServerBridge.onNewConnection (ext := Wire.externals)
                 (Some ("A", "10.0.0.1")) Wire.host) in
  Serving.vacant Wire.host /\
  SerializeToString (Externals := Wire.externals)
    (Serving.set_fps_message 30) = Some [x01; x1e] /\
  Server.sent (Bridge.m_server b')
  = [("A", [x01; x01; x1e]); ("A", [x01; x01; x1e]); ("A", [x01; x03])].
Proof.
  cbv zeta.
  assert (H1 : Serving.vacant Wire.host) by (repeat split).
  assert (H2 : SerializeToString (Externals := Wire.externals)
                 (Serving.set_fps_message 30) = Some [x01; x1e])
    by reflexivity.
  split; [exact H1|]. split; [exact H2|].
  destruct (first_session_is_configured_then_asked (ext := Wire.externals)
              Wire.host "A" "10.0.0.1" [x01; x1e] [x03] 8080
              eq_refl H1 ltac:(discriminate) H2 eq_refl) as (Hs & _).
  exact Hs.
Defined.

(** X20 at the rate 15 commanded while "A" is active. *)
Lemma rate_command_reaches_the_client_witness :
  let b := Sample.bridge_with "A" in
  let p' := WebSocketImageClient.onRead (ext := Wire.externals)
              (Client.IoThread 2)
              (WebSocketImageClient.ReadMessage [x01; x01; x0f]) Wire.peer in
  In (Bridge.m_activeClientId b) (Server.m_sessions (Bridge.m_server b)) /\
  ParseFromArray (Externals := Wire.externals) [x01; x0f]
  = Some (Serving.set_fps_message 15) /\
  Server.sent (Bridge.m_server (Bridge.setFps (ext := Wire.externals) 15 b))
  = Server.sent (Bridge.m_server b) ++ [("A", [x01; x01; x0f])] /\
  WebSocketImageClient.configuredFps p' = 15.
Proof.
  cbv zeta.
  assert (H1 : In (Bridge.m_activeClientId (Sample.bridge_with "A"))
                  (Server.m_sessions
                     (Bridge.m_server (Sample.bridge_with "A"))))
    by (now left).
  assert (H2 : ParseFromArray (Externals := Wire.externals) [x01; x0f]
               = Some (Serving.set_fps_message 15)) by reflexivity.
  split; [exact H1|]. split; [exact H2|].
  destruct (rate_command_reaches_the_client (ext := Wire.externals)
              (Sample.bridge_with "A") Wire.peer (Client.IoThread 2) 15
              [x01; x0f] ltac:(discriminate) H1 eq_refl H2)
    as (Hs & _ & Hc & _).
  split; [exact Hs | exact Hc].
Defined.

(** X21 at the client "cam" answering the request of the server that
    knows it as "A". *)
Lemma alias_handshake_witness :
  let h := Wire.host_with "A" in
  let reply := x04 :: list_byte_of_string "cam" in
  let p' := WebSocketImageClient.onRead (ext := Wire.externals)
              (Client.IoThread 2)
              (WebSocketImageClient.ReadMessage [x01; x03]) Wire.peer in
  let h' := ImageServerBridge.onBinaryMessage (ext := Wire.externals)
              5 6 "A" (x01 :: reply) h in
  WebSocketImageClient.not_connected (WebSocketImageClient.impl Wire.peer)
  = false /\
  WebSocketImageClient.written p' = [x01 :: reply] /\
  ClientModel.aliasAt
    (ClientModel.indexOfClient
       "A" (Bridge.m_clientModel (ImageServerBridge.bridge h')))
    (Bridge.m_clientModel (ImageServerBridge.bridge h')) = "cam".
Proof.
  cbv zeta.
  assert (H1 : WebSocketImageClient.not_connected
                 (WebSocketImageClient.impl Wire.peer) = false)
    by reflexivity.
  split; [exact H1|].
  destruct (alias_handshake (ext := Wire.externals) (Wire.host_with "A")
              Wire.peer (Client.IoThread 2) "A" [x03]
              (x04 :: list_byte_of_string "cam") Serving.alias_request
              (ClientModel.mkEntry "A" "Active" "" 30 0 0 0 0) 5 6
              H1 eq_refl eq_refl eq_refl eq_refl eq_refl)
    as (Hw & _ & Ha).
  split; [exact Hw|].
  destruct Ha as (Ha & _); [discriminate|].
  exact Ha.
Defined.

(** X22 at a frame that starts with the JPEG marker. *)
Lemma sent_frame_reaches_the_bridge_witness :
  let jpeg := [xff; xd8; x00] in
  WebSocketImageClient.not_connected (WebSocketImageClient.impl Wire.peer)
  = false /\
  loadFromData (Externals := Wire.externals) jpeg
  = Some (mkImage 1 1 jpeg) /\
  fst (WebSocketImageClient.sendFrame jpeg Wire.peer) = true /\
  Bridge.m_lastFrame
    (ImageServerBridge.bridge
       (ImageServerBridge.onBinaryMessage (ext := Wire.externals)
          1700000000000 0 "A" jpeg (Wire.host_with "A")))
  = mkImage 1 1 jpeg.
Proof.
  cbv zeta.
  assert (H1 : WebSocketImageClient.not_connected
                 (WebSocketImageClient.impl Wire.peer) = false)
    by reflexivity.
  assert (H2 : loadFromData (Externals := Wire.externals) [xff; xd8; x00]
               = Some (mkImage 1 1 [xff; xd8; x00])) by reflexivity.
  split; [exact H1|]. split; [exact H2|].
  destruct (sent_frame_reaches_the_bridge (ext := Wire.externals)
              (Wire.host_with "A") Wire.peer "A" xff [xd8; x00]
              (mkImage 1 1 [xff; xd8; x00]) 1700000000000 0
              H1 ltac:(discriminate) ltac:(discriminate) H2)
    as (Hs & _ & _ & Hb).
  split; [exact Hs|]. rewrite Hb. reflexivity.
Defined.

(** X23 at a client that was never connected. *)
Lemma sending_while_disconnected_witness :
  let p := WebSocketImageClient.create true true true in
  WebSocketImageClient.not_connected (WebSocketImageClient.impl p) = true /\
  fst (WebSocketImageClient.sendFrame [xff; xd8] p) = false /\
  fst (WebSocketImageClient.sendControlMessage [x03] p) = false.
Proof.
  cbv zeta.
  assert (H : WebSocketImageClient.not_connected
                (WebSocketImageClient.impl
                   (WebSocketImageClient.create true true true)) = true)
    by reflexivity.
  split; [exact H|].
  destruct (sending_while_disconnected
              (WebSocketImageClient.create true true true) [xff; xd8]
              Client.Controller H) as (H1 & _).
  split; [exact H1|].
  destruct (sending_while_disconnected
              (WebSocketImageClient.create true true true) [x03]
              Client.Controller H) as (_ & H2 & _).
  exact H2.
Defined.

(** X26 at a second report of an entry already listed. *)
Lemma upsertEntry_updates_or_prepends_witness :
  let m := DiagnosticsModel.mkModel [Wire.entry "a"; Wire.entry "b"] 500 [] in
  NoDup (DiagnosticsModel.ids m) /\
  0 <= DiagnosticsModel.m_maxEntries m /\
  exists m',
    DiagnosticsModel.upsertEntry (Wire.entry "b") m = Some m' /\
    NoDup (DiagnosticsModel.ids m').
Proof.
  cbv zeta.
  assert (H1 : NoDup (DiagnosticsModel.ids
                        (DiagnosticsModel.mkModel
                           [Wire.entry "a"; Wire.entry "b"] 500 []))).
  { repeat constructor.
    - intros [H|[]]. discriminate.
    - intros []. }
  assert (H2 : 0 <= DiagnosticsModel.m_maxEntries
                      (DiagnosticsModel.mkModel
                         [Wire.entry "a"; Wire.entry "b"] 500 []))
    by discriminate.
  split; [exact H1|]. split; [exact H2|].
  destruct (upsertEntry_updates_or_prepends (Wire.entry "b") _ H1 H2)
    as (m' & Hu & _ & Hn & _).
  exists m'. split; [exact Hu | exact Hn].
Defined.

(** X28 at two reports, a limit of one row, a third report and a reset. *)
Lemma diagnostics_stay_bounded_and_distinct_witness :
  let ops := [DiagnosticsModel.Upsert (Wire.entry "a");
              DiagnosticsModel.Upsert (Wire.entry "b");
              DiagnosticsModel.SetMax 1;
              DiagnosticsModel.Upsert (Wire.entry "c");
              DiagnosticsModel.Clear] in
  DiagnosticsModel.limits_ok ops /\
  exists m',
    DiagnosticsModel.run ops DiagnosticsModel.empty = Some m' /\
    DiagnosticsModel.rowCount m' <= DiagnosticsModel.m_maxEntries m'.
Proof.
  cbv zeta.
  assert (H : DiagnosticsModel.limits_ok
                [DiagnosticsModel.Upsert (Wire.entry "a");
                 DiagnosticsModel.Upsert (Wire.entry "b");
                 DiagnosticsModel.SetMax 1;
                 DiagnosticsModel.Upsert (Wire.entry "c");
                 DiagnosticsModel.Clear])
    by (simpl; split; [discriminate | exact I]).
  split; [exact H|].
  destruct (diagnostics_stay_bounded_and_distinct _ DiagnosticsModel.empty
              (NoDup_nil _) ltac:(discriminate) H) as (m' & Hr & _ & Hb).
  exists m'. split; [exact Hr | exact Hb].
Defined.

(** X29 at three posts of one error, 400 ms apart. *)
Lemma repeated_error_is_counted_witness :
  let d := DiagnosticsManager.init in
  let clocks := [(400, 401); (800, 801)] in
  DiagnosticsManager.within (DiagnosticsManager.m_aggregationWindowMs d)
                            0 clocks /\
  exists d',
    fold_left (DiagnosticsManager.repost (sha := Wire.digest)
                 1002 "failed to bind" 0 "server" [])
              ((0, 1) :: clocks) (Some d) = Some d' /\
    DiagnosticsManager.counted "1002|server|failed to bind" "failed to bind"
                               3 0 801 d'.
Proof.
  cbv zeta.
  assert (H : DiagnosticsManager.within
                (DiagnosticsManager.m_aggregationWindowMs
                   DiagnosticsManager.init) 0 [(400, 401); (800, 801)]).
  { simpl. repeat split; discriminate. }
  split; [exact H|].
  destruct (repeated_error_is_counted (sha := Wire.digest)
              DiagnosticsManager.init 1002 "failed to bind" 0 "server" []
              0 1 [(400, 401); (800, 801)]
              eq_refl eq_refl eq_refl eq_refl
              ltac:(split; discriminate) ltac:(intros []) ltac:(discriminate)
              H ltac:(discriminate)) as (d' & Hr & Hc & _).
  exists d'. split; [exact Hr | exact Hc].
Defined.
